(** * LocatorLabs MCP: locator ranking and element identification

    A shallow embedding of the locator engine of locatorlabs-mcp
    (src/tools/analyze-page.ts, src/tools/get-locators.ts and
    src/core/locator-engine.ts) together with the properties its
    specification states about it.

    Modelling conventions.
    - A JavaScript string is a [string]: a sequence of code units below 256
      (the Latin-1 range of UTF-16), so [length] is the JavaScript [length].
    - An optional field [f?: string] is an [option string]; [undefined] is
      [None].  The truthiness test of JavaScript is [truthy].
    - Numbers (reliability, scores) are integers and live in [Z]; element
      counts live in [nat].
    - Everything that happens inside the browser (navigation, DOM extraction,
      resolution of a locator) belongs to the driver: the extracted element
      list is an input of the functions below, and the driver calls used by
      the validator are the fields of a [Driver] record. *)

From Stdlib Require Import String Ascii List ZArith Bool Lia Arith.
From Stdlib Require Import Sorted Permutation DecimalString.
Import ListNotations.

Local Open Scope string_scope.
Local Open Scope Z_scope.

(** ** JavaScript string primitives *)

Module Js.

(** [String.prototype.toLowerCase] on code units below 256: the letters
    A-Z, and U+00C0-U+00DE except the multiplication sign U+00D7, move up
    by 32; every other code unit is unchanged. *)
Definition lower_char (c : ascii) : ascii :=
  let n := nat_of_ascii c in
  if ((65 <=? n) && (n <=? 90))%nat
     || ((192 <=? n) && (n <=? 222) && negb (n =? 215))%nat
  then ascii_of_nat (n + 32) else c.

Fixpoint toLowerCase (s : string) : string :=
  match s with
  | EmptyString => EmptyString
  | String c r => String (lower_char c) (toLowerCase r)
  end.

(** The class [\s] of regular expressions, below 256: TAB, LF, VT, FF, CR,
    SPACE and NO-BREAK SPACE. *)
Definition is_space (c : ascii) : bool :=
  let n := nat_of_ascii c in
  ((9 <=? n) && (n <=? 13) || (n =? 32) || (n =? 160))%nat.

(** The class [\w]: letters, digits and underscore. *)
Definition is_word (c : ascii) : bool :=
  let n := nat_of_ascii c in
  ((48 <=? n) && (n <=? 57) || (65 <=? n) && (n <=? 90)
   || (97 <=? n) && (n <=? 122) || (n =? 95))%nat.

(** [s.startsWith(p)] *)
Definition startsWith (s p : string) : bool := prefix p s.

(** [s.includes(kw)]: [kw] occurs in [s] at some position. *)
Fixpoint includes (s kw : string) : bool :=
  if prefix kw s then true
  else match s with
       | EmptyString => false
       | String _ r => includes r kw
       end.

(** [s.substring(0, n)] *)
Definition substring0 (n : nat) (s : string) : string := substring 0 n s.

(** [s.replace(/c/g, by)] for a pattern that is one literal character and a
    replacement without [$]: every occurrence of [c] becomes [by]. *)
Fixpoint replace_all (c : ascii) (by_ : string) (s : string) : string :=
  match s with
  | EmptyString => EmptyString
  | String d r =>
      if Ascii.eqb d c then by_ ++ replace_all c by_ r
      else String d (replace_all c by_ r)
  end.

(** [s.split(/\s+/)]: the pieces between maximal runs of white space.  The
    scanner keeps the piece being read in [cur]; [in_ws] tells that the
    previous character belonged to a separator, which has already closed a
    piece.  The piece after the last separator is always emitted, so the
    empty string splits into one empty piece and a separator at either end
    contributes an empty piece. *)
Fixpoint split_ws_from (in_ws : bool) (cur : string) (s : string) : list string :=
  match s with
  | EmptyString => [cur]
  | String c r =>
      if is_space c then
        if in_ws then split_ws_from true cur r
        else cur :: split_ws_from true EmptyString r
      else split_ws_from false (cur ++ String c EmptyString) r
  end.

Definition split_ws (s : string) : list string :=
  split_ws_from false EmptyString s.

(** [s.split(" ")[0]]: the piece before the first space. *)
Fixpoint before_space (s : string) : string :=
  match s with
  | EmptyString => EmptyString
  | String c r => if Ascii.eqb c " " then EmptyString else String c (before_space r)
  end.

(** [parts.join(sep)] *)
Fixpoint join (sep : string) (parts : list string) : string :=
  match parts with
  | [] => EmptyString
  | [p] => p
  | p :: rest => p ++ sep ++ join sep rest
  end.

(** Truthiness of an optional string: defined and not empty. *)
Definition truthy (o : option string) : bool :=
  match o with
  | Some (String _ _) => true
  | _ => false
  end.

Definition truthy_str (s : string) : bool :=
  match s with
  | EmptyString => false
  | String _ _ => true
  end.

(** [a || b] on optional strings. *)
Definition or_else (a b : option string) : option string :=
  if truthy a then a else b.

(** The text a template literal interpolates for an optional string that
    the code has tested to be truthy. *)
Definition str (o : option string) : string :=
  match o with
  | Some s => s
  | None => "undefined"
  end.

(** [x?.toLowerCase()] *)
Definition lower_opt (o : option string) : option string :=
  option_map toLowerCase o.

(** [x?.toLowerCase().includes(kw)], where [undefined] is falsy. *)
Definition opt_includes (o : option string) (kw : string) : bool :=
  match o with
  | Some s => includes (toLowerCase s) kw
  | None => false
  end.

(** [x?.toLowerCase() === kw] *)
Definition opt_lower_equals (o : option string) (kw : string) : bool :=
  match o with
  | Some s => String.eqb (toLowerCase s) kw
  | None => false
  end.

(** [[...].filter(Boolean)] on a list of optional strings. *)
Definition filter_Boolean (l : list (option string)) : list string :=
  flat_map (fun o => if truthy o then [str o] else []) l.

(** [xs.slice(0, n)] *)
Definition slice0 {A} (n : nat) (l : list A) : list A := firstn n l.

(** [Array.prototype.sort(cmp)].  The sort is stable: of two elements the
    one that comes first stays first unless the comparator returns a
    positive number for them.  The result of a stable sort is determined by
    the comparator, so it is computed here by stable insertion. *)
Fixpoint insert_by {A} (cmp : A -> A -> Z) (x : A) (l : list A) : list A :=
  match l with
  | [] => [x]
  | y :: l' => if cmp x y <=? 0 then x :: l else y :: insert_by cmp x l'
  end.

Definition sort {A} (cmp : A -> A -> Z) (l : list A) : list A :=
  fold_right (insert_by cmp) [] l.

(** Decimal text of a count, as a template literal prints it. *)
Definition number_to_string (n : nat) : string :=
  NilZero.string_of_uint (Nat.to_uint n).

End Js.

(** ** Data model *)

(** [ElementInfo]: the snapshot of one interactive element the extractor
    produces.  The three tools declare the same interface ([value] is absent
    from the one of analyze-page.ts, where it is never read). *)
Record ElementInfo := {
  tagName : string;
  id : option string;
  name : option string;
  className : option string;
  type : option string;
  placeholder : option string;
  text : option string;
  ariaLabel : option string;
  role : option string;
  testId : option string;
  href : option string;
  title : option string;
  value : option string;
  xpath : string;
  selector : string
}.

(** [LocatorResult]; [kind] is the field the source calls [type]. *)
Record LocatorResult := {
  kind : string;
  locator : string;
  reliability : Z;
  description : string
}.

(** [PageElement]; [elementType] is the field the source calls [type]. *)
Record PageElement := {
  element : string;
  elementType : string;
  locators : list LocatorResult;
  recommended : string
}.

Record AnalyzePageResult := {
  url : string;
  totalElements : nat;
  returnedElements : nat;
  truncated : bool;
  elements : list PageElement
}.

Record SeleniumLocator := {
  java : string;
  python : string;
  csharp : string
}.

Record ValidationResult := {
  isValid : bool;
  matchCount : nat;
  isUnique : bool;
  suggestions : list string
}.

(** The double quote character, for the template literals that contain it. *)
Definition dquote : string := String (ascii_of_nat 34) EmptyString.

(** ** Object literals used as lookup tables

    [roleMap[tag]] reads a property of an object literal.  The literal's own
    properties come first; a key that is not an own property is looked up on
    [Object.prototype], whose members are all truthy (functions, or the
    prototype object itself for [__proto__]). *)

Inductive PropertyValue :=
| Own (v : string)
| FromPrototype (key : string).

Definition object_prototype_keys : list string :=
  [ "constructor"; "__defineGetter__"; "__defineSetter__"; "hasOwnProperty";
    "__lookupGetter__"; "__lookupSetter__"; "isPrototypeOf";
    "propertyIsEnumerable"; "toString"; "valueOf"; "__proto__";
    "toLocaleString" ].

Fixpoint own_property (obj : list (string * string)) (key : string) : option string :=
  match obj with
  | [] => None
  | (k, v) :: rest => if String.eqb k key then Some v else own_property rest key
  end.

Definition get_property (obj : list (string * string)) (key : string)
  : option PropertyValue :=
  match own_property obj key with
  | Some v => Some (Own v)
  | None =>
      if existsb (String.eqb key) object_prototype_keys
      then Some (FromPrototype key) else None
  end.

Definition value_truthy (v : option PropertyValue) : bool :=
  match v with
  | Some (Own s) => Js.truthy_str s
  | Some (FromPrototype _) => true
  | None => false
  end.

(** The text a template literal interpolates for a property value. *)
Definition value_text (v : PropertyValue) : string :=
  match v with
  | Own s => s
  | FromPrototype key =>
      if String.eqb key "__proto__" then "[object Object]"
      else if String.eqb key "constructor" then "function Object() { [native code] }"
      else "function " ++ key ++ "() { [native code] }"
  end.

(** The comparator of every [rankLocators]:
    [(a, b) => b.reliability - a.reliability]. *)
Definition by_reliability (a b : LocatorResult) : Z :=
  reliability b - reliability a.

(** ** src/tools/analyze-page.ts *)

Module AnalyzePageTool.

Definition MAX_ELEMENTS : nat := 50.
Definition MAX_TEXT_LENGTH : nat := 100.
Definition MAX_LOCATORS_PER_ELEMENT : nat := 5.

Definition escape (s : string) : string :=
  Js.substring0 MAX_TEXT_LENGTH
    (Js.replace_all "'" "\'" (Js.replace_all "\" "\\" s)).

Definition roleMap : list (string * string) :=
  [ ("button", "button"); ("a", "link"); ("select", "combobox");
    ("textarea", "textbox"); ("img", "img") ].

Definition inputRoles : list (string * string) :=
  [ ("submit", "button"); ("button", "button"); ("checkbox", "checkbox");
    ("radio", "radio"); ("text", "textbox"); ("email", "textbox");
    ("password", "textbox"); ("search", "searchbox"); ("number", "spinbutton") ].

Definition inferRole (el : ElementInfo) : option PropertyValue :=
  let tag := Js.toLowerCase (tagName el) in
  let type := Js.lower_opt (type el) in
  if value_truthy (get_property roleMap tag) then get_property roleMap tag
  else if String.eqb tag "input" then
    let key := if Js.truthy type then Js.str type else "text" in
    if value_truthy (get_property inputRoles key)
    then get_property inputRoles key
    else Some (Own "textbox")
  else None.

Definition generateLocators (el : ElementInfo) : list LocatorResult :=
  let role :=
    if Js.truthy (role el) then Some (Own (Js.str (role el))) else inferRole el in
  (* 1. Test ID (highest priority) *)
  (if Js.truthy (testId el) then
     [ {| kind := "testId";
          locator := "getByTestId('" ++ Js.str (testId el) ++ "')";
          reliability := 98;
          description := "Best - explicitly set for testing" |} ]
   else [])
  (* 2. Role-based with name *)
  ++ (match role with
      | Some r =>
          if value_truthy role then
            let name := Js.or_else (Js.or_else (ariaLabel el) (text el)) (title el) in
            if Js.truthy name then
              [ {| kind := "role";
                   locator := "getByRole('" ++ value_text r ++ "', { name: '"
                              ++ escape (Js.str name) ++ "' })";
                   reliability := 95;
                   description := "Playwright recommended - accessible and stable" |} ]
            else
              [ {| kind := "role";
                   locator := "getByRole('" ++ value_text r ++ "')";
                   reliability := 70;
                   description := "Role without name - may match multiple elements" |} ]
          else []
      | None => []
      end)
  (* 3. Label (for form elements) *)
  ++ (if Js.truthy (ariaLabel el) then
        [ {| kind := "label";
             locator := "getByLabel('" ++ escape (Js.str (ariaLabel el)) ++ "')";
             reliability := 90;
             description := "Accessible label-based locator" |} ]
      else [])
  (* 4. Placeholder *)
  ++ (if Js.truthy (placeholder el) then
        [ {| kind := "placeholder";
             locator := "getByPlaceholder('" ++ escape (Js.str (placeholder el)) ++ "')";
             reliability := 85;
             description := "Good for form inputs" |} ]
      else [])
  (* 5. Text-based (not for inputs) *)
  ++ (if Js.truthy (text el)
         && negb (existsb (String.eqb (tagName el)) ["input"; "textarea"]) then
        [ {| kind := "text";
             locator := "getByText('" ++ escape (Js.str (text el)) ++ "')";
             reliability := 75;
             description := "Text content - may break if text changes" |} ]
      else [])
  (* 6. ID-based *)
  ++ (if Js.truthy (id el) then
        [ {| kind := "id";
             locator := "locator('#" ++ Js.str (id el) ++ "')";
             reliability := 90;
             description := "ID selector - stable if ID is meaningful" |} ]
      else [])
  (* 7. CSS selector *)
  ++ (if Js.truthy_str (selector el) && negb (String.eqb (selector el) (tagName el)) then
        [ {| kind := "css";
             locator := "locator('" ++ selector el ++ "')";
             reliability := 60;
             description := "CSS selector - may be brittle" |} ]
      else [])
  (* 8. XPath (lowest priority) *)
  ++ [ {| kind := "xpath";
          locator := "locator(" ++ dquote ++ xpath el ++ dquote ++ ")";
          reliability := 40;
          description := "XPath - avoid unless necessary" |} ].

(** [[...locators].sort(...)]: a sorted copy. *)
Definition rankLocators (locators : list LocatorResult) : list LocatorResult :=
  Js.sort by_reliability locators.

Definition describeElement (el : ElementInfo) : string :=
  let p_text : list string :=
    if Js.truthy (text el)
    then [(dquote ++ Js.substring0 30 (Js.str (text el)) ++ dquote)%string] else [] in
  let p_placeholder : list string :=
    if Js.truthy (placeholder el)
    then [("placeholder=" ++ dquote ++ Js.str (placeholder el) ++ dquote)%string] else [] in
  let p_label : list string :=
    if Js.truthy (ariaLabel el)
    then [("aria-label=" ++ dquote ++ Js.str (ariaLabel el) ++ dquote)%string] else [] in
  let p_type : list string :=
    if Js.truthy (type el) && negb (String.eqb (Js.str (type el)) (tagName el))
    then [("type=" ++ Js.str (type el))%string] else [] in
  let p_name : list string :=
    if Js.truthy (name el)
    then [("name=" ++ dquote ++ Js.str (name el) ++ dquote)%string] else [] in
  let parts : list string :=
    (p_text ++ p_placeholder ++ p_label ++ p_type ++ p_name
     ++ [("<" ++ tagName el ++ ">")%string])%list in
  if Js.truthy_str (Js.join " " parts) then Js.join " " parts else tagName el.

(** The element-type filter of [execute]. *)
Definition matchesTypes (elementTypes : list string) (el : ElementInfo) : bool :=
  existsb (fun t =>
             Js.includes (Js.toLowerCase (tagName el)) (Js.toLowerCase t)
             || Js.opt_includes (type el) (Js.toLowerCase t)
             || Js.opt_includes (role el) (Js.toLowerCase t))
          elementTypes.

Definition filterElements (allElements : list ElementInfo)
    (elementTypes : option (list string)) : list ElementInfo :=
  match elementTypes with
  | Some (t :: ts) => filter (matchesTypes (t :: ts)) allElements
  | _ => allElements
  end.

Definition toPageElement (el : ElementInfo) : PageElement :=
  let locators := generateLocators el in
  let ranked := Js.slice0 MAX_LOCATORS_PER_ELEMENT (rankLocators locators) in
  {| element := describeElement el;
     elementType := Js.toLowerCase (tagName el);
     locators := ranked;
     recommended :=
       match ranked with
       | r :: _ => if Js.truthy_str (locator r) then locator r else "N/A"
       | [] => "N/A"
       end |}.

(** [execute], after the driver has navigated to [url] and extracted
    [allElements] from the page. *)
Definition execute (url : string) (allElements : list ElementInfo)
    (elementTypes : option (list string)) : AnalyzePageResult :=
  let filtered := filterElements allElements elementTypes in
  let truncated := (MAX_ELEMENTS <? length filtered)%nat in
  let limited := Js.slice0 MAX_ELEMENTS filtered in
  let elements := map toPageElement limited in
  {| url := url;
     totalElements := length allElements;
     returnedElements := length elements;
     truncated := truncated;
     elements := elements |}.

End AnalyzePageTool.

(** ** src/tools/get-locators.ts *)

Module GetLocatorsTool.

Definition MAX_TEXT_LENGTH : nat := 100.
Definition MAX_LOCATORS : nat := 10.

Definition escape (s : string) : string :=
  Js.substring0 MAX_TEXT_LENGTH
    (Js.replace_all "'" "\'" (Js.replace_all "\" "\\" s)).

(** The lowercased text a description is matched against. *)
Definition searchText (el : ElementInfo) : string :=
  Js.toLowerCase
    (Js.join " "
       (Js.filter_Boolean
          [ id el; name el; className el; text el; placeholder el;
            ariaLabel el; type el; title el; Some (tagName el); role el;
            testId el ])).

(** One iteration of [for (const keyword of keywords)]. *)
Definition scoreStep (el : ElementInfo) (score : Z) (keyword : string) : Z :=
  if Js.includes (searchText el) keyword then
    let score := score + 1 in
    (* Bonus for exact matches in important fields *)
    let score := if Js.opt_lower_equals (id el) keyword then score + 3 else score in
    let score := if Js.opt_includes (testId el) keyword then score + 3 else score in
    let score := if Js.opt_includes (ariaLabel el) keyword then score + 2 else score in
    let score := if Js.opt_includes (text el) keyword then score + 2 else score in
    let score := if Js.opt_includes (placeholder el) keyword then score + 2 else score in
    score
  else score.

Definition scoreElement (keywords : list string) (el : ElementInfo) : Z :=
  fold_left (scoreStep el) keywords 0.

(** [findMatchingElements], after the driver has extracted [allElements]. *)
Definition findMatchingElements (allElements : list ElementInfo)
    (description : string) : list ElementInfo :=
  let keywords := Js.split_ws (Js.toLowerCase description) in
  (* Score each element based on keyword matches *)
  let scored := map (fun el => (el, scoreElement keywords el)) allElements in
  (* Filter and sort by score *)
  map fst
    (Js.sort (fun a b => snd b - snd a)
       (filter (fun s => snd s >? 0) scored)).

Definition roleMap : list (string * string) :=
  [ ("button", "button"); ("a", "link"); ("select", "combobox");
    ("textarea", "textbox"); ("img", "img") ].

Definition inputRoles : list (string * string) :=
  [ ("submit", "button"); ("button", "button"); ("checkbox", "checkbox");
    ("radio", "radio"); ("text", "textbox"); ("email", "textbox");
    ("password", "textbox"); ("search", "searchbox"); ("number", "spinbutton") ].

Definition inferRole (el : ElementInfo) : option PropertyValue :=
  let tag := Js.toLowerCase (tagName el) in
  let type := Js.lower_opt (type el) in
  if value_truthy (get_property roleMap tag) then get_property roleMap tag
  else if String.eqb tag "input" then
    let key := if Js.truthy type then Js.str type else "text" in
    if value_truthy (get_property inputRoles key)
    then get_property inputRoles key
    else Some (Own "textbox")
  else None.

Definition generateLocators (el : ElementInfo) : list LocatorResult :=
  let role :=
    if Js.truthy (role el) then Some (Own (Js.str (role el))) else inferRole el in
  (* 1. Test ID *)
  (if Js.truthy (testId el) then
     [ {| kind := "testId";
          locator := "getByTestId('" ++ Js.str (testId el) ++ "')";
          reliability := 98;
          description := "Best - explicitly set for testing" |} ]
   else [])
  (* 2. Role with name *)
  ++ (match role with
      | Some r =>
          if value_truthy role then
            let name := Js.or_else (Js.or_else (ariaLabel el) (text el)) (title el) in
            if Js.truthy name then
              [ {| kind := "role";
                   locator := "getByRole('" ++ value_text r ++ "', { name: '"
                              ++ escape (Js.str name) ++ "' })";
                   reliability := 95;
                   description := "Playwright recommended - accessible and stable" |} ]
            else []
          else []
      | None => []
      end)
  (* 3. Label *)
  ++ (if Js.truthy (ariaLabel el) then
        [ {| kind := "label";
             locator := "getByLabel('" ++ escape (Js.str (ariaLabel el)) ++ "')";
             reliability := 90;
             description := "Accessible label-based locator" |} ]
      else [])
  (* 4. Placeholder *)
  ++ (if Js.truthy (placeholder el) then
        [ {| kind := "placeholder";
             locator := "getByPlaceholder('" ++ escape (Js.str (placeholder el)) ++ "')";
             reliability := 85;
             description := "Good for form inputs" |} ]
      else [])
  (* 5. Text *)
  ++ (if Js.truthy (text el)
         && negb (existsb (String.eqb (tagName el)) ["input"; "textarea"]) then
        [ {| kind := "text";
             locator := "getByText('" ++ escape (Js.str (text el)) ++ "')";
             reliability := 75;
             description := "Text content - may break if text changes" |} ]
      else [])
  (* 6. ID *)
  ++ (if Js.truthy (id el) then
        [ {| kind := "id";
             locator := "locator('#" ++ Js.str (id el) ++ "')";
             reliability := 90;
             description := "ID selector - stable if ID is meaningful" |} ]
      else [])
  (* 7. Name attribute (for form elements) *)
  ++ (if Js.truthy (name el) then
        [ {| kind := "name";
             locator := "locator('[name=" ++ dquote ++ Js.str (name el) ++ dquote ++ "]')";
             reliability := 80;
             description := "Name attribute selector" |} ]
      else [])
  (* 8. CSS *)
  ++ (if Js.truthy_str (selector el) && negb (String.eqb (selector el) (tagName el)) then
        [ {| kind := "css";
             locator := "locator('" ++ selector el ++ "')";
             reliability := 60;
             description := "CSS selector - may be brittle" |} ]
      else [])
  (* 9. XPath *)
  ++ [ {| kind := "xpath";
          locator := "locator(" ++ dquote ++ xpath el ++ dquote ++ ")";
          reliability := 40;
          description := "XPath - avoid unless necessary" |} ].

Definition rankLocators (locators : list LocatorResult) : list LocatorResult :=
  Js.sort by_reliability locators.

(** The three renderings of one Selenium locator. *)
Definition by_ (javaName pythonName csharpName arg : string) : SeleniumLocator :=
  {| java := "By." ++ javaName ++ "(" ++ dquote ++ arg ++ dquote ++ ")";
     python := "By." ++ pythonName ++ ", " ++ dquote ++ arg ++ dquote;
     csharp := "By." ++ csharpName ++ "(" ++ dquote ++ arg ++ dquote ++ ")" |}.

Definition generateSeleniumLocators (el : ElementInfo) : list SeleniumLocator :=
  (* ID (highest priority for Selenium) *)
  (if Js.truthy (id el) then [by_ "id" "ID" "Id" (Js.str (id el))] else [])
  (* Name attribute *)
  ++ (if Js.truthy (name el) then [by_ "name" "NAME" "Name" (Js.str (name el))] else [])
  (* CSS Selector *)
  ++ (if Js.truthy_str (selector el)
      then [by_ "cssSelector" "CSS_SELECTOR" "CssSelector" (selector el)] else [])
  (* XPath *)
  ++ (if Js.truthy_str (xpath el)
      then [by_ "xpath" "XPATH" "XPath" (xpath el)] else [])
  (* Link Text (for anchor tags) *)
  ++ (if String.eqb (tagName el) "a" && Js.truthy (text el)
      then [by_ "linkText" "LINK_TEXT" "LinkText" (escape (Js.str (text el)))] else [])
  (* Class Name (first class only) *)
  ++ (if Js.truthy (className el) then
        let firstClass := Js.before_space (Js.str (className el)) in
        if Js.truthy_str firstClass && negb (Js.includes firstClass ":")
        then [by_ "className" "CLASS_NAME" "ClassName" firstClass] else []
      else [])
  (* Tag Name (lowest priority) *)
  ++ [by_ "tagName" "TAG_NAME" "TagName" (tagName el)].

End GetLocatorsTool.

(** ** Exceptions and the browser driver *)

(** A thrown value: an [Error] object with its message, or anything else
    with the text [String(e)] gives for it. *)
Inductive Thrown :=
| ErrorObject (message : string)
| OtherValue (asString : string).

(** [e instanceof Error ? e.message : String(e)] *)
Definition thrown_message (e : Thrown) : string :=
  match e with
  | ErrorObject message => message
  | OtherValue asString => asString
  end.

(** The outcome of a call that may throw. *)
Inductive Outcome (A : Type) :=
| Returned (a : A)
| Threw (e : Thrown).

Arguments Returned {A} a.
Arguments Threw {A} e.

Definition bind {A B} (m : Outcome A) (k : A -> Outcome B) : Outcome B :=
  match m with
  | Returned a => k a
  | Threw e => Threw e
  end.

(** [try { body } catch (e) { handler(e) }] *)
Definition try_catch {A} (body : Outcome A) (handler : Thrown -> Outcome A) : Outcome A :=
  match body with
  | Returned a => Returned a
  | Threw e => handler e
  end.

Notation "'let!' x ':=' m 'in' k" := (bind m (fun x => k))
  (at level 10, x name, m at level 100, k at level 200).

(** The calls the locator engine makes into the browser automation library.
    Each of them may throw. *)
Record Driver := {
  Page : Type;
  Locator : Type;
  navigateTo : string -> Outcome Page;
  getByRole : Page -> string -> option string -> Outcome Locator;
  getByText : Page -> string -> Outcome Locator;
  getByTestId : Page -> string -> Outcome Locator;
  getByPlaceholder : Page -> string -> Outcome Locator;
  page_locator : Page -> string -> Outcome Locator;
  count : Locator -> Outcome nat
}.

(** ** The regular expressions of [parseLocatorString]

    [str.match(re)] looks for the first position at which [re] matches.  In
    the five expressions used, every repetition ([\w+], [[^']+], [\s*]) is
    followed by a character outside its class, so the longest run is the only
    one that can lead to a match and the matcher needs no backtracking
    inside a repetition. *)

Module Regex.

Notation "'opt!' x ':=' m 'in' k" :=
  (match m with Some x => k | None => None end)
  (at level 10, x pattern, m at level 100, k at level 200).

(** A literal: the rest of the input after [p], if the input starts with it. *)
Fixpoint lit (p s : string) : option string :=
  match p with
  | EmptyString => Some s
  | String a p' =>
      match s with
      | String b s' => if Ascii.eqb a b then lit p' s' else None
      | EmptyString => None
      end
  end.

(** The longest prefix of characters of a class, and what follows it. *)
Fixpoint span (cls : ascii -> bool) (s : string) : string * string :=
  match s with
  | EmptyString => (EmptyString, EmptyString)
  | String c r =>
      if cls c then let (m, rest) := span cls r in (String c m, rest)
      else (EmptyString, s)
  end.

(** [cls+] *)
Definition some_of (cls : ascii -> bool) (s : string) : option (string * string) :=
  let (m, rest) := span cls s in
  if Js.truthy_str m then Some (m, rest) else None.

(** [\s*] *)
Definition spaces (s : string) : string := snd (span Js.is_space s).

Definition not_quote (c : ascii) : bool := negb (Ascii.eqb c "'").

(** The first position of [s] at which [m] matches. *)
Fixpoint search {R} (m : string -> option R) (s : string) : option R :=
  match m s with
  | Some r => Some r
  | None =>
      match s with
      | EmptyString => None
      | String _ r => search m r
      end
  end.

(** [/fname\('([^']+)'\)/] at one position; the result is group 1. *)
Definition quoted_call_at (fname : string) (s : string) : option string :=
  opt! r := lit (fname ++ "('") s in
  opt! (arg, r) := some_of not_quote r in
  opt! _ := lit "')" r in
  Some arg.

(** [(?:,\s*\{\s*name:\s*'([^']+)'\s*\})] at one position; group 2 and the
    rest of the input. *)
Definition name_option_at (s : string) : option (string * string) :=
  opt! r := lit "," s in
  opt! r := lit "{" (spaces r) in
  opt! r := lit "name:" (spaces r) in
  opt! r := lit "'" (spaces r) in
  opt! (nm, r) := some_of not_quote r in
  opt! r := lit "'" r in
  opt! r := lit "}" (spaces r) in
  Some (nm, r).

(** [/getByRole\('(\w+)'(?:,\s*\{\s*name:\s*'([^']+)'\s*\})?\)/] at one
    position; groups 1 and 2.  The optional group is tried first and given
    up when the closing parenthesis does not follow it. *)
Definition role_call_at (s : string) : option (string * option string) :=
  opt! r := lit "getByRole('" s in
  opt! (role, r) := some_of Js.is_word r in
  opt! r := lit "'" r in
  match (opt! (nm, r') := name_option_at r in
         opt! _ := lit ")" r' in Some nm) with
  | Some nm => Some (role, Some nm)
  | None => opt! _ := lit ")" r in Some (role, None)
  end.

End Regex.

(** ** src/core/locator-engine.ts *)

Module LocatorEngine.

Definition escape (s : string) : string :=
  Js.substring0 50 (Js.replace_all "'" "\'" s).

Definition searchText (el : ElementInfo) : string :=
  Js.toLowerCase
    (Js.join " "
       (Js.filter_Boolean
          [ id el; name el; className el; text el; placeholder el;
            ariaLabel el; type el; title el; Some (tagName el) ])).

(** [findMatchingElements], after the driver has extracted [allElements]. *)
Definition findMatchingElements (allElements : list ElementInfo)
    (description : string) : list ElementInfo :=
  let keywords := Js.split_ws (Js.toLowerCase description) in
  filter (fun el => existsb (fun kw => Js.includes (searchText el) kw) keywords)
         allElements.

Definition inferRole (el : ElementInfo) : option string :=
  let tag := Js.toLowerCase (tagName el) in
  let type := Js.lower_opt (type el) in
  let type_is (t : string) :=
    match type with Some s => String.eqb s t | None => false end in
  if String.eqb tag "button" || type_is "submit" || type_is "button" then Some "button"
  else if String.eqb tag "a" then Some "link"
  else if String.eqb tag "input" && type_is "checkbox" then Some "checkbox"
  else if String.eqb tag "input" && type_is "radio" then Some "radio"
  else if String.eqb tag "input" || String.eqb tag "textarea" then Some "textbox"
  else if String.eqb tag "select" then Some "combobox"
  else if String.eqb tag "img" then Some "img"
  else None.

Definition generateLocators (el : ElementInfo) : list LocatorResult :=
  (* Role-based (highest priority for Playwright) *)
  (if Js.truthy (Js.or_else (role el) (inferRole el)) then
     let role := Js.or_else (role el) (inferRole el) in
     let name := Js.or_else (Js.or_else (text el) (ariaLabel el)) (title el) in
     if Js.truthy name then
       [ {| kind := "role";
            locator := "getByRole('" ++ Js.str role ++ "', { name: '"
                       ++ escape (Js.str name) ++ "' })";
            reliability := 95;
            description := "Playwright recommended - accessible and stable" |} ]
     else []
   else [])
  (* Test ID (if exists) *)
  ++ (if Js.truthy (testId el) then
        [ {| kind := "testId";
             locator := "getByTestId('" ++ Js.str (testId el) ++ "')";
             reliability := 98;
             description := "Best choice - explicitly set for testing" |} ]
      else [])
  (* Placeholder (for inputs) *)
  ++ (if Js.truthy (placeholder el) then
        [ {| kind := "placeholder";
             locator := "getByPlaceholder('" ++ escape (Js.str (placeholder el)) ++ "')";
             reliability := 85;
             description := "Good for form inputs" |} ]
      else [])
  (* Label (for form elements) *)
  ++ (if Js.truthy (ariaLabel el) then
        [ {| kind := "label";
             locator := "getByLabel('" ++ escape (Js.str (ariaLabel el)) ++ "')";
             reliability := 88;
             description := "Accessible label-based locator" |} ]
      else [])
  (* Text-based *)
  ++ (if Js.truthy (text el) && negb (String.eqb (tagName el) "input") then
        [ {| kind := "text";
             locator := "getByText('" ++ escape (Js.str (text el)) ++ "')";
             reliability := 75;
             description := "Text content based - may break if text changes" |} ]
      else [])
  (* ID-based *)
  ++ (if Js.truthy (id el) then
        [ {| kind := "id";
             locator := "locator('#" ++ Js.str (id el) ++ "')";
             reliability := 90;
             description := "ID selector - stable if ID is meaningful" |} ]
      else [])
  (* CSS selector *)
  ++ [ {| kind := "css";
          locator := "locator('" ++ selector el ++ "')";
          reliability := 60;
          description := "CSS selector - may be brittle" |} ]
  (* XPath (lowest priority) *)
  ++ [ {| kind := "xpath";
          locator := "locator('" ++ xpath el ++ "')";
          reliability := 40;
          description := "XPath - avoid unless necessary" |} ].

(** [locators.sort(...)]: the array is sorted in place and returned; the
    callers read only the returned array. *)
Definition rankLocators (locators : list LocatorResult) : list LocatorResult :=
  Js.sort by_reliability locators.

Definition describeElement (el : ElementInfo) : string :=
  let p_text : list string :=
    if Js.truthy (text el)
    then [(dquote ++ Js.str (text el) ++ dquote)%string] else [] in
  let p_placeholder : list string :=
    if Js.truthy (placeholder el)
    then [("placeholder: " ++ dquote ++ Js.str (placeholder el) ++ dquote)%string]
    else [] in
  let p_type : list string :=
    if Js.truthy (type el) then [("type: " ++ Js.str (type el))%string] else [] in
  let parts : list string :=
    (p_text ++ p_placeholder ++ p_type ++ [("<" ++ tagName el ++ ">")%string])%list in
  if Js.truthy_str (Js.join " " parts) then Js.join " " parts else tagName el.

Definition matchesTypes (elementTypes : list string) (el : ElementInfo) : bool :=
  existsb (fun t =>
             Js.includes (Js.toLowerCase (tagName el)) t
             || match type el with Some ty => Js.includes ty t | None => false end)
          elementTypes.

Definition toPageElement (el : ElementInfo) : PageElement :=
  let locators := generateLocators el in
  let ranked := rankLocators locators in
  {| element := describeElement el;
     elementType := Js.toLowerCase (tagName el);
     locators := Js.slice0 3 ranked;
     recommended :=
       match ranked with
       | r :: _ => if Js.truthy_str (locator r) then locator r else "N/A"
       | [] => "N/A"
       end |}.

(** [analyzePage], after navigation and extraction; its result has the
    fields [url], [totalElements] and [elements]. *)
Definition analyzePage (url : string) (allElements : list ElementInfo)
    (elementTypes : option (list string)) : string * nat * list PageElement :=
  let filtered :=
    match elementTypes with
    | Some (t :: ts) => filter (matchesTypes (t :: ts)) allElements
    | _ => allElements
    end in
  let results := map toPageElement filtered in
  (url, length results, results).

Section WithDriver.

Variable d : Driver.

Definition parseLocatorString (page : Page d) (s : string) : Outcome (Locator d) :=
  let clause {X} (guard : bool) (m : option X) (k : X -> Outcome (Locator d)) :=
    if guard then option_map k m else None in
  match clause (Js.startsWith s "getByRole") (Regex.search Regex.role_call_at s)
          (fun '(r, nm) =>
             getByRole d page r (if Js.truthy nm then nm else None)) with
  | Some out => out
  | None =>
  match clause (Js.startsWith s "getByText")
          (Regex.search (Regex.quoted_call_at "getByText") s) (getByText d page) with
  | Some out => out
  | None =>
  match clause (Js.startsWith s "getByTestId")
          (Regex.search (Regex.quoted_call_at "getByTestId") s) (getByTestId d page) with
  | Some out => out
  | None =>
  match clause (Js.startsWith s "getByPlaceholder")
          (Regex.search (Regex.quoted_call_at "getByPlaceholder") s)
          (getByPlaceholder d page) with
  | Some out => out
  | None =>
  match clause (Js.startsWith s "locator")
          (Regex.search (Regex.quoted_call_at "locator") s) (page_locator d page) with
  | Some out => out
  | None => page_locator d page s
  end end end end end.

Definition suggestionsFor (count : nat) : list string :=
  if (count =? 0)%nat then
    [ "Element not found. Check if the page has loaded completely.";
      "Verify the locator syntax is correct." ]
  else if (1 <? count)%nat then
    [ "Found " ++ Js.number_to_string count
      ++ " elements. Consider adding more specificity.";
      "Try using getByRole with name option for uniqueness." ]
  else [].

Definition validateLocator (url locatorStr : string) : Outcome ValidationResult :=
  let! page := navigateTo d url in
  try_catch
    (let! locator := parseLocatorString page locatorStr in
     let! count := count d locator in
     Returned {| isValid := (0 <? count)%nat;
                 matchCount := count;
                 isUnique := (count =? 1)%nat;
                 suggestions := suggestionsFor count |})
    (fun e =>
       Returned {| isValid := false;
                   matchCount := 0;
                   isUnique := false;
                   suggestions :=
                     [ "Invalid locator syntax: " ++ thrown_message e ] |}).

End WithDriver.

End LocatorEngine.

(** ** Reference definitions, in the words of the specification *)

Module Spec.

(** The points one keyword earns against one element: nothing unless the
    keyword occurs in the element's lowercased blob; otherwise 1, plus 3 when
    it equals the (lowercased) id, plus 3 when the test id contains it, plus
    2 for each of aria label, visible text and placeholder that contains
    it. *)
Definition keywordPoints (el : ElementInfo) (kw : string) : Z :=
  if Js.includes (GetLocatorsTool.searchText el) kw then
    1 + (if Js.opt_lower_equals (id el) kw then 3 else 0)
      + (if Js.opt_includes (testId el) kw then 3 else 0)
      + (if Js.opt_includes (ariaLabel el) kw then 2 else 0)
      + (if Js.opt_includes (text el) kw then 2 else 0)
      + (if Js.opt_includes (placeholder el) kw then 2 else 0)
  else 0.

Fixpoint sumZ (l : list Z) : Z :=
  match l with
  | [] => 0
  | x :: r => x + sumZ r
  end.

(** The query is lowercased and split on white space into keywords. *)
Definition keywordsOf (description : string) : list string :=
  Js.split_ws (Js.toLowerCase description).

(** The total score of an element against a description. *)
Definition matchScore (description : string) (el : ElementInfo) : Z :=
  sumZ (map (keywordPoints el) (keywordsOf description)).

(** Escaping a literal text character by character: a backslash becomes two
    backslashes, a single quote becomes backslash-quote. *)
Definition escapeChar (c : ascii) : string :=
  if Ascii.eqb c "\" then "\\"
  else if Ascii.eqb c "'" then "\'"
  else String c EmptyString.

Fixpoint escapeChars (s : string) : string :=
  match s with
  | EmptyString => EmptyString
  | String c r => escapeChar c ++ escapeChars r
  end.

(** The first [n] characters of a string. *)
Fixpoint take (n : nat) (s : string) : string :=
  match n, s with
  | S n', String c r => String c (take n' r)
  | _, _ => EmptyString
  end.

(** Escaped and cut to the bound used for extraction. *)
Definition escapedText (s : string) : string := take 100 (escapeChars s).

(** The fixed tag/type to role lookup. *)
Definition roleTable (tag : string) (type : option string) : option string :=
  if String.eqb "button" tag then Some "button"
  else if String.eqb "a" tag then Some "link"
  else if String.eqb "select" tag then Some "combobox"
  else if String.eqb "textarea" tag then Some "textbox"
  else if String.eqb "img" tag then Some "img"
  else if String.eqb "input" tag then
    let type_is (t : string) :=
      match type with Some s => String.eqb t s | None => false end in
    if type_is "submit" || type_is "button" then Some "button"
    else if type_is "checkbox" then Some "checkbox"
    else if type_is "radio" then Some "radio"
    else if type_is "search" then Some "searchbox"
    else if type_is "number" then Some "spinbutton"
    else Some "textbox"
  else None.

(** A key that an object literal inherits from [Object.prototype]. *)
Definition inheritedKey (key : string) : bool :=
  existsb (String.eqb key) object_prototype_keys.

(** The key [type || "text"] of the input-role lookup. *)
Definition typeKey (type : option string) : string :=
  if Js.truthy type then Js.str type else "text".

(** The reliability each tool attaches to a kind label ([role] stands for a
    role with a name). *)
Definition kindReliability (labelScore : Z) (k : string) : Z :=
  if String.eqb k "testId" then 98
  else if String.eqb k "role" then 95
  else if String.eqb k "label" then labelScore
  else if String.eqb k "placeholder" then 85
  else if String.eqb k "text" then 75
  else if String.eqb k "id" then 90
  else if String.eqb k "name" then 80
  else if String.eqb k "css" then 60
  else 40.

(** What ranking promises about its result [r] for the candidates [l]:
    the same candidates, in non-increasing order of reliability, candidates
    of equal reliability in the order they had in [l]. *)
Definition NonIncreasing (r : list LocatorResult) : Prop :=
  StronglySorted (fun a b => reliability b <= reliability a) r.

Definition KeepsTies (l r : list LocatorResult) : Prop :=
  forall k, filter (fun c => reliability c =? k) r
            = filter (fun c => reliability c =? k) l.

Definition RankedFrom (l r : list LocatorResult) : Prop :=
  Permutation r l /\ NonIncreasing r /\ KeepsTies l r.

(** Kind labels determine reliability among the candidates a synthesizer
    [gen] emits, for whatever elements. *)
Definition KindFixesReliability (gen : ElementInfo -> list LocatorResult) : Prop :=
  forall e1 e2 c1 c2,
    In c1 (gen e1) -> In c2 (gen e2) -> kind c1 = kind c2 ->
    reliability c1 = reliability c2.

(** The accessible name a role candidate is given by the tools. *)
Definition accessibleName (el : ElementInfo) : option string :=
  Js.or_else (Js.or_else (ariaLabel el) (text el)) (title el).

(** What a ranked candidate shows to the caller. *)
Definition summary (c : LocatorResult) : string * string * Z :=
  (kind c, locator c, reliability c).

(** A description made of white space only. *)
Fixpoint allSpace (s : string) : bool :=
  match s with
  | EmptyString => true
  | String c r => Js.is_space c && allSpace r
  end.

End Spec.

(** ** Sample inputs *)

Module Sample.

(** An element with a tag, a positional path and no other attribute. *)
Definition bare (tag : string) : ElementInfo :=
  {| tagName := tag; id := None; name := None; className := None;
     type := None; placeholder := None; text := None; ariaLabel := None;
     role := None; testId := None; href := None; title := None;
     value := None;
     xpath := "/html[1]/body[1]/" ++ tag ++ "[1]";
     selector := tag |}.

(** [<button data-testid="login-btn" aria-label="Login">Login</button>] *)
Definition loginButton : ElementInfo :=
  {| tagName := "button"; id := None; name := None; className := None;
     type := Some "submit"; placeholder := None; text := Some "Login";
     ariaLabel := Some "Login"; role := None; testId := Some "login-btn";
     href := None; title := None; value := None;
     xpath := "/html[1]/body[1]/button[1]";
     selector := "button" |}.

(** [<button>Login</button>] *)
Definition plainLogin : ElementInfo :=
  {| tagName := "button"; id := None; name := None; className := None;
     type := Some "submit"; placeholder := None; text := Some "Login";
     ariaLabel := None; role := None; testId := None;
     href := None; title := None; value := None;
     xpath := "/html[1]/body[1]/button[1]";
     selector := "button" |}.

(** [<button data-testid="login">Login</button>], second button of the page *)
Definition testedLogin : ElementInfo :=
  {| tagName := "button"; id := None; name := None; className := None;
     type := Some "submit"; placeholder := None; text := Some "Login";
     ariaLabel := None; role := None; testId := Some "login";
     href := None; title := None; value := None;
     xpath := "/html[1]/body[1]/button[2]";
     selector := "button" |}.

(** [<input type="search">] *)
Definition searchInput : ElementInfo :=
  {| tagName := "input"; id := None; name := None; className := None;
     type := Some "search"; placeholder := None; text := None;
     ariaLabel := None; role := None; testId := None;
     href := None; title := None; value := None;
     xpath := "/html[1]/body[1]/input[1]";
     selector := "input" |}.

(** [<input type="number">] *)
Definition numberInput : ElementInfo :=
  {| tagName := "input"; id := None; name := None; className := None;
     type := Some "number"; placeholder := None; text := None;
     ariaLabel := None; role := None; testId := None;
     href := None; title := None; value := None;
     xpath := "/html[1]/body[1]/input[2]";
     selector := "input" |}.

(** [<textarea>notes</textarea>] *)
Definition notesArea : ElementInfo :=
  {| tagName := "textarea"; id := None; name := None; className := None;
     type := Some "textarea"; placeholder := None; text := Some "notes";
     ariaLabel := None; role := None; testId := None;
     href := None; title := None; value := None;
     xpath := "/html[1]/body[1]/textarea[1]";
     selector := "textarea" |}.

(** [<div data-testid="checkout" tabindex="0"></div>] *)
Definition checkoutDiv : ElementInfo :=
  {| tagName := "div"; id := None; name := None; className := None;
     type := None; placeholder := None; text := None;
     ariaLabel := None; role := None; testId := Some "checkout";
     href := None; title := None; value := None;
     xpath := "/html[1]/body[1]/div[1]";
     selector := "div" |}.

(** A text of sixty characters. *)
Definition sixtyChars : string :=
  "aaaaaaaaaaaaaaaaaaaaaaaaaaaaaaaaaaaaaaaaaaaaaaaaaaaaaaaaaaaa".

(** A driver for a page on which no locator resolves and on which the
    selector [!!] is rejected by the selector engine. *)
Definition emptyPage : Driver :=
  {| Page := unit;
     Locator := string;
     navigateTo := fun _ => Returned tt;
     getByRole := fun _ r _ => Returned r;
     getByText := fun _ t => Returned t;
     getByTestId := fun _ t => Returned t;
     getByPlaceholder := fun _ t => Returned t;
     page_locator := fun _ sel => Returned sel;
     count := fun sel =>
       if String.eqb sel "!!"
       then Threw (ErrorObject "Unexpected token while parsing selector")
       else Returned 0%nat |}.

End Sample.

(** ** More string primitives *)

Module JsText.

Definition is_digit (c : ascii) : bool :=
  let n := nat_of_ascii c in ((48 <=? n) && (n <=? 57))%nat.

Definition is_upper (c : ascii) : bool :=
  let n := nat_of_ascii c in ((65 <=? n) && (n <=? 90))%nat.

Definition is_lower (c : ascii) : bool :=
  let n := nat_of_ascii c in ((97 <=? n) && (n <=? 122))%nat.

(** The class [[a-zA-Z0-9]]. *)
Definition is_alnum (c : ascii) : bool := is_digit c || is_upper c || is_lower c.

(** The class [[a-zA-Z0-9\s]]. *)
Definition is_alnum_or_space (c : ascii) : bool := is_alnum c || Js.is_space c.

(** Every character of a string belongs to a class. *)
Fixpoint all_chars (cls : ascii -> bool) (s : string) : bool :=
  match s with
  | EmptyString => true
  | String c r => cls c && all_chars cls r
  end.

(** [toUpperCase] of a letter a-z; every other character below 128 is its
    own upper case.  The code applies it to letters and digits only. *)
Definition upper_char (c : ascii) : ascii :=
  if is_lower c then ascii_of_nat (nat_of_ascii c - 32) else c.

Fixpoint toUpperCase (s : string) : string :=
  match s with
  | EmptyString => EmptyString
  | String c r => String (upper_char c) (toUpperCase r)
  end.

(** [s.replace(/[^cls]/g, " ")]: every character outside the class becomes
    a space. *)
Fixpoint blank_outside (cls : ascii -> bool) (s : string) : string :=
  match s with
  | EmptyString => EmptyString
  | String c r => String (if cls c then c else " "%char) (blank_outside cls r)
  end.

Fixpoint trimStart (s : string) : string :=
  match s with
  | EmptyString => EmptyString
  | String c r => if Js.is_space c then trimStart r else s
  end.

Fixpoint trimEnd (s : string) : string :=
  match s with
  | EmptyString => EmptyString
  | String c r =>
      match trimEnd r with
      | EmptyString => if Js.is_space c then EmptyString else String c EmptyString
      | r' => String c r'
      end
  end.

(** [s.trim()] *)
Definition trim (s : string) : string := trimEnd (trimStart s).

(** [s.replace(/\s+/g, " ")]: every run of white space becomes one space. *)
Fixpoint collapse_ws_from (in_ws : bool) (s : string) : string :=
  match s with
  | EmptyString => EmptyString
  | String c r =>
      if Js.is_space c then
        if in_ws then collapse_ws_from true r
        else String " " (collapse_ws_from true r)
      else String c (collapse_ws_from false r)
  end.

Definition collapse_ws (s : string) : string := collapse_ws_from false s.

(** [s.split(sep)] for a separator of one character. *)
Fixpoint split_on_from (sep : ascii) (cur : string) (s : string) : list string :=
  match s with
  | EmptyString => [cur]
  | String c r =>
      if Ascii.eqb c sep then cur :: split_on_from sep EmptyString r
      else split_on_from sep (cur ++ String c EmptyString) r
  end.

Definition split_on (sep : ascii) (s : string) : list string :=
  split_on_from sep EmptyString s.

(** [w.charAt(0)] and [w.slice(1)] *)
Definition charAt0 (w : string) : string :=
  match w with
  | EmptyString => EmptyString
  | String c _ => String c EmptyString
  end.

Definition slice1 (w : string) : string :=
  match w with
  | EmptyString => EmptyString
  | String _ r => r
  end.

(** [xs.map((x, index) => f(x, index))] *)
Fixpoint map_index_from {A B} (i : nat) (f : A -> nat -> B) (l : list A) : list B :=
  match l with
  | [] => []
  | x :: r => f x i :: map_index_from (S i) f r
  end.

Definition map_index {A B} (f : A -> nat -> B) (l : list A) : list B :=
  map_index_from 0 f l.

(** [s.replace(/([A-Z])/g, "_$1")]: an underscore before every capital. *)
Fixpoint underscore_capitals (s : string) : string :=
  match s with
  | EmptyString => EmptyString
  | String c r =>
      if is_upper c then String "_" (String c (underscore_capitals r))
      else String c (underscore_capitals r)
  end.

(** [s.replace(/^_/, "")] *)
Definition drop_leading_underscore (s : string) : string :=
  match s with
  | String "_" r => r
  | _ => s
  end.

(** [a || b] where [b] is a string that is always defined. *)
Definition or_str (a : option string) (b : string) : string :=
  if Js.truthy a then Js.str a else b.

End JsText.

(** ** src/tools/get-locators.ts: [execute] *)

Module GetLocatorsExecute.

Record PlaywrightLocators := {
  pw_recommended : string;
  pw_all : list string
}.

Record SeleniumLocators := {
  se_recommended : SeleniumLocator;
  se_all : list SeleniumLocator
}.

(** [alternativeSelectors]; the source calls the fields [css] and [xpath]. *)
Record AlternativeSelectors := {
  alt_css : string;
  alt_xpath : string
}.

Record GetLocatorsResult := {
  url : string;
  elementDescription : string;
  matchedElements : nat;
  locators : list LocatorResult;
  recommended : string;
  playwright : PlaywrightLocators;
  selenium : SeleniumLocators;
  alternativeSelectors : AlternativeSelectors
}.

Definition noSelenium : SeleniumLocator :=
  {| java := EmptyString; python := EmptyString; csharp := EmptyString |}.

(** [ranked[0]?.locator || fallback] *)
Definition firstLocatorOr (ranked : list LocatorResult) (fallback : string) : string :=
  match ranked with
  | r :: _ => if Js.truthy_str (locator r) then locator r else fallback
  | [] => fallback
  end.

(** [execute], after the driver has navigated to [url] and extracted
    [allElements]. *)
Definition execute (url : string) (allElements : list ElementInfo)
    (elementDescription : string) : GetLocatorsResult :=
  let elements := GetLocatorsTool.findMatchingElements allElements elementDescription in
  match elements with
  | [] =>
      {| url := url;
         elementDescription := elementDescription;
         matchedElements := 0;
         locators := [];
         recommended := "No matching elements found. Try a different description.";
         playwright := {| pw_recommended := EmptyString; pw_all := [] |};
         selenium := {| se_recommended := noSelenium; se_all := [] |};
         alternativeSelectors :=
           {| alt_css := EmptyString; alt_xpath := EmptyString |} |}
  | element :: _ =>
      (* Use the best matching element *)
      let locators := GetLocatorsTool.generateLocators element in
      let ranked :=
        Js.slice0 GetLocatorsTool.MAX_LOCATORS (GetLocatorsTool.rankLocators locators) in
      (* Generate Selenium locators *)
      let seleniumLocators := GetLocatorsTool.generateSeleniumLocators element in
      {| url := url;
         elementDescription := elementDescription;
         matchedElements := length elements;
         locators := ranked;
         recommended := firstLocatorOr ranked "No locator found";
         playwright :=
           {| pw_recommended := firstLocatorOr ranked EmptyString;
              pw_all := map locator ranked |};
         selenium :=
           {| se_recommended :=
                match seleniumLocators with
                | s :: _ => s
                | [] => noSelenium
                end;
              se_all := seleniumLocators |};
         alternativeSelectors :=
           {| alt_css := selector element; alt_xpath := xpath element |} |}
  end.

End GetLocatorsExecute.

(** ** src/core/locator-engine.ts: [getLocators] and the naming helpers *)

Module LocatorEngineMore.

(** The result of [getLocators]: [element], [locators], [recommended]. *)
Record GetLocatorsResult := {
  element : string;
  locators : list LocatorResult;
  recommended : string
}.

(** [getLocators], after navigation and extraction. *)
Definition getLocators (allElements : list ElementInfo) (elementDescription : string)
  : GetLocatorsResult :=
  let elements := LocatorEngine.findMatchingElements allElements elementDescription in
  match elements with
  | [] =>
      {| element := elementDescription;
         locators := [];
         recommended := "No matching elements found" |}
  | element :: _ =>
      let locators := LocatorEngine.generateLocators element in
      let ranked := LocatorEngine.rankLocators locators in
      {| element := elementDescription;
         locators := ranked;
         recommended :=
           match ranked with
           | r :: _ => if Js.truthy_str (locator r) then locator r else "No locator found"
           | [] => "No locator found"
           end |}
  end.

Definition generatePropertyName (el : ElementInfo) : string :=
  let name :=
    JsText.or_str
      (Js.or_else (Js.or_else (Js.or_else (Js.or_else (id el) (name el)) (text el))
                     (placeholder el)) (ariaLabel el))
      (tagName el) in
  let name := JsText.trim (JsText.blank_outside JsText.is_alnum name) in
  let words := Js.slice0 3 (Js.split_ws name) in
  Js.join EmptyString
    (JsText.map_index
       (fun w i =>
          if (i =? 0)%nat then Js.toLowerCase w
          else JsText.toUpperCase (JsText.charAt0 w)
               ++ Js.toLowerCase (JsText.slice1 w))
       words).

Definition toSnakeCase (s : string) : string :=
  JsText.drop_leading_underscore (Js.toLowerCase (JsText.underscore_capitals s)).

End LocatorEngineMore.

(** ** src/tools/generate-pom.ts *)

Module GeneratePOMTool.

Definition MAX_ELEMENTS : nat := 30.
Definition MAX_TEXT_LENGTH : nat := 50.

(** [PageElementProperty].  The fields the source calls [locator],
    [elementType], [description], [id], [name] and [xpath] carry the prefix
    [p] here; the tool reads only the first ten fields of [ElementInfo]. *)
Record PageElementProperty := {
  propertyName : string;
  pLocator : string;
  pElementType : string;
  pDescription : string;
  seleniumLocator : option string;
  pId : option string;
  pName : option string;
  pXpath : option string;
  cssSelector : option string
}.

Definition escape (s : string) : string :=
  Js.substring0 MAX_TEXT_LENGTH
    (Js.replace_all "'" "\'" (Js.replace_all "\" "\\" s)).

Definition type_is (el : ElementInfo) (t : string) : bool :=
  match Js.lower_opt (type el) with
  | Some s => String.eqb s t
  | None => false
  end.

Definition getElementSuffix (el : ElementInfo) : string :=
  let tag := Js.toLowerCase (tagName el) in
  if String.eqb tag "button" || type_is el "submit" || type_is el "button" then "Button"
  else if String.eqb tag "a" then "Link"
  else if String.eqb tag "select" then "Select"
  else if String.eqb tag "textarea" then "Textarea"
  else if type_is el "checkbox" then "Checkbox"
  else if type_is el "radio" then "Radio"
  else if type_is el "password" then "Input"
  else if String.eqb tag "input" then "Input"
  else EmptyString.

Definition generatePropertyName (el : ElementInfo) : string :=
  (* Priority: testId > id > name > ariaLabel > text > placeholder > generic *)
  let baseName :=
    JsText.or_str
      (Js.or_else
         (Js.or_else
            (Js.or_else (Js.or_else (Js.or_else (testId el) (id el)) (name el))
               (ariaLabel el))
            (text el))
         (placeholder el))
      (tagName el) in
  (* Clean the name *)
  let baseName :=
    JsText.collapse_ws
      (JsText.trim (JsText.blank_outside JsText.is_alnum_or_space baseName)) in
  (* Convert to camelCase *)
  let words := Js.slice0 4 (JsText.split_on " " baseName) in
  let camelCase :=
    Js.join EmptyString
      (JsText.map_index
         (fun word index =>
            let lower := Js.toLowerCase word in
            if (index =? 0)%nat then lower
            else JsText.toUpperCase (JsText.charAt0 lower) ++ JsText.slice1 lower)
         words) in
  (* Add suffix based on element type *)
  let suffix := getElementSuffix el in
  let name := camelCase ++ suffix in
  if Js.truthy_str name then name else "element".

Definition inferRole (el : ElementInfo) : option string :=
  let tag := Js.toLowerCase (tagName el) in
  if String.eqb tag "button" || type_is el "submit" || type_is el "button" then Some "button"
  else if String.eqb tag "a" then Some "link"
  else if String.eqb tag "select" then Some "combobox"
  else if type_is el "checkbox" then Some "checkbox"
  else if type_is el "radio" then Some "radio"
  else if String.eqb tag "input" || String.eqb tag "textarea" then Some "textbox"
  else None.

Definition getBestLocator (el : ElementInfo) : string :=
  (* Priority order for Playwright best practices *)
  if Js.truthy (testId el) then "getByTestId('" ++ escape (Js.str (testId el)) ++ "')"
  else
    let role := Js.or_else (role el) (inferRole el) in
    if Js.truthy role && Js.truthy (Js.or_else (ariaLabel el) (text el)) then
      let name := Js.or_else (ariaLabel el) (text el) in
      "getByRole('" ++ Js.str role ++ "', { name: '" ++ escape (Js.str name) ++ "' })"
    else if Js.truthy (ariaLabel el) then
      "getByLabel('" ++ escape (Js.str (ariaLabel el)) ++ "')"
    else if Js.truthy (placeholder el) then
      "getByPlaceholder('" ++ escape (Js.str (placeholder el)) ++ "')"
    else if Js.truthy (text el)
            && negb (existsb (String.eqb (tagName el)) ["input"; "textarea"]) then
      "getByText('" ++ escape (Js.str (text el)) ++ "')"
    else if Js.truthy (id el) then "locator('#" ++ Js.str (id el) ++ "')"
    else if Js.truthy (name el) then
      "locator('[name=" ++ dquote ++ Js.str (name el) ++ dquote ++ "]')"
    else "locator('" ++ tagName el ++ "')".

Definition describeElement (el : ElementInfo) : string :=
  let p_text : list string :=
    if Js.truthy (text el)
    then [(dquote ++ Js.str (text el) ++ dquote)%string] else [] in
  let p_placeholder : list string :=
    if Js.truthy (placeholder el)
    then [("placeholder: " ++ Js.str (placeholder el))%string] else [] in
  let p_type : list string :=
    if Js.truthy (type el) then [("type: " ++ Js.str (type el))%string] else [] in
  let parts : list string := (p_text ++ p_placeholder ++ p_type)%list in
  if Js.truthy_str (Js.join ", " parts) then Js.join ", " parts else tagName el.

Definition getSeleniumLocator (el : ElementInfo) : string :=
  if Js.truthy (id el) then "By.id(" ++ dquote ++ Js.str (id el) ++ dquote ++ ")"
  else if Js.truthy (name el) then
    "By.name(" ++ dquote ++ Js.str (name el) ++ dquote ++ ")"
  else "By.cssSelector(" ++ dquote ++ tagName el ++ dquote ++ ")".

Definition getXPath (el : ElementInfo) : string :=
  if Js.truthy (id el) then "//*[@id=" ++ dquote ++ Js.str (id el) ++ dquote ++ "]"
  else if Js.truthy (name el) then
    "//*[@name=" ++ dquote ++ Js.str (name el) ++ dquote ++ "]"
  else "//" ++ tagName el.

Definition getCssSelector (el : ElementInfo) : string :=
  if Js.truthy (id el) then "#" ++ Js.str (id el)
  else if Js.truthy (className el) then
    let firstClass := Js.before_space (Js.str (className el)) in
    tagName el ++ "." ++ firstClass
  else tagName el.

(** One entry of [properties] in [execute]. *)
Definition toProperty (el : ElementInfo) : PageElementProperty :=
  {| propertyName := generatePropertyName el;
     pLocator := getBestLocator el;
     pElementType := tagName el;
     pDescription := describeElement el;
     seleniumLocator := Some (getSeleniumLocator el);
     pId := id el;
     pName := name el;
     pXpath := Some (getXPath el);
     cssSelector := Some (getCssSelector el) |}.

(** The [Map<string, number>] of [deduplicateProperties]: the entries set so
    far, the latest first; [get] reads the latest entry of a key. *)
Definition SeenMap := list (string * nat).

Fixpoint seen_get (seen : SeenMap) (key : string) : option nat :=
  match seen with
  | [] => None
  | (k, v) :: rest => if String.eqb k key then Some v else seen_get rest key
  end.

Definition seen_set (seen : SeenMap) (key : string) (v : nat) : SeenMap :=
  (key, v) :: seen.

Definition rename (prop : PageElementProperty) (newName : string) : PageElementProperty :=
  {| propertyName := newName;
     pLocator := pLocator prop;
     pElementType := pElementType prop;
     pDescription := pDescription prop;
     seleniumLocator := seleniumLocator prop;
     pId := pId prop;
     pName := pName prop;
     pXpath := pXpath prop;
     cssSelector := cssSelector prop |}.

(** The callback of [properties.map] with the map it updates. *)
Fixpoint deduplicateFrom (seen : SeenMap) (properties : list PageElementProperty)
  : list PageElementProperty :=
  match properties with
  | [] => []
  | prop :: rest =>
      let count :=
        match seen_get seen (propertyName prop) with
        | Some (S n) => S n
        | _ => 0%nat
        end in
      let seen := seen_set seen (propertyName prop) (count + 1) in
      (if (0 <? count)%nat
       then rename prop (propertyName prop ++ Js.number_to_string (count + 1))
       else prop)
      :: deduplicateFrom seen rest
  end.

Definition deduplicateProperties (properties : list PageElementProperty)
  : list PageElementProperty :=
  deduplicateFrom [] properties.

(** [getPageElements] keeps the first [MAX_ELEMENTS] extracted elements. *)
Definition limitElements (extracted : list ElementInfo) : list ElementInfo :=
  Js.slice0 MAX_ELEMENTS extracted.

(** The [uniqueProperties] of [execute], from the elements the driver
    extracted; [elementsFound] is their number. *)
Definition uniqueProperties (extracted : list ElementInfo) : list PageElementProperty :=
  deduplicateProperties (map toProperty (limitElements extracted)).

Definition capitalize (s : string) : string :=
  JsText.toUpperCase (JsText.charAt0 s) ++ JsText.slice1 s.

End GeneratePOMTool.

(** ** src/tools/run-test.ts *)

(** [parseInt(s)] without radix: leading white space, an optional sign, then
    the longest run of digits, hexadecimal after [0x]; [None] is NaN. *)
Module ParseInt.

Definition digit_value (c : ascii) : option Z :=
  let n := nat_of_ascii c in
  if ((48 <=? n) && (n <=? 57))%nat then Some (Z.of_nat (n - 48)) else None.

Definition hex_value (c : ascii) : option Z :=
  let n := nat_of_ascii c in
  if ((48 <=? n) && (n <=? 57))%nat then Some (Z.of_nat (n - 48))
  else if ((97 <=? n) && (n <=? 102))%nat then Some (Z.of_nat (n - 87))
  else if ((65 <=? n) && (n <=? 70))%nat then Some (Z.of_nat (n - 55))
  else None.

(** The value of the longest run of digits at the start of [s], after the
    digits read so far. *)
Fixpoint digits (value : ascii -> option Z) (radix : Z) (acc : option Z) (s : string)
  : option Z :=
  match s with
  | EmptyString => acc
  | String c r =>
      match value c with
      | Some v =>
          digits value radix
            (Some (match acc with Some a => a * radix + v | None => v end)) r
      | None => acc
      end
  end.

Definition unsigned (s : string) : option Z :=
  match s with
  | String "0" (String "x" r) | String "0" (String "X" r) => digits hex_value 16 None r
  | _ => digits digit_value 10 None s
  end.

Definition parseInt (s : string) : option Z :=
  match JsText.trimStart s with
  | String "-" r => option_map Z.opp (unsigned r)
  | String "+" r => unsigned r
  | t => unsigned t
  end.

End ParseInt.

(** The regular expressions of [RunTestTool.getLocator], which accept either
    quote character around an argument. *)
Module QuoteRegex.

Import Regex.

Definition is_quote (c : ascii) : bool :=
  Ascii.eqb c "'" || Ascii.eqb c (ascii_of_nat 34).

Definition not_quote (c : ascii) : bool := negb (is_quote c).

(** One character of a class. *)
Definition one (cls : ascii -> bool) (s : string) : option string :=
  match s with
  | String c r => if cls c then Some r else None
  | EmptyString => None
  end.

(** The call pattern of [fname] with one argument between quote characters
    of either kind, at one position; the result is group 1, the argument. *)
Definition quoted_call_at (fname : string) (s : string) : option string :=
  opt! r := lit (fname ++ "(") s in
  opt! r := one is_quote r in
  opt! (arg, r) := some_of not_quote r in
  opt! r := one is_quote r in
  opt! _ := lit ")" r in
  Some arg.

(** The optional group of the role pattern, the name option with its value
    between quote characters of either kind, at one position. *)
Definition name_option_at (s : string) : option (string * string) :=
  opt! r := lit "," s in
  opt! r := lit "{" (spaces r) in
  opt! r := lit "name:" (spaces r) in
  opt! r := one is_quote (spaces r) in
  opt! (nm, r) := some_of not_quote r in
  opt! r := one is_quote r in
  opt! r := lit "}" (spaces r) in
  Some (nm, r).

(** The role pattern: [getByRole(], a quoted run of word characters, the
    optional name option, [)]; groups 1 and 2. *)
Definition role_call_at (s : string) : option (string * option string) :=
  opt! r := lit "getByRole(" s in
  opt! r := one is_quote r in
  opt! (role, r) := some_of Js.is_word r in
  opt! r := one is_quote r in
  match (opt! (nm, r') := name_option_at r in
         opt! _ := lit ")" r' in Some nm) with
  | Some nm => Some (role, Some nm)
  | None => opt! _ := lit ")" r in Some (role, None)
  end.

End QuoteRegex.

(** What [RunTestTool] needs from the browser automation library.  A call
    that waits for the browser takes the world and returns the world after
    it; [now] is [Date.now()]. *)
Record TestDriver := {
  World : Type;
  Browser : Type;
  Context : Type;
  TPage : Type;
  TLocator : Type;
  now : World -> Z;
  launch : bool -> Z -> list string -> World -> World * Outcome Browser;
  newContext : Browser -> Z * Z -> string -> World -> World * Outcome Context;
  newPage : Context -> World -> World * Outcome TPage;
  setDefaultTimeout : TPage -> Z -> World -> World * Outcome unit;
  closeBrowser : Browser -> World -> World * Outcome unit;
  goto : TPage -> string -> World -> World * Outcome unit;
  pageUrl : TPage -> World -> string;
  pageTitle : TPage -> World -> World * Outcome string;
  waitForTimeout : TPage -> option Z -> World -> World * Outcome unit;
  screenshot : TPage -> string -> World -> World * Outcome unit;
  tGetByRole : TPage -> string -> option string -> Outcome TLocator;
  tGetByText : TPage -> string -> Outcome TLocator;
  tGetByTestId : TPage -> string -> Outcome TLocator;
  tGetByPlaceholder : TPage -> string -> Outcome TLocator;
  tGetByLabel : TPage -> string -> Outcome TLocator;
  tGetByAltText : TPage -> string -> Outcome TLocator;
  tLocator : TPage -> string -> Outcome TLocator;
  click : TLocator -> World -> World * Outcome unit;
  fill : TLocator -> string -> World -> World * Outcome unit;
  clear : TLocator -> World -> World * Outcome unit;
  check : TLocator -> World -> World * Outcome unit;
  uncheck : TLocator -> World -> World * Outcome unit;
  selectOption : TLocator -> string -> World -> World * Outcome unit;
  hover : TLocator -> World -> World * Outcome unit;
  press : TLocator -> string -> World -> World * Outcome unit;
  waitFor : TLocator -> string -> World -> World * Outcome unit;
  textContent : TLocator -> World -> World * Outcome (option string);
  inputValue : TLocator -> World -> World * Outcome string;
  tmpdir : string;
  pathJoin : string -> string -> string
}.

Module RunTestTool.

Record TestStep := {
  action : string;
  locator : option string;
  value : option string;
  description : string
}.

(** [StepResult]; the fields the source calls [action], [status],
    [duration] and [error] carry the prefix [step] here. *)
Record StepResult := {
  step : string;
  stepAction : string;
  stepStatus : string;
  stepDuration : Z;
  stepError : option string
}.

Record TestResult := {
  testName : string;
  status : string;
  duration : Z;
  steps : list StepResult;
  totalSteps : nat;
  passedSteps : nat;
  failedSteps : nat;
  screenshotPath : option string;
  finalUrl : option string;
  error : option string
}.

Record TestOptions := {
  headless : option bool;
  slowMo : option Z;
  timeout : option Z;
  viewport : option (Z * Z)
}.

Section WithDriver.

Variable d : TestDriver.

(** The fields [browser] and [page] of the tool, the local array
    [stepResults] of [execute], and the world. *)
Record Env := {
  world : World d;
  browser : option (Browser d);
  page : option (TPage d);
  stepResults : list StepResult
}.

(** A computation that may await the driver and may throw. *)
Definition M (A : Type) : Type := Env -> Env * Outcome A.

Definition ret {A} (a : A) : M A := fun env => (env, Returned a).

Definition throw {A} (e : Thrown) : M A := fun env => (env, Threw e).

Definition bindM {A B} (m : M A) (k : A -> M B) : M B :=
  fun env =>
    match m env with
    | (env', Returned a) => k a env'
    | (env', Threw e) => (env', Threw e)
    end.

Notation "'do!' x ':=' m 'in' k" := (bindM m (fun x => k))
  (at level 10, x name, m at level 100, k at level 200).

(** [try { body } catch (e) { handler(e) }] *)
Definition catch {A} (body : M A) (handler : Thrown -> M A) : M A :=
  fun env =>
    match body env with
    | (env', Returned a) => (env', Returned a)
    | (env', Threw e) => handler e env'
    end.

(** [try { body } finally { final }]: [final] runs in either case; when it
    throws, its exception replaces the outcome of [body]. *)
Definition finally {A} (body : M A) (final : M unit) : M A :=
  fun env =>
    match body env with
    | (env', out) =>
        match final env' with
        | (env'', Returned _) => (env'', out)
        | (env'', Threw e) => (env'', Threw e)
        end
    end.

(** An awaited driver call. *)
Definition await {A} (call : World d -> World d * Outcome A) : M A :=
  fun env =>
    match call (world env) with
    | (w, out) =>
        ({| world := w; browser := browser env; page := page env;
            stepResults := stepResults env |}, out)
    end.

(** A driver call that does not wait. *)
Definition lift {A} (out : Outcome A) : M A := fun env => (env, out).

Definition dateNow : M Z := fun env => (env, Returned (now d (world env))).

Definition getPage : M (option (TPage d)) := fun env => (env, Returned (page env)).

Definition setBrowser (b : option (Browser d)) : M unit :=
  fun env =>
    ({| world := world env; browser := b; page := page env;
        stepResults := stepResults env |}, Returned tt).

Definition setPage (p : option (TPage d)) : M unit :=
  fun env =>
    ({| world := world env; browser := browser env; page := p;
        stepResults := stepResults env |}, Returned tt).

(** [stepResults.push(r)] *)
Definition push (r : StepResult) : M unit :=
  fun env =>
    ({| world := world env; browser := browser env; page := page env;
        stepResults := stepResults env ++ [r] |}, Returned tt).

Definition error_ {A} (message : string) : M A := throw (ErrorObject message).

(** A timestamp in a template literal. *)
Definition z_to_string (z : Z) : string := NilZero.string_of_int (Z.to_int z).

Definition getLocator (locatorStr : option string) : M (TLocator d) :=
  do! p := getPage in
  match p with
  | None => error_ "Page not initialized"
  | Some page =>
      match locatorStr with
      | None => error_ "Cannot read properties of undefined (reading 'startsWith')"
      | Some s =>
          let clause {X} (guard : bool) (m : option X) (k : X -> Outcome (TLocator d)) :=
            if guard then option_map k m else None in
          (* Parse different locator formats *)
          lift
          match clause (Js.startsWith s "getByRole")
                  (Regex.search QuoteRegex.role_call_at s)
                  (fun '(r, nm) =>
                     tGetByRole d page r (if Js.truthy nm then nm else None)) with
          | Some out => out
          | None =>
          match clause (Js.startsWith s "getByText")
                  (Regex.search (QuoteRegex.quoted_call_at "getByText") s)
                  (tGetByText d page) with
          | Some out => out
          | None =>
          match clause (Js.startsWith s "getByTestId")
                  (Regex.search (QuoteRegex.quoted_call_at "getByTestId") s)
                  (tGetByTestId d page) with
          | Some out => out
          | None =>
          match clause (Js.startsWith s "getByPlaceholder")
                  (Regex.search (QuoteRegex.quoted_call_at "getByPlaceholder") s)
                  (tGetByPlaceholder d page) with
          | Some out => out
          | None =>
          match clause (Js.startsWith s "getByLabel")
                  (Regex.search (QuoteRegex.quoted_call_at "getByLabel") s)
                  (tGetByLabel d page) with
          | Some out => out
          | None =>
          match clause (Js.startsWith s "getByAltText")
                  (Regex.search (QuoteRegex.quoted_call_at "getByAltText") s)
                  (tGetByAltText d page) with
          | Some out => out
          | None =>
          match clause (Js.startsWith s "locator")
                  (Regex.search (QuoteRegex.quoted_call_at "locator") s)
                  (tLocator d page) with
          | Some out => out
          (* Default: treat as CSS selector or XPath *)
          | None => tLocator d page s
          end end end end end end end
      end
  end.

Definition takeScreenshot (name : string) : M string :=
  do! p := getPage in
  match p with
  | None => ret EmptyString
  | Some page =>
      do! timestamp := dateNow in
      let filename := "locatorlabs-" ++ name ++ "-" ++ z_to_string timestamp ++ ".png" in
      let filepath := pathJoin d (tmpdir d) filename in
      do! _ := await (screenshot d page filepath) in
      ret filepath
  end.

(** The actions of [executeStep] that need [step.value], with the message
    thrown when it is missing. *)
Definition requiredValue : list (string * string) :=
  [ ("navigate", "URL is required for navigate action");
    ("fill", "Value is required for fill action");
    ("select", "Value is required for select action");
    ("press", "Key is required for press action");
    ("assert_text", "Expected text is required");
    ("assert_value", "Expected value is required");
    ("assert_url", "Expected URL pattern is required");
    ("assert_title", "Expected title is required") ].

Definition executeStep (step : TestStep) : M unit :=
  do! p := getPage in
  match p with
  | None => error_ "Page not initialized"
  | Some page =>
      let is_action (a : string) := String.eqb (action step) a in
      let v := Js.str (value step) in
      if is_action "navigate" then
        if negb (Js.truthy (value step)) then error_ "URL is required for navigate action"
        else await (goto d page v)
      else if is_action "click" then
        do! l := getLocator (locator step) in await (click d l)
      else if is_action "fill" then
        if negb (Js.truthy (value step)) then error_ "Value is required for fill action"
        else do! l := getLocator (locator step) in await (fill d l v)
      else if is_action "clear" then
        do! l := getLocator (locator step) in await (clear d l)
      else if is_action "check" then
        do! l := getLocator (locator step) in await (check d l)
      else if is_action "uncheck" then
        do! l := getLocator (locator step) in await (uncheck d l)
      else if is_action "select" then
        if negb (Js.truthy (value step)) then error_ "Value is required for select action"
        else do! l := getLocator (locator step) in await (selectOption d l v)
      else if is_action "hover" then
        do! l := getLocator (locator step) in await (hover d l)
      else if is_action "press" then
        if negb (Js.truthy (value step)) then error_ "Key is required for press action"
        else do! l := getLocator (locator step) in await (press d l v)
      else if is_action "assert_visible" then
        do! l := getLocator (locator step) in await (waitFor d l "visible")
      else if is_action "assert_hidden" then
        do! l := getLocator (locator step) in await (waitFor d l "hidden")
      else if is_action "assert_text" then
        if negb (Js.truthy (value step)) then error_ "Expected text is required"
        else
          do! l := getLocator (locator step) in
          do! text := await (textContent d l) in
          if negb (match text with Some t => Js.includes t v | None => false end) then
            error_ ("Expected text " ++ dquote ++ v ++ dquote ++ " not found. Actual: "
                    ++ dquote ++ match text with Some t => t | None => "null" end
                    ++ dquote)
          else ret tt
      else if is_action "assert_value" then
        if negb (Js.truthy (value step)) then error_ "Expected value is required"
        else
          do! l := getLocator (locator step) in
          do! actual := await (inputValue d l) in
          if negb (String.eqb actual v) then
            error_ ("Expected value " ++ dquote ++ v ++ dquote ++ " but got "
                    ++ dquote ++ actual ++ dquote)
          else ret tt
      else if is_action "assert_url" then
        if negb (Js.truthy (value step)) then error_ "Expected URL pattern is required"
        else
          do! env_url := (fun env => (env, Returned (pageUrl d page (world env)))) in
          if negb (Js.includes env_url v) then
            error_ ("URL " ++ dquote ++ env_url ++ dquote ++ " does not contain "
                    ++ dquote ++ v ++ dquote)
          else ret tt
      else if is_action "assert_title" then
        if negb (Js.truthy (value step)) then error_ "Expected title is required"
        else
          do! title := await (pageTitle d page) in
          if negb (Js.includes title v) then
            error_ ("Title " ++ dquote ++ title ++ dquote ++ " does not contain "
                    ++ dquote ++ v ++ dquote)
          else ret tt
      else if is_action "wait" then
        let waitTime := ParseInt.parseInt (JsText.or_str (value step) "1000") in
        await (waitForTimeout d page waitTime)
      else if is_action "wait_for_element" then
        do! l := getLocator (locator step) in await (waitFor d l "visible")
      else if is_action "screenshot" then
        do! _ := takeScreenshot (JsText.or_str (value step) "step") in ret tt
      else error_ ("Unknown action: " ++ action step)
  end.

Definition countStatus (s : string) (results : list StepResult) : nat :=
  length (filter (fun r => String.eqb (stepStatus r) s) results).

Definition buildResult (testName status : string) (startTime : Z)
    (steps : list StepResult) (screenshotPath error : option string) : M TestResult :=
  do! t := dateNow in
  do! p := getPage in
  fun env =>
    (env,
     Returned
       {| testName := testName;
          status := status;
          duration := t - startTime;
          steps := steps;
          totalSteps := length steps;
          passedSteps := countStatus "passed" steps;
          failedSteps := countStatus "failed" steps;
          screenshotPath := screenshotPath;
          finalUrl := option_map (fun pg => pageUrl d pg (world env)) p;
          error := error |}).

Definition cleanup : M unit :=
  fun env =>
    match browser env with
    | Some b =>
        (do! _ := await (closeBrowser d b) in
         do! _ := setBrowser None in
         setPage None) env
    | None => (env, Returned tt)
    end.

Definition getResults : M (list StepResult) :=
  fun env => (env, Returned (stepResults env)).

(** [for (let j = i + 1; ...) stepResults.push({ ..., status: "skipped" })] *)
Fixpoint pushSkipped (rest : list TestStep) : M unit :=
  match rest with
  | [] => ret tt
  | s :: rest' =>
      do! _ := push {| step := description s; stepAction := action s;
                       stepStatus := "skipped"; stepDuration := 0;
                       stepError := None |} in
      pushSkipped rest'
  end.

(** The loop over the steps; [Some r] is the result returned from inside
    the loop, [None] means that the loop ran to its end. *)
Fixpoint runSteps (testName : string) (startTime : Z) (remaining : list TestStep)
  : M (option TestResult) :=
  match remaining with
  | [] => ret None
  | step :: rest =>
      do! stepStart := dateNow in
      do! early :=
        catch
          (do! _ := executeStep step in
           do! t := dateNow in
           do! _ := push {| step := description step; stepAction := action step;
                            stepStatus := "passed"; stepDuration := t - stepStart;
                            stepError := None |} in
           ret None)
          (fun e =>
             let errorMsg := thrown_message e in
             do! t := dateNow in
             do! _ := push {| step := description step; stepAction := action step;
                              stepStatus := "failed"; stepDuration := t - stepStart;
                              stepError := Some errorMsg |} in
             (* Take failure screenshot *)
             do! screenshotPath := takeScreenshot "failure" in
             (* Mark remaining steps as skipped *)
             do! _ := pushSkipped rest in
             do! results := getResults in
             do! r := buildResult testName "failed" startTime results
                        (Some screenshotPath) (Some errorMsg) in
             ret (Some r)) in
      match early with
      | Some r => ret (Some r)
      | None => runSteps testName startTime rest
      end
  end.

Definition userAgent : string :=
  "Mozilla/5.0 (Windows NT 10.0; Win64; x64) AppleWebKit/537.36 Chrome/120.0.0.0 Safari/537.36".

Definition execute (testName : string) (steps : list TestStep) (options : TestOptions)
  : M TestResult :=
  fun env0 =>
    let headless := match headless options with Some b => b | None => true end in
    let slowMo := match slowMo options with Some z => z | None => 0 end in
    let timeout := match timeout options with Some z => z | None => 30000 end in
    let viewport := match viewport options with Some v => v | None => (1280, 720) end in
    let env :=
      {| world := world env0; browser := browser env0; page := page env0;
         stepResults := [] |} in
    let startTime := now d (world env) in
    finally
      (catch
         ((* Launch browser *)
          do! b := await (launch d headless slowMo
                            ["--no-sandbox"; "--disable-setuid-sandbox"]) in
          do! _ := setBrowser (Some b) in
          do! context := await (newContext d b viewport userAgent) in
          do! pg := await (newPage d context) in
          do! _ := setPage (Some pg) in
          do! _ := await (setDefaultTimeout d pg timeout) in
          (* Execute each step *)
          do! early := runSteps testName startTime steps in
          match early with
          | Some r => ret r
          | None =>
              (* Take success screenshot *)
              do! screenshotPath := takeScreenshot "success" in
              do! results := getResults in
              buildResult testName "passed" startTime results (Some screenshotPath) None
          end)
         (fun e =>
            let errorMsg := thrown_message e in
            do! results := getResults in
            buildResult testName "failed" startTime results None (Some errorMsg)))
      cleanup
      env.

End WithDriver.

End RunTestTool.

(** ** Reference definitions for the test runner *)

Module RunTestSpec.

Import RunTestTool.

Section WithDriver.

Variable d : TestDriver.

(** A computation leaves the tool's browser and page and the step results
    alone; it may change the world. *)
Definition SameTool (env env' : Env d) : Prop :=
  browser d env' = browser d env
  /\ page d env' = page d env
  /\ stepResults d env' = stepResults d env.

Definition Preserves {A} (m : M d A) : Prop :=
  forall env env' out, m env = (env', out) -> SameTool env env'.

(** A computation does nothing at all but throw. *)
Definition FailsAtOnce {A} (m : M d A) (message : string) : Prop :=
  forall env, page d env <> None -> m env = (env, Threw (ErrorObject message)).

(** A computation always returns. *)
Definition Returns {A} (m : M d A) : Prop :=
  forall env, exists env' a, m env = (env', Returned a).

(** Closing a browser never throws. *)
Definition ClosesQuietly : Prop :=
  forall b w, exists w', closeBrowser d b w = (w', Returned tt).

End WithDriver.

(** What a step result shows: description, action and status. *)
Definition summary (r : StepResult) : string * string * string :=
  (step r, stepAction r, stepStatus r).

Definition marked (status : string) (s : TestStep) : string * string * string :=
  (description s, action s, status).

(** The step results of a run over [steps]: the steps before some point
    passed; either that is all (every step passed, or nothing was recorded
    after them), or the next step failed and the steps after it are skipped,
    or the next step failed and nothing was recorded after it. *)
Inductive RunShape (steps : list TestStep) : list (string * string * string) -> Prop :=
| AllPassed :
    RunShape steps (map (marked "passed") steps)
| FailedThenSkipped (pre : list TestStep) (s : TestStep) (post : list TestStep) :
    steps = (pre ++ s :: post)%list ->
    RunShape steps
      (map (marked "passed") pre ++ marked "failed" s :: map (marked "skipped") post)%list
| FailedUnfinished (pre : list TestStep) (s : TestStep) (post : list TestStep) :
    steps = (pre ++ s :: post)%list ->
    RunShape steps (map (marked "passed") pre ++ [marked "failed" s])%list
| NotStarted :
    RunShape steps [].

(** The actions [executeStep] knows. *)
Definition knownActions : list string :=
  [ "navigate"; "click"; "fill"; "clear"; "check"; "uncheck"; "select"; "hover";
    "press"; "assert_visible"; "assert_hidden"; "assert_text"; "assert_value";
    "assert_url"; "assert_title"; "wait"; "wait_for_element"; "screenshot" ].

(** A browser in which every call succeeds, except that clicking the
    locator [#missing] times out; the world is the clock, and every awaited
    call takes one tick. *)
Definition quietBrowser : TestDriver :=
  {| World := Z;
     Browser := unit;
     Context := unit;
     TPage := unit;
     TLocator := string;
     now := fun w => w;
     launch := fun _ _ _ w => (w + 1, Returned tt);
     newContext := fun _ _ _ w => (w + 1, Returned tt);
     newPage := fun _ w => (w + 1, Returned tt);
     setDefaultTimeout := fun _ _ w => (w, Returned tt);
     closeBrowser := fun _ w => (w + 1, Returned tt);
     goto := fun _ _ w => (w + 1, Returned tt);
     pageUrl := fun _ _ => "https://example.test/";
     pageTitle := fun _ w => (w + 1, Returned "Example");
     waitForTimeout := fun _ _ w => (w + 1, Returned tt);
     screenshot := fun _ _ w => (w + 1, Returned tt);
     tGetByRole := fun _ r _ => Returned r;
     tGetByText := fun _ t => Returned t;
     tGetByTestId := fun _ t => Returned t;
     tGetByPlaceholder := fun _ t => Returned t;
     tGetByLabel := fun _ t => Returned t;
     tGetByAltText := fun _ t => Returned t;
     tLocator := fun _ sel => Returned sel;
     click := fun l w =>
       if String.eqb l "#missing"
       then (w + 1, Threw (ErrorObject "Timeout 30000ms exceeded."))
       else (w + 1, Returned tt);
     fill := fun _ _ w => (w + 1, Returned tt);
     clear := fun _ w => (w + 1, Returned tt);
     check := fun _ w => (w + 1, Returned tt);
     uncheck := fun _ w => (w + 1, Returned tt);
     selectOption := fun _ _ w => (w + 1, Returned tt);
     hover := fun _ w => (w + 1, Returned tt);
     press := fun _ _ w => (w + 1, Returned tt);
     waitFor := fun _ _ w => (w + 1, Returned tt);
     textContent := fun _ w => (w + 1, Returned (Some "Welcome"));
     inputValue := fun _ w => (w + 1, Returned "standard_user");
     tmpdir := "/tmp";
     pathJoin := fun a b => a ++ "/" ++ b |}.

Definition freshEnv : Env quietBrowser :=
  Build_Env quietBrowser 0 None None [].

Definition openEnv : Env quietBrowser :=
  Build_Env quietBrowser 0 (Some tt) (Some tt) [].

Definition noOptions : TestOptions :=
  {| headless := None; slowMo := None; timeout := None; viewport := None |}.

Definition stepOf (a : string) (l v : option string) (text : string) : TestStep :=
  {| action := a; locator := l; value := v; description := text |}.

(** Open the page, click a button that is there, click one that is not,
    then check a text. *)
Definition sampleSteps : list TestStep :=
  [ stepOf "navigate" None (Some "https://example.test/") "Open the page";
    stepOf "click" (Some "locator('#login')") None "Click login";
    stepOf "click" (Some "locator('#missing')") None "Click missing";
    stepOf "assert_text" (Some "getByText('Welcome')") (Some "Welcome") "See welcome" ].

(** The counters of a result are those of its step results. *)
Definition Built (r : TestResult) : Prop :=
  totalSteps r = length (steps r)
  /\ passedSteps r = countStatus "passed" (steps r)
  /\ failedSteps r = countStatus "failed" (steps r).

(** The quiet browser on a machine where the browser cannot be started. *)
Definition noChromium : TestDriver :=
  {| World := Z;
     Browser := unit;
     Context := unit;
     TPage := unit;
     TLocator := string;
     now := now quietBrowser;
     launch := fun _ _ _ w =>
       (w + 1, Threw (ErrorObject "browserType.launch: Executable not found"));
     newContext := newContext quietBrowser;
     newPage := newPage quietBrowser;
     setDefaultTimeout := setDefaultTimeout quietBrowser;
     closeBrowser := closeBrowser quietBrowser;
     goto := goto quietBrowser;
     pageUrl := pageUrl quietBrowser;
     pageTitle := pageTitle quietBrowser;
     waitForTimeout := waitForTimeout quietBrowser;
     screenshot := screenshot quietBrowser;
     tGetByRole := tGetByRole quietBrowser;
     tGetByText := tGetByText quietBrowser;
     tGetByTestId := tGetByTestId quietBrowser;
     tGetByPlaceholder := tGetByPlaceholder quietBrowser;
     tGetByLabel := tGetByLabel quietBrowser;
     tGetByAltText := tGetByAltText quietBrowser;
     tLocator := tLocator quietBrowser;
     click := click quietBrowser;
     fill := fill quietBrowser;
     clear := clear quietBrowser;
     check := check quietBrowser;
     uncheck := uncheck quietBrowser;
     selectOption := selectOption quietBrowser;
     hover := hover quietBrowser;
     press := press quietBrowser;
     waitFor := waitFor quietBrowser;
     textContent := textContent quietBrowser;
     inputValue := inputValue quietBrowser;
     tmpdir := tmpdir quietBrowser;
     pathJoin := pathJoin quietBrowser |}.

Definition noChromiumEnv : Env noChromium :=
  Build_Env noChromium 0 None None [].

End RunTestSpec.

(** ** More reference definitions and sample inputs *)

Module SpecMore.

(** A character the escaping step leaves alone. *)
Definition plainChar (c : ascii) : bool :=
  negb (Ascii.eqb c "\") && negb (Ascii.eqb c "'").

(** Reading an escaped text back: a backslash stands for the character
    that follows it. *)
Fixpoint unescapeChars (s : string) : string :=
  match s with
  | EmptyString => EmptyString
  | String c r =>
      if Ascii.eqb c "\" then
        match r with
        | String c' r' => String c' (unescapeChars r')
        | EmptyString => String c EmptyString
        end
      else String c (unescapeChars r)
  end.

(** A character of a snake-case name: a small letter, a digit or an
    underscore. *)
Definition snakeChar (c : ascii) : bool :=
  JsText.is_lower c || JsText.is_digit c || Ascii.eqb c "_".

(** A keyword of the description occurs in the text LocatorEngine searches
    for the element. *)
Definition mentions (d : string) (el : ElementInfo) : bool :=
  existsb (fun kw => Js.includes (LocatorEngine.searchText el) kw)
          (Spec.keywordsOf d).

(** The attribute [LocatorEngine.generatePropertyName] builds the name
    from. *)
Definition nameSource (el : ElementInfo) : string :=
  JsText.or_str
    (Js.or_else (Js.or_else (Js.or_else (Js.or_else (id el) (name el)) (text el))
                   (placeholder el)) (ariaLabel el))
    (tagName el).

(** How often a name occurs in a list of names. *)
Fixpoint occurrences (n : string) (names : list string) : nat :=
  match names with
  | [] => 0
  | m :: rest => (if String.eqb m n then 1 else 0) + occurrences n rest
  end.

(** The name a property gets when [earlier] are the names of the properties
    before it: its own name at the first occurrence, the name followed by
    the number of the occurrence afterwards. *)
Definition numbered (earlier : list string) (n : string) : string :=
  match occurrences n earlier with
  | O => n
  | S k => n ++ Js.number_to_string (S (S k))
  end.

Fixpoint numberedNames (earlier : list string) (names : list string) : list string :=
  match names with
  | [] => []
  | n :: rest => numbered earlier n :: numberedNames (n :: earlier) rest
  end.

(** The attribute [GeneratePOMTool.generatePropertyName] builds the name
    from. *)
Definition pomNameSource (el : ElementInfo) : string :=
  JsText.or_str
    (Js.or_else
       (Js.or_else
          (Js.or_else (Js.or_else (Js.or_else (testId el) (id el)) (name el))
             (ariaLabel el))
          (text el))
       (placeholder el))
    (tagName el).

(** A property with a name and nothing else of interest. *)
Definition named (n : string) : GeneratePOMTool.PageElementProperty :=
  {| GeneratePOMTool.propertyName := n;
     GeneratePOMTool.pLocator := "locator('div')";
     GeneratePOMTool.pElementType := "div";
     GeneratePOMTool.pDescription := "div";
     GeneratePOMTool.seleniumLocator := None;
     GeneratePOMTool.pId := None;
     GeneratePOMTool.pName := None;
     GeneratePOMTool.pXpath := None;
     GeneratePOMTool.cssSelector := None |}.

(** A text of ninety-nine plain characters. *)
Definition ninetyNineChars : string :=
  Spec.take 99 (Sample.sixtyChars ++ Sample.sixtyChars).

(** The path the page script gives an element that has an id. *)
Definition idPath (i : string) : string :=
  "//*[@id=" ++ dquote ++ i ++ dquote ++ "]".

(** A character that is no quote and no parenthesis. *)
Definition plainIdChar (c : ascii) : bool :=
  negb (QuoteRegex.is_quote c) && negb (Ascii.eqb c "(") && negb (Ascii.eqb c ")").

Definition no_paren (c : ascii) : bool := negb (Ascii.eqb c "(").

(** [<input id="username" type="text">] *)
Definition userField : ElementInfo :=
  {| tagName := "input"; id := Some "username"; name := None; className := None;
     type := Some "text"; placeholder := None; text := None;
     ariaLabel := None; role := None; testId := None;
     href := None; title := None; value := None;
     xpath := idPath "username";
     selector := "#username" |}.

End SpecMore.

(** * Properties *)

(** ** Strings *)

Lemma includes_empty (s : string) : Js.includes s EmptyString = true.
Proof. destruct s; reflexivity. Qed.

Lemma substring0_take (n : nat) (s : string) : Js.substring0 n s = Spec.take n s.
Proof.
  unfold Js.substring0. revert s.
  induction n as [|n IH]; intros [|c r]; simpl; try reflexivity.
  now rewrite IH.
Qed.

Lemma take_length (n : nat) (s : string) : (String.length (Spec.take n s) <= n)%nat.
Proof.
  revert s. induction n as [|n IH]; intros [|c r]; simpl; try lia.
  specialize (IH r). lia.
Qed.

Lemma take_short (n : nat) (s : string) :
  (String.length s <= n)%nat -> Spec.take n s = s.
Proof.
  revert s. induction n as [|n IH]; intros [|c r]; simpl; intros H;
    try reflexivity; try lia.
  rewrite IH by lia. reflexivity.
Qed.

(** ** The stable sort *)

Section SortFacts.

Context {A : Type}.
Variable key : A -> Z.

Let cmp (a b : A) : Z := key b - key a.
Let above (a b : A) : Prop := key b <= key a.

Lemma insert_by_perm (x : A) (l : list A) :
  Permutation (Js.insert_by cmp x l) (x :: l).
Proof.
  induction l as [|y l IH]; simpl.
  - apply Permutation_refl.
  - destruct (cmp x y <=? 0).
    + apply Permutation_refl.
    + eapply Permutation_trans; [ apply perm_skip, IH | apply perm_swap ].
Qed.

Lemma sort_perm (l : list A) : Permutation (Js.sort cmp l) l.
Proof.
  induction l as [|x l IH]; simpl.
  - constructor.
  - eapply Permutation_trans; [ apply insert_by_perm | now apply perm_skip ].
Qed.

Lemma insert_by_above (y x : A) (l : list A) :
  above y x -> Forall (above y) l -> Forall (above y) (Js.insert_by cmp x l).
Proof.
  intros Hx Hl. induction Hl as [|z l Hz Hl IH]; simpl.
  - now constructor.
  - destruct (cmp x z <=? 0); repeat constructor; assumption.
Qed.

Lemma insert_by_sorted (x : A) (l : list A) :
  StronglySorted above l -> StronglySorted above (Js.insert_by cmp x l).
Proof.
  induction 1 as [|y l Hs IH Hall]; simpl.
  - repeat constructor.
  - destruct (cmp x y <=? 0) eqn:E.
    + apply Z.leb_le in E. constructor.
      * now constructor.
      * constructor; [ unfold above, cmp in *; lia | ].
        eapply Forall_impl; [ | exact Hall ].
        intros z Hz. unfold above, cmp in *. lia.
    + apply Z.leb_gt in E. constructor; [ exact IH | ].
      apply insert_by_above; [ unfold above, cmp in *; lia | exact Hall ].
Qed.

Lemma sort_sorted (l : list A) : StronglySorted above (Js.sort cmp l).
Proof.
  induction l as [|x l IH]; simpl.
  - constructor.
  - now apply insert_by_sorted.
Qed.

Lemma insert_by_filter (k : Z) (x : A) (l : list A) :
  filter (fun a => key a =? k) (Js.insert_by cmp x l)
  = filter (fun a => key a =? k) (x :: l).
Proof.
  induction l as [|y l IH]; simpl.
  - reflexivity.
  - destruct (cmp x y <=? 0) eqn:E; simpl.
    + reflexivity.
    + apply Z.leb_gt in E. unfold cmp in E. simpl in IH. rewrite IH.
      destruct (key x =? k) eqn:Ex, (key y =? k) eqn:Ey; try reflexivity.
      apply Z.eqb_eq in Ex, Ey. lia.
Qed.

Lemma sort_stable (k : Z) (l : list A) :
  filter (fun a => key a =? k) (Js.sort cmp l) = filter (fun a => key a =? k) l.
Proof.
  induction l as [|x l IH]; simpl.
  - reflexivity.
  - rewrite insert_by_filter. simpl. now rewrite IH.
Qed.

End SortFacts.

Lemma insert_by_map {A B} (f : A -> B) (cmp : B -> B -> Z) (x : A) (l : list A) :
  Js.insert_by cmp (f x) (map f l)
  = map f (Js.insert_by (fun a b => cmp (f a) (f b)) x l).
Proof.
  induction l as [|y l IH]; simpl.
  - reflexivity.
  - destruct (cmp (f x) (f y) <=? 0); simpl; [ reflexivity | now rewrite IH ].
Qed.

Lemma sort_map {A B} (f : A -> B) (cmp : B -> B -> Z) (l : list A) :
  Js.sort cmp (map f l) = map f (Js.sort (fun a b => cmp (f a) (f b)) l).
Proof.
  induction l as [|x l IH]; simpl.
  - reflexivity.
  - rewrite IH. apply insert_by_map.
Qed.

Lemma filter_map_comm {A B} (f : A -> B) (p : B -> bool) (l : list A) :
  filter p (map f l) = map f (filter (fun a => p (f a)) l).
Proof.
  induction l as [|x l IH]; simpl.
  - reflexivity.
  - destruct (p (f x)); simpl; now rewrite IH.
Qed.

(** ** Ranking *)

Lemma js_sort_ranked (l : list LocatorResult) :
  Spec.RankedFrom l (Js.sort by_reliability l).
Proof.
  change by_reliability with (fun a b : LocatorResult => reliability b - reliability a).
  split; [ apply sort_perm | split ].
  - apply (sort_sorted reliability).
  - intros k. apply (sort_stable reliability).
Qed.

Ltac split_candidates H :=
  repeat (apply in_app_or in H; destruct H as [H|H]).

Ltac one_candidate H :=
  repeat match type of H with
         | In _ (if ?b then _ else _) => destruct b eqn:?
         | In _ (match ?x with Some _ => _ | None => _ end) => destruct x eqn:?
         | In _ [] => destruct H
         | In _ [_] => destruct H as [H|[]]; subst
         end.

Ltac split_shape :=
  repeat match goal with
         | |- context [if ?b then _ else _] => destruct b
         | |- context [match ?x with Some _ => _ | None => _ end] => destruct x
         end.

Lemma nodup_by_computation (l : list string) :
  nodup string_dec l = l -> NoDup l.
Proof. intros H. rewrite <- H. apply NoDup_nodup. Qed.

Lemma map_kind_if (c : bool) (x : LocatorResult) :
  map kind (if c then [x] else []) = if c then [kind x] else [].
Proof. now destruct c. Qed.

Ltac kinds_distinct :=
  repeat rewrite map_app;
  repeat match goal with
         | |- context [map kind (match ?x with Some _ => _ | None => _ end)] =>
             destruct x
         | |- context [map kind (if ?b then (if _ then _ else _) else _)] =>
             destruct b
         | |- context [map kind (if ?b then _ else [_])] => destruct b
         end;
  repeat rewrite map_kind_if; cbn [map kind app];
  split_shape; apply nodup_by_computation; vm_compute; reflexivity.

Lemma AnalyzePageTool_kinds_distinct (el : ElementInfo) :
  NoDup (map kind (AnalyzePageTool.generateLocators el)).
Proof.
  unfold AnalyzePageTool.generateLocators.
  generalize (AnalyzePageTool.inferRole el); intros inferred.
  kinds_distinct.
Qed.

Lemma GetLocatorsTool_kinds_distinct (el : ElementInfo) :
  NoDup (map kind (GetLocatorsTool.generateLocators el)).
Proof.
  unfold GetLocatorsTool.generateLocators.
  generalize (GetLocatorsTool.inferRole el); intros inferred.
  kinds_distinct.
Qed.

Lemma LocatorEngine_kinds_distinct (el : ElementInfo) :
  NoDup (map kind (LocatorEngine.generateLocators el)).
Proof.
  unfold LocatorEngine.generateLocators.
  generalize (LocatorEngine.inferRole el); intros inferred.
  kinds_distinct.
Qed.

Lemma GetLocatorsTool_kind_reliability (el : ElementInfo) (c : LocatorResult) :
  In c (GetLocatorsTool.generateLocators el) ->
  reliability c = Spec.kindReliability 90 (kind c).
Proof.
  unfold GetLocatorsTool.generateLocators. intros H.
  split_candidates H; one_candidate H; reflexivity.
Qed.

Lemma LocatorEngine_kind_reliability (el : ElementInfo) (c : LocatorResult) :
  In c (LocatorEngine.generateLocators el) ->
  reliability c = Spec.kindReliability 88 (kind c).
Proof.
  unfold LocatorEngine.generateLocators. intros H.
  split_candidates H; one_candidate H; reflexivity.
Qed.

Lemma AnalyzePageTool_kind_reliability (el : ElementInfo) (c : LocatorResult) :
  In c (AnalyzePageTool.generateLocators el) ->
  (reliability c = Spec.kindReliability 90 (kind c)
   /\ (kind c = "role" -> Js.truthy (Spec.accessibleName el) = true))
  \/ (kind c = "role" /\ reliability c = 70
      /\ Js.truthy (Spec.accessibleName el) = false).
Proof.
  unfold AnalyzePageTool.generateLocators, Spec.accessibleName. intros H.
  split_candidates H; one_candidate H;
    first [ left; split;
            [ reflexivity | intros K; first [ discriminate K | reflexivity ] ]
          | right; repeat split; reflexivity ].
Qed.

(** C5, as stated, fails: two candidates that AnalyzePageTool synthesizes,
    one for a button without any text and one for a button showing Login,
    both bear the kind label role, with reliabilities 70 and 95. *)
Lemma same_kind_different_reliability :
  ~ (forall c1 c2,
        In c1 (AnalyzePageTool.generateLocators (Sample.bare "button")) ->
        In c2 (AnalyzePageTool.generateLocators Sample.plainLogin) ->
        kind c1 = kind c2 -> reliability c1 = reliability c2).
Proof.
  intros H.
  specialize (H {| kind := "role"; locator := "getByRole('button')";
                   reliability := 70;
                   description := "Role without name - may match multiple elements" |}
                {| kind := "role";
                   locator := "getByRole('button', { name: 'Login' })";
                   reliability := 95;
                   description := "Playwright recommended - accessible and stable" |}).
  assert (K : 70 = 95); [ | discriminate K ].
  apply H; [ left; reflexivity | left; reflexivity | reflexivity ].
Qed.

(** C5 (amended): every rankLocators returns its candidates sorted by
    reliability in non-increasing order, candidates of equal reliability
    keeping their emission order; within one synthesized list no two
    candidates bear the same kind label; and among the candidates one tool
    synthesizes the kind label fixes the reliability, except that
    AnalyzePageTool gives the kind role 95 when the element has an accessible
    name and 70 when it has none. *)
Theorem rank_sorted_stable_kinds :
  (forall l, Spec.RankedFrom l (AnalyzePageTool.rankLocators l))
  /\ (forall l, Spec.RankedFrom l (LocatorEngine.rankLocators l))
  /\ (forall l, Spec.RankedFrom l (GetLocatorsTool.rankLocators l))
  /\ (forall el, NoDup (map kind (AnalyzePageTool.generateLocators el)))
  /\ (forall el, NoDup (map kind (LocatorEngine.generateLocators el)))
  /\ (forall el, NoDup (map kind (GetLocatorsTool.generateLocators el)))
  /\ Spec.KindFixesReliability LocatorEngine.generateLocators
  /\ Spec.KindFixesReliability GetLocatorsTool.generateLocators
  /\ (forall e1 e2 c1 c2,
        In c1 (AnalyzePageTool.generateLocators e1) ->
        In c2 (AnalyzePageTool.generateLocators e2) ->
        kind c1 = kind c2 ->
        kind c1 <> "role"
        \/ Js.truthy (Spec.accessibleName e1) = Js.truthy (Spec.accessibleName e2) ->
        reliability c1 = reliability c2)
  /\ (forall el c,
        In c (AnalyzePageTool.generateLocators el) -> kind c = "role" ->
        reliability c = if Js.truthy (Spec.accessibleName el) then 95 else 70).
Proof.
  split; [ intros l; apply js_sort_ranked | ].
  split; [ intros l; apply js_sort_ranked | ].
  split; [ intros l; apply js_sort_ranked | ].
  split; [ apply AnalyzePageTool_kinds_distinct | ].
  split; [ apply LocatorEngine_kinds_distinct | ].
  split; [ apply GetLocatorsTool_kinds_distinct | ].
  split; [ | split; [ | split ] ].
  - intros e1 e2 c1 c2 H1 H2 K.
    rewrite (LocatorEngine_kind_reliability _ _ H1),
            (LocatorEngine_kind_reliability _ _ H2), K. reflexivity.
  - intros e1 e2 c1 c2 H1 H2 K.
    rewrite (GetLocatorsTool_kind_reliability _ _ H1),
            (GetLocatorsTool_kind_reliability _ _ H2), K. reflexivity.
  - intros e1 e2 c1 c2 H1 H2 K Hname.
    destruct (AnalyzePageTool_kind_reliability _ _ H1) as [[R1 N1]|[K1 [R1 N1]]],
             (AnalyzePageTool_kind_reliability _ _ H2) as [[R2 N2]|[K2 [R2 N2]]].
    + rewrite R1, R2, K. reflexivity.
    + destruct Hname as [NotRole|Same].
      * exfalso. apply NotRole. now rewrite K.
      * rewrite N1 in Same by (now rewrite K). rewrite N2 in Same. discriminate Same.
    + destruct Hname as [NotRole|Same].
      * contradiction.
      * rewrite N1, N2 in Same by (now rewrite <- K). discriminate Same.
    + now rewrite R1, R2.
  - intros el c H K.
    destruct (AnalyzePageTool_kind_reliability _ _ H) as [[R N]|[_ [R N]]].
    + rewrite (N K), R, K. reflexivity.
    + now rewrite N, R.
Qed.

(** ** Fallback totality *)

(** C4: whatever the element, also one with no optional attribute at all,
    every dialect A synthesizer ends its candidate list with an xpath
    candidate and the dialect B synthesizer ends its list with the tag-name
    locator; so every list has at least one candidate. *)
Theorem synthesize_fallback (el : ElementInfo) :
  (exists pre,
      AnalyzePageTool.generateLocators el
      = app pre [ {| kind := "xpath";
                    locator := "locator(" ++ dquote ++ xpath el ++ dquote ++ ")";
                    reliability := 40;
                    description := "XPath - avoid unless necessary" |} ])
  /\ (exists pre,
      GetLocatorsTool.generateLocators el
      = app pre [ {| kind := "xpath";
                    locator := "locator(" ++ dquote ++ xpath el ++ dquote ++ ")";
                    reliability := 40;
                    description := "XPath - avoid unless necessary" |} ])
  /\ (exists pre,
      LocatorEngine.generateLocators el
      = app pre [ {| kind := "xpath";
                    locator := "locator('" ++ xpath el ++ "')";
                    reliability := 40;
                    description := "XPath - avoid unless necessary" |} ])
  /\ (exists pre,
      GetLocatorsTool.generateSeleniumLocators el
      = app pre [ GetLocatorsTool.by_ "tagName" "TAG_NAME" "TagName" (tagName el) ])
  /\ (1 <= length (AnalyzePageTool.generateLocators el))%nat
  /\ (1 <= length (GetLocatorsTool.generateLocators el))%nat
  /\ (1 <= length (LocatorEngine.generateLocators el))%nat
  /\ (1 <= length (GetLocatorsTool.generateSeleniumLocators el))%nat.
Proof.
  assert (Last : forall (A : Type) (l pre : list A) (x : A),
             l = app pre [x] -> (1 <= length l)%nat).
  { intros A l pre x ->. rewrite length_app. simpl. lia. }
  assert (HA : exists pre,
             AnalyzePageTool.generateLocators el
             = app pre [ {| kind := "xpath";
                           locator := "locator(" ++ dquote ++ xpath el ++ dquote ++ ")";
                           reliability := 40;
                           description := "XPath - avoid unless necessary" |} ]).
  { unfold AnalyzePageTool.generateLocators. repeat rewrite app_assoc.
    eexists. reflexivity. }
  assert (HG : exists pre,
             GetLocatorsTool.generateLocators el
             = app pre [ {| kind := "xpath";
                           locator := "locator(" ++ dquote ++ xpath el ++ dquote ++ ")";
                           reliability := 40;
                           description := "XPath - avoid unless necessary" |} ]).
  { unfold GetLocatorsTool.generateLocators. repeat rewrite app_assoc.
    eexists. reflexivity. }
  assert (HL : exists pre,
             LocatorEngine.generateLocators el
             = app pre [ {| kind := "xpath";
                           locator := "locator('" ++ xpath el ++ "')";
                           reliability := 40;
                           description := "XPath - avoid unless necessary" |} ]).
  { unfold LocatorEngine.generateLocators. repeat rewrite app_assoc.
    eexists. reflexivity. }
  assert (HS : exists pre,
             GetLocatorsTool.generateSeleniumLocators el
             = app pre [ GetLocatorsTool.by_ "tagName" "TAG_NAME" "TagName" (tagName el) ]).
  { unfold GetLocatorsTool.generateSeleniumLocators. repeat rewrite app_assoc.
    eexists. reflexivity. }
  repeat split; try assumption.
  - destruct HA as [pre E]. eapply Last, E.
  - destruct HG as [pre E]. eapply Last, E.
  - destruct HL as [pre E]. eapply Last, E.
  - destruct HS as [pre E]. eapply Last, E.
Qed.

(** On an element with a tag outside the role table and no attribute, the
    xpath candidate (or the css, xpath and tag-name locators) is all there
    is. *)
Example plain_div_candidates :
  map kind (AnalyzePageTool.generateLocators (Sample.bare "div")) = ["xpath"]
  /\ map kind (GetLocatorsTool.generateLocators (Sample.bare "div")) = ["xpath"]
  /\ map kind (LocatorEngine.generateLocators (Sample.bare "div")) = ["css"; "xpath"]
  /\ map java (GetLocatorsTool.generateSeleniumLocators (Sample.bare "div"))
     = [ "By.cssSelector(" ++ dquote ++ "div" ++ dquote ++ ")";
         "By.xpath(" ++ dquote ++ "/html[1]/body[1]/div[1]" ++ dquote ++ ")";
         "By.tagName(" ++ dquote ++ "div" ++ dquote ++ ")" ].
Proof. repeat split; reflexivity. Qed.

(** ** The login button scenario *)

Lemma AnalyzePageTool_button_role (el : ElementInfo) :
  tagName el = "button" -> AnalyzePageTool.inferRole el = Some (Own "button").
Proof. unfold AnalyzePageTool.inferRole. intros ->. reflexivity. Qed.

Lemma GetLocatorsTool_button_role (el : ElementInfo) :
  tagName el = "button" -> GetLocatorsTool.inferRole el = Some (Own "button").
Proof. unfold GetLocatorsTool.inferRole. intros ->. reflexivity. Qed.

Lemma LocatorEngine_button_role (el : ElementInfo) :
  tagName el = "button" -> LocatorEngine.inferRole el = Some "button".
Proof. unfold LocatorEngine.inferRole. intros ->. reflexivity. Qed.

(** C6: for a button with test id login-btn, aria label Login and visible
    text Login (no id, no explicit role; any other attribute), each tool's
    synthesis followed by ranking puts the testId candidate (98) first, the
    role-with-name candidate (95) second and the label candidate third, with
    reliability 90 in AnalyzePageTool and GetLocatorsTool and 88 in
    LocatorEngine. *)
Theorem login_button_ranking (el : ElementInfo) :
  tagName el = "button" ->
  testId el = Some "login-btn" ->
  ariaLabel el = Some "Login" ->
  text el = Some "Login" ->
  id el = None ->
  role el = None ->
  map Spec.summary
      (firstn 3 (AnalyzePageTool.rankLocators (AnalyzePageTool.generateLocators el)))
  = [ ("testId", "getByTestId('login-btn')", 98);
      ("role", "getByRole('button', { name: 'Login' })", 95);
      ("label", "getByLabel('Login')", 90) ]
  /\ map Spec.summary
       (firstn 3 (GetLocatorsTool.rankLocators (GetLocatorsTool.generateLocators el)))
     = [ ("testId", "getByTestId('login-btn')", 98);
         ("role", "getByRole('button', { name: 'Login' })", 95);
         ("label", "getByLabel('Login')", 90) ]
  /\ map Spec.summary
       (firstn 3 (LocatorEngine.rankLocators (LocatorEngine.generateLocators el)))
     = [ ("testId", "getByTestId('login-btn')", 98);
         ("role", "getByRole('button', { name: 'Login' })", 95);
         ("label", "getByLabel('Login')", 88) ].
Proof.
  intros Htag Htid Hal Htx Hid Hro.
  unfold AnalyzePageTool.rankLocators, GetLocatorsTool.rankLocators,
    LocatorEngine.rankLocators, AnalyzePageTool.generateLocators,
    GetLocatorsTool.generateLocators, LocatorEngine.generateLocators.
  rewrite (AnalyzePageTool_button_role el Htag),
    (GetLocatorsTool_button_role el Htag), (LocatorEngine_button_role el Htag).
  rewrite Htag, Htid, Hal, Htx, Hid, Hro.
  cbn [Js.truthy Js.or_else Js.str value_truthy Js.truthy_str value_text
       existsb String.eqb Ascii.eqb Bool.eqb andb orb negb].
  repeat split; split_shape; reflexivity.
Qed.

Lemma login_button_ranking_witness :
  tagName Sample.loginButton = "button"
  /\ testId Sample.loginButton = Some "login-btn"
  /\ ariaLabel Sample.loginButton = Some "Login"
  /\ text Sample.loginButton = Some "Login"
  /\ id Sample.loginButton = None
  /\ role Sample.loginButton = None
  /\ map Spec.summary
       (firstn 3 (LocatorEngine.rankLocators
                    (LocatorEngine.generateLocators Sample.loginButton)))
     = [ ("testId", "getByTestId('login-btn')", 98);
         ("role", "getByRole('button', { name: 'Login' })", 95);
         ("label", "getByLabel('Login')", 88) ].
Proof.
  repeat (split; [ reflexivity | ]).
  apply (login_button_ranking Sample.loginButton); reflexivity.
Defined.

(** ** The text candidate *)

Lemma text_guard (tx : option string) (tag : string) :
  Js.truthy tx && negb (existsb (String.eqb tag) ["input"; "textarea"]) = true
  <-> Js.truthy tx = true /\ tag <> "input" /\ tag <> "textarea".
Proof.
  simpl. rewrite andb_true_iff, negb_true_iff, !orb_false_iff, !String.eqb_neq.
  tauto.
Qed.

Lemma AnalyzePageTool_text_candidate (el : ElementInfo) :
  (exists c, In c (AnalyzePageTool.generateLocators el) /\ kind c = "text")
  <-> Js.truthy (text el) = true
      /\ tagName el <> "input" /\ tagName el <> "textarea".
Proof.
  rewrite <- text_guard. unfold AnalyzePageTool.generateLocators. split.
  - intros [c [H K]].
    split_candidates H; one_candidate H; try discriminate K;
      first [ reflexivity | assumption ].
  - intros G. eexists. split.
    + do 4 (apply in_or_app; right). apply in_or_app; left.
      rewrite G. left. reflexivity.
    + reflexivity.
Qed.

Lemma GetLocatorsTool_text_candidate (el : ElementInfo) :
  (exists c, In c (GetLocatorsTool.generateLocators el) /\ kind c = "text")
  <-> Js.truthy (text el) = true
      /\ tagName el <> "input" /\ tagName el <> "textarea".
Proof.
  rewrite <- text_guard. unfold GetLocatorsTool.generateLocators. split.
  - intros [c [H K]].
    split_candidates H; one_candidate H; try discriminate K;
      first [ reflexivity | assumption ].
  - intros G. eexists. split.
    + do 4 (apply in_or_app; right). apply in_or_app; left.
      rewrite G. left. reflexivity.
    + reflexivity.
Qed.

(** In AnalyzePageTool and GetLocatorsTool a text-kind candidate is emitted
    exactly when the visible text is present and the tag is neither input
    nor textarea, and it carries reliability 75. *)
Lemma tools_text_candidate (el : ElementInfo) :
  ((exists c, In c (AnalyzePageTool.generateLocators el) /\ kind c = "text")
   <-> Js.truthy (text el) = true
       /\ tagName el <> "input" /\ tagName el <> "textarea")
  /\ ((exists c, In c (GetLocatorsTool.generateLocators el) /\ kind c = "text")
      <-> Js.truthy (text el) = true
          /\ tagName el <> "input" /\ tagName el <> "textarea")
  /\ (forall c, In c (AnalyzePageTool.generateLocators el) ->
                kind c = "text" -> reliability c = 75)
  /\ (forall c, In c (GetLocatorsTool.generateLocators el) ->
                kind c = "text" -> reliability c = 75).
Proof.
  split; [ apply AnalyzePageTool_text_candidate | ].
  split; [ apply GetLocatorsTool_text_candidate | ].
  split.
  - intros c H K.
    destruct (AnalyzePageTool_kind_reliability _ _ H) as [[R _]|[K' _]].
    + now rewrite R, K.
    + rewrite K in K'. discriminate K'.
  - intros c H K. now rewrite (GetLocatorsTool_kind_reliability _ _ H), K.
Qed.

(** LocatorEngine guards the text candidate with the tag input only. *)
Lemma LocatorEngine_text_candidate (el : ElementInfo) :
  (exists c, In c (LocatorEngine.generateLocators el) /\ kind c = "text")
  <-> Js.truthy (text el) = true /\ tagName el <> "input".
Proof.
  rewrite <- String.eqb_neq, <- negb_true_iff, <- andb_true_iff.
  unfold LocatorEngine.generateLocators. split.
  - intros [c [H K]].
    split_candidates H; one_candidate H; try discriminate K;
      first [ reflexivity | assumption ].
  - intros G. eexists. split.
    + do 4 (apply in_or_app; right). apply in_or_app; left.
      rewrite G. left. reflexivity.
    + reflexivity.
Qed.

(** C8, at a textarea holding the text notes: LocatorEngine emits a
    text-kind candidate with reliability 75 for it, where AnalyzePageTool and
    GetLocatorsTool emit none. *)
Theorem LocatorEngine_text_candidate_for_textarea :
  map Spec.summary (LocatorEngine.generateLocators Sample.notesArea)
  = [ ("role", "getByRole('textbox', { name: 'notes' })", 95);
      ("text", "getByText('notes')", 75);
      ("css", "locator('textarea')", 60);
      ("xpath", "locator('/html[1]/body[1]/textarea[1]')", 40) ]
  /\ map kind (AnalyzePageTool.generateLocators Sample.notesArea)
     = ["role"; "xpath"]
  /\ map kind (GetLocatorsTool.generateLocators Sample.notesArea)
     = ["role"; "xpath"].
Proof. repeat split; reflexivity. Qed.

(** ** Role inference *)

Ltac by_key tag :=
  repeat match goal with
         | |- context [String.eqb ?lit tag] =>
             let E := fresh "E" in
             destruct (String.eqb lit tag) eqn:E;
             [ apply String.eqb_eq in E; subst tag; try reflexivity | ]
         end.

Lemma inputRoles_lookup (roles : list (string * string)) (ty : option string) :
  roles = AnalyzePageTool.inputRoles ->
  Spec.inheritedKey (Spec.typeKey ty) = false ->
  (if value_truthy (get_property roles (Spec.typeKey ty))
   then get_property roles (Spec.typeKey ty)
   else Some (Own "textbox"))
  = option_map Own (Spec.roleTable "input" ty).
Proof.
  intros ->. unfold Spec.inheritedKey, get_property.
  destruct ty as [[|c r]|]; try reflexivity.
  unfold Spec.typeKey, Spec.roleTable, AnalyzePageTool.inputRoles.
  cbn [Js.truthy Js.str own_property].
  remember (String c r) as key eqn:K. clear K. intros Hkey.
  replace (String.eqb "button" "input") with false by reflexivity.
  replace (String.eqb "a" "input") with false by reflexivity.
  replace (String.eqb "select" "input") with false by reflexivity.
  replace (String.eqb "textarea" "input") with false by reflexivity.
  replace (String.eqb "img" "input") with false by reflexivity.
  replace (String.eqb "input" "input") with true by reflexivity.
  by_key key.
  rewrite Hkey. reflexivity.
Qed.

(** For every tag and type whose lookup key is not a member of
    [Object.prototype], AnalyzePageTool infers the role of the fixed
    table. *)
Lemma AnalyzePageTool_inferRole_table (el : ElementInfo) :
  Spec.inheritedKey (Js.toLowerCase (tagName el)) = false ->
  Spec.inheritedKey (Spec.typeKey (Js.lower_opt (type el))) = false ->
  AnalyzePageTool.inferRole el
  = option_map Own
      (Spec.roleTable (Js.toLowerCase (tagName el)) (Js.lower_opt (type el))).
Proof.
  unfold AnalyzePageTool.inferRole.
  fold (Spec.typeKey (Js.lower_opt (type el))).
  generalize (Js.toLowerCase (tagName el)) (Js.lower_opt (type el)).
  intros tag ty Htag Hkey.
  destruct (String.eqb tag "input") eqn:Ei.
  - apply String.eqb_eq in Ei. subst tag.
    replace (value_truthy (get_property AnalyzePageTool.roleMap "input"))
      with false by reflexivity.
    now apply inputRoles_lookup.
  - unfold get_property, Spec.roleTable, AnalyzePageTool.roleMap.
    unfold Spec.inheritedKey in Htag. cbn [own_property].
    by_key tag; try (vm_compute in Ei; discriminate Ei).
    rewrite Htag. reflexivity.
Qed.

(** GetLocatorsTool has the same inferRole. *)
Lemma GetLocatorsTool_inferRole_same (el : ElementInfo) :
  GetLocatorsTool.inferRole el = AnalyzePageTool.inferRole el.
Proof. reflexivity. Qed.

(** A tag outside the table infers no role in AnalyzePageTool and
    GetLocatorsTool, unless the tag is a member of [Object.prototype]. *)
Lemma tools_no_role_outside_table (el : ElementInfo) :
  Spec.inheritedKey (Js.toLowerCase (tagName el)) = false ->
  ~ In (Js.toLowerCase (tagName el))
       ["button"; "a"; "select"; "textarea"; "img"; "input"] ->
  AnalyzePageTool.inferRole el = None /\ GetLocatorsTool.inferRole el = None.
Proof.
  intros Htag Hout.
  assert (R : AnalyzePageTool.inferRole el = None).
  { unfold AnalyzePageTool.inferRole, get_property, AnalyzePageTool.roleMap.
    unfold Spec.inheritedKey in Htag. revert Htag Hout.
    generalize (Js.toLowerCase (tagName el)). intros tag Htag Hout.
    cbn [own_property].
    by_key tag; try solve [ exfalso; apply Hout; simpl; auto 10 ].
    rewrite Htag. cbn [value_truthy].
    destruct (String.eqb tag "input") eqn:Ei; [ | reflexivity ].
    apply String.eqb_eq in Ei. exfalso. apply Hout. simpl. auto 10. }
  split; [ exact R | rewrite GetLocatorsTool_inferRole_same; exact R ].
Qed.

(** C7, at an input of type search and at an input of type number:
    LocatorEngine infers textbox for both, where the table says searchbox and
    spinbutton and AnalyzePageTool and GetLocatorsTool infer those.  And at
    the tag constructor, which is outside the table, AnalyzePageTool and
    GetLocatorsTool find the inherited member of the lookup object and emit
    a role candidate built from it. *)
Theorem inferRole_outside_table :
  LocatorEngine.inferRole Sample.searchInput = Some "textbox"
  /\ LocatorEngine.inferRole Sample.numberInput = Some "textbox"
  /\ Spec.roleTable "input" (Some "search") = Some "searchbox"
  /\ Spec.roleTable "input" (Some "number") = Some "spinbutton"
  /\ AnalyzePageTool.inferRole Sample.searchInput = Some (Own "searchbox")
  /\ AnalyzePageTool.inferRole Sample.numberInput = Some (Own "spinbutton")
  /\ GetLocatorsTool.inferRole Sample.searchInput = Some (Own "searchbox")
  /\ GetLocatorsTool.inferRole Sample.numberInput = Some (Own "spinbutton")
  /\ Spec.roleTable "constructor" None = None
  /\ LocatorEngine.inferRole (Sample.bare "constructor") = None
  /\ AnalyzePageTool.inferRole (Sample.bare "constructor")
     = Some (FromPrototype "constructor")
  /\ map Spec.summary (AnalyzePageTool.generateLocators (Sample.bare "constructor"))
     = [ ("role", "getByRole('function Object() { [native code] }')", 70);
         ("xpath",
          "locator(" ++ dquote ++ "/html[1]/body[1]/constructor[1]" ++ dquote ++ ")",
          40) ].
Proof. repeat split; reflexivity. Qed.

(** ** Escaping *)

(** The two global replacements, backslashes first and quotes second, escape
    the text character by character: the backslashes the second pass inserts
    are not doubled, and the first pass creates no quote. *)
Lemma two_pass_escape (s : string) :
  Js.replace_all "'" "\'" (Js.replace_all "\" "\\" s) = Spec.escapeChars s.
Proof.
  induction s as [|c r IH]; [ reflexivity | ].
  simpl. unfold Spec.escapeChar.
  destruct (Ascii.eqb c "\") eqn:E1.
  - simpl. now rewrite IH.
  - simpl. destruct (Ascii.eqb c "'"); simpl; now rewrite IH.
Qed.

(** In AnalyzePageTool and GetLocatorsTool the escaping step doubles every
    backslash, escapes every single quote and cuts the result to 100
    characters. *)
Lemma tools_escape (s : string) :
  AnalyzePageTool.escape s = Spec.escapedText s
  /\ GetLocatorsTool.escape s = Spec.escapedText s
  /\ (String.length (AnalyzePageTool.escape s) <= 100)%nat
  /\ (String.length (GetLocatorsTool.escape s) <= 100)%nat.
Proof.
  assert (E : AnalyzePageTool.escape s = Spec.escapedText s).
  { unfold AnalyzePageTool.escape, Spec.escapedText, AnalyzePageTool.MAX_TEXT_LENGTH.
    now rewrite substring0_take, two_pass_escape. }
  assert (G : GetLocatorsTool.escape s = Spec.escapedText s) by exact E.
  rewrite E, G. repeat split; apply take_length.
Qed.

(** A text short enough and free of backslashes and quotes is interpolated
    unchanged. *)
Lemma escape_plain (s : string) :
  Spec.escapeChars s = s -> (String.length s <= 100)%nat ->
  AnalyzePageTool.escape s = s.
Proof.
  intros P L. destruct (tools_escape s) as [E _]. rewrite E.
  unfold Spec.escapedText. rewrite P. now apply take_short.
Qed.

(** LocatorEngine escapes the single quotes only and cuts at 50. *)
Lemma LocatorEngine_escape (s : string) :
  LocatorEngine.escape s = Spec.take 50 (Js.replace_all "'" "\'" s)
  /\ (String.length (LocatorEngine.escape s) <= 50)%nat.
Proof.
  unfold LocatorEngine.escape. rewrite substring0_take.
  split; [ reflexivity | apply take_length ].
Qed.

(** C9, at the text a\b: LocatorEngine leaves the backslash single, where
    the escaping step of the claim, and AnalyzePageTool and GetLocatorsTool,
    double it; and LocatorEngine cuts a text of sixty characters to fifty. *)
Theorem LocatorEngine_escape_backslash :
  LocatorEngine.escape "a\b" = "a\b"
  /\ Spec.escapedText "a\b" = "a\\b"
  /\ AnalyzePageTool.escape "a\b" = "a\\b"
  /\ GetLocatorsTool.escape "a\b" = "a\\b"
  /\ String.length (LocatorEngine.escape Sample.sixtyChars) = 50%nat
  /\ String.length (AnalyzePageTool.escape Sample.sixtyChars) = 60%nat.
Proof. repeat split; reflexivity. Qed.

(** ** Page analysis *)

(** With [F] the number of elements the element-type filter leaves:
    [truncated] tells whether [F] exceeds 50 and [returnedElements] is the
    smaller of [F] and 50; [totalElements] is the number of extracted
    elements, before the filter. *)
Lemma execute_counts (u : string) (allElements : list ElementInfo)
    (elementTypes : option (list string)) :
  let F := length (AnalyzePageTool.filterElements allElements elementTypes) in
  let r := AnalyzePageTool.execute u allElements elementTypes in
  truncated r = (50 <? F)%nat
  /\ (truncated r = true <-> (50 < F)%nat)
  /\ returnedElements r = Nat.min F 50
  /\ totalElements r = length allElements
  /\ length (elements r) = returnedElements r.
Proof.
  cbn zeta. unfold AnalyzePageTool.execute, AnalyzePageTool.MAX_ELEMENTS, Js.slice0.
  cbn [truncated returnedElements totalElements elements].
  rewrite length_map, length_firstn, Nat.ltb_lt.
  repeat split; try tauto. apply Nat.min_comm.
Qed.

(** Without an element-type filter [totalElements] is [F]. *)
Lemma execute_total_unfiltered (u : string) (allElements : list ElementInfo) :
  totalElements (AnalyzePageTool.execute u allElements None)
  = length (AnalyzePageTool.filterElements allElements None)
  /\ totalElements (AnalyzePageTool.execute u allElements (Some []))
     = length (AnalyzePageTool.filterElements allElements (Some [])).
Proof. split; reflexivity. Qed.

(** A page with 75 interactive elements, analysed without a filter. *)
Example execute_75_elements :
  let r := AnalyzePageTool.execute "https://example.test"
             (repeat Sample.plainLogin 75) None in
  totalElements r = 75%nat /\ returnedElements r = 50%nat /\ truncated r = true.
Proof. vm_compute. repeat split. Qed.

(** C3, at a page whose interactive elements are one button and one search
    input, analysed with the filter [button]: one element passes the filter
    (F = 1) and one is returned, not truncated, but [totalElements] is 2, the
    count before the filter.  [LocatorEngine.analyzePage] reports 1 for the
    same page and filter. *)
Theorem execute_total_counts_unfiltered :
  let page := [Sample.plainLogin; Sample.searchInput] in
  let r := AnalyzePageTool.execute "https://example.test" page (Some ["button"]) in
  length (AnalyzePageTool.filterElements page (Some ["button"])) = 1%nat
  /\ totalElements r = 2%nat
  /\ returnedElements r = 1%nat
  /\ truncated r = false
  /\ snd (fst (LocatorEngine.analyzePage "https://example.test" page
                 (Some ["button"]))) = 1%nat.
Proof. vm_compute. repeat split. Qed.

(** ** Locator validation *)

(** C2: once the driver has navigated to the page, validateLocator returns
    a result and never throws; the result satisfies isValid = (matchCount > 0)
    and isUnique = (matchCount = 1); and when parsing the expression into a
    locator or counting its matches throws, the result is isValid = false,
    matchCount = 0, isUnique = false with the message of the error in its one
    suggestion. *)
Theorem validateLocator_result (d : Driver) (url locatorStr : string) (page : Page d) :
  navigateTo d url = Returned page ->
  exists r,
    LocatorEngine.validateLocator d url locatorStr = Returned r
    /\ isValid r = (0 <? matchCount r)%nat
    /\ isUnique r = (matchCount r =? 1)%nat
    /\ (forall e,
          LocatorEngine.parseLocatorString d page locatorStr = Threw e
          \/ (exists l,
                 LocatorEngine.parseLocatorString d page locatorStr = Returned l
                 /\ count d l = Threw e) ->
          r = {| isValid := false;
                 matchCount := 0;
                 isUnique := false;
                 suggestions := [ "Invalid locator syntax: " ++ thrown_message e ] |}).
Proof.
  intros Hnav. unfold LocatorEngine.validateLocator. rewrite Hnav. cbn [bind].
  destruct (LocatorEngine.parseLocatorString d page locatorStr) as [l|e] eqn:P;
    cbn [bind try_catch].
  - destruct (count d l) as [n|e] eqn:C; cbn [try_catch];
      eexists; (split; [ reflexivity | ]); cbn [isValid matchCount isUnique];
      (split; [ reflexivity | ]); (split; [ reflexivity | ]).
    + intros e [K|[l' [K C']]]; [ discriminate K | ].
      injection K as <-. rewrite C in C'. discriminate C'.
    + intros e' [K|[l' [K C']]]; [ discriminate K | ].
      injection K as <-. rewrite C in C'. injection C' as <-. reflexivity.
  - eexists. (split; [ reflexivity | ]). cbn [isValid matchCount isUnique].
    (split; [ reflexivity | ]). (split; [ reflexivity | ]).
    intros e' [K|[l' [K _]]]; [ | discriminate K ].
    injection K as <-. reflexivity.
Qed.

Lemma validateLocator_result_witness :
  navigateTo Sample.emptyPage "https://example.test" = Returned tt
  /\ exists r,
       LocatorEngine.validateLocator Sample.emptyPage "https://example.test" "!!"
       = Returned r
       /\ isValid r = (0 <? matchCount r)%nat
       /\ isUnique r = (matchCount r =? 1)%nat
       /\ (forall e,
             LocatorEngine.parseLocatorString Sample.emptyPage tt "!!" = Threw e
             \/ (exists l,
                    LocatorEngine.parseLocatorString Sample.emptyPage tt "!!"
                    = Returned l
                    /\ count Sample.emptyPage l = Threw e) ->
             r = {| isValid := false;
                    matchCount := 0;
                    isUnique := false;
                    suggestions :=
                      [ "Invalid locator syntax: " ++ thrown_message e ] |}).
Proof.
  split; [ reflexivity | ].
  apply (validateLocator_result Sample.emptyPage "https://example.test" "!!" tt).
  reflexivity.
Defined.

(** A selector the page's selector engine rejects, and a well-formed locator
    that matches nothing. *)
Example validateLocator_scenarios :
  LocatorEngine.validateLocator Sample.emptyPage "https://example.test" "!!"
  = Returned {| isValid := false; matchCount := 0; isUnique := false;
                suggestions :=
                  [ "Invalid locator syntax: Unexpected token while parsing selector" ] |}
  /\ LocatorEngine.validateLocator Sample.emptyPage "https://example.test"
       "locator('#nonexistent')"
     = Returned {| isValid := false; matchCount := 0; isUnique := false;
                   suggestions :=
                     [ "Element not found. Check if the page has loaded completely.";
                       "Verify the locator syntax is correct." ] |}.
Proof. split; reflexivity. Qed.

(** A failed navigation is not caught: the call throws. *)
Lemma validateLocator_navigation_failure (d : Driver) (url locatorStr : string)
    (e : Thrown) :
  navigateTo d url = Threw e ->
  LocatorEngine.validateLocator d url locatorStr = Threw e.
Proof. intros H. unfold LocatorEngine.validateLocator. now rewrite H. Qed.

(** ** Element matching *)

Lemma scoreStep_points (el : ElementInfo) (score : Z) (kw : string) :
  GetLocatorsTool.scoreStep el score kw = score + Spec.keywordPoints el kw.
Proof.
  unfold GetLocatorsTool.scoreStep, Spec.keywordPoints.
  destruct (Js.includes (GetLocatorsTool.searchText el) kw); [ | lia ].
  destruct (Js.opt_lower_equals (id el) kw), (Js.opt_includes (testId el) kw),
    (Js.opt_includes (ariaLabel el) kw), (Js.opt_includes (text el) kw),
    (Js.opt_includes (placeholder el) kw); lia.
Qed.

Lemma score_loop_sum (el : ElementInfo) (kws : list string) (score : Z) :
  fold_left (GetLocatorsTool.scoreStep el) kws score
  = score + Spec.sumZ (map (Spec.keywordPoints el) kws).
Proof.
  revert score. induction kws as [|kw kws IH]; intros score; simpl.
  - lia.
  - rewrite IH, scoreStep_points. lia.
Qed.

(** The loop of the matcher computes the score of the specification. *)
Lemma scoreElement_matchScore (description : string) (el : ElementInfo) :
  GetLocatorsTool.scoreElement (Spec.keywordsOf description) el
  = Spec.matchScore description el.
Proof.
  unfold GetLocatorsTool.scoreElement, Spec.matchScore.
  rewrite score_loop_sum. lia.
Qed.

Lemma keywordPoints_nonneg (el : ElementInfo) (kw : string) :
  0 <= Spec.keywordPoints el kw.
Proof.
  unfold Spec.keywordPoints.
  destruct (Js.includes (GetLocatorsTool.searchText el) kw); [ | lia ].
  destruct (Js.opt_lower_equals (id el) kw), (Js.opt_includes (testId el) kw),
    (Js.opt_includes (ariaLabel el) kw), (Js.opt_includes (text el) kw),
    (Js.opt_includes (placeholder el) kw); lia.
Qed.

Lemma sort_ext {A} (cmp cmp' : A -> A -> Z) (l : list A) :
  (forall a b, cmp a b = cmp' a b) -> Js.sort cmp l = Js.sort cmp' l.
Proof.
  intros E. induction l as [|x l IH]; simpl; [ reflexivity | ].
  rewrite IH. generalize (Js.sort cmp' l). intros s.
  induction s as [|y s IHs]; simpl; [ reflexivity | ].
  now rewrite E, IHs.
Qed.

(** The matcher is a stable sort, by descending score, of the elements with
    a positive score. *)
Lemma findMatchingElements_sort_filter (els : list ElementInfo) (d : string) :
  GetLocatorsTool.findMatchingElements els d
  = Js.sort (fun a b => Spec.matchScore d b - Spec.matchScore d a)
      (filter (fun el => 0 <? Spec.matchScore d el) els).
Proof.
  unfold GetLocatorsTool.findMatchingElements.
  fold (Spec.keywordsOf d).
  rewrite filter_map_comm, sort_map, map_map. cbn [fst snd].
  rewrite map_id.
  rewrite (filter_ext _ (fun el => 0 <? Spec.matchScore d el)).
  - apply sort_ext. intros a b. now rewrite !scoreElement_matchScore.
  - intros el. now rewrite scoreElement_matchScore, Z.gtb_ltb.
Qed.

(** In GetLocatorsTool the matcher returns exactly the elements whose total
    score is positive, each as often as it was extracted, ordered by
    descending score, elements of equal score in extraction order. *)
Lemma GetLocatorsTool_matcher (els : list ElementInfo) (d : string) :
  let r := GetLocatorsTool.findMatchingElements els d in
  (forall el, In el r <-> In el els /\ 0 < Spec.matchScore d el)
  /\ Permutation r (filter (fun el => 0 <? Spec.matchScore d el) els)
  /\ StronglySorted (fun a b => Spec.matchScore d b <= Spec.matchScore d a) r
  /\ (forall k,
        filter (fun el => Spec.matchScore d el =? k) r
        = filter (fun el => Spec.matchScore d el =? k)
            (filter (fun el => 0 <? Spec.matchScore d el) els)).
Proof.
  cbn zeta. rewrite findMatchingElements_sort_filter.
  assert (P : Permutation
                (Js.sort (fun a b => Spec.matchScore d b - Spec.matchScore d a)
                   (filter (fun el => 0 <? Spec.matchScore d el) els))
                (filter (fun el => 0 <? Spec.matchScore d el) els))
    by apply sort_perm.
  split; [ | split; [ exact P | split ] ].
  - intros el. split.
    + intros H. apply (Permutation_in _ P), filter_In in H.
      destruct H as [H1 H2]. apply Z.ltb_lt in H2. now split.
    + intros [H1 H2]. apply (Permutation_in _ (Permutation_sym P)), filter_In.
      split; [ exact H1 | now apply Z.ltb_lt ].
  - apply (sort_sorted (Spec.matchScore d)).
  - intros k. apply (sort_stable (Spec.matchScore d)).
Qed.

(** LocatorEngine's matcher keeps, in extraction order, the elements whose
    text (without role and test id) contains one of the keywords. *)
Lemma LocatorEngine_matcher (els : list ElementInfo) (d : string) :
  LocatorEngine.findMatchingElements els d
  = filter (fun el =>
              existsb (Js.includes (LocatorEngine.searchText el)) (Spec.keywordsOf d))
           els.
Proof. reflexivity. Qed.

(** C1, at a page with a plain Login button followed by a Login button that
    has the test id login, and the description login: the second button
    scores 6 and the first 3, so the claim puts the second first, as
    GetLocatorsTool does, but LocatorEngine returns them in extraction order;
    and an element whose only match is its test id scores 4 but is not
    returned by LocatorEngine. *)
Theorem LocatorEngine_matcher_unranked :
  let page := [Sample.plainLogin; Sample.testedLogin] in
  map (Spec.matchScore "login") page = [3; 6]
  /\ map xpath (GetLocatorsTool.findMatchingElements page "login")
     = ["/html[1]/body[1]/button[2]"; "/html[1]/body[1]/button[1]"]
  /\ map xpath (LocatorEngine.findMatchingElements page "login")
     = ["/html[1]/body[1]/button[1]"; "/html[1]/body[1]/button[2]"]
  /\ Spec.matchScore "checkout" Sample.checkoutDiv = 4
  /\ GetLocatorsTool.findMatchingElements [Sample.checkoutDiv] "checkout"
     = [Sample.checkoutDiv]
  /\ LocatorEngine.findMatchingElements [Sample.checkoutDiv] "checkout" = [].
Proof. vm_compute. repeat split. Qed.

(** ** Empty and blank descriptions *)

Lemma lower_space (c : ascii) : Js.is_space c = true -> Js.lower_char c = c.
Proof.
  destruct c as [[] [] [] [] [] [] [] []]; vm_compute; intros H;
    first [ reflexivity | discriminate H ].
Qed.

Lemma lower_allSpace (s : string) :
  Spec.allSpace s = true -> Js.toLowerCase s = s.
Proof.
  induction s as [|c r IH]; simpl; [ reflexivity | ].
  intros H. apply andb_true_iff in H. destruct H as [Hc Hr].
  now rewrite lower_space, IH.
Qed.

Lemma split_ws_in_separator (cur s : string) :
  Spec.allSpace s = true -> Js.split_ws_from true cur s = [cur].
Proof.
  induction s as [|c r IH]; simpl; [ reflexivity | ].
  intros H. apply andb_true_iff in H. destruct H as [Hc Hr].
  rewrite Hc. now apply IH.
Qed.

(** A blank description has one empty keyword when it is empty and two when
    it is not: the separator run splits the empty piece before it from the
    empty piece after it. *)
Lemma keywords_of_blank (d : string) :
  Spec.allSpace d = true ->
  Spec.keywordsOf d
  = match d with
    | EmptyString => [EmptyString]
    | String _ _ => [EmptyString; EmptyString]
    end.
Proof.
  intros H. unfold Spec.keywordsOf. rewrite (lower_allSpace d H).
  destruct d as [|c r]; [ reflexivity | ].
  simpl in H. apply andb_true_iff in H. destruct H as [Hc Hr].
  unfold Js.split_ws. simpl. rewrite Hc.
  now rewrite split_ws_in_separator.
Qed.

Lemma empty_keyword_points (el : ElementInfo) :
  1 <= Spec.keywordPoints el EmptyString.
Proof.
  unfold Spec.keywordPoints. rewrite includes_empty.
  destruct (Js.opt_lower_equals (id el) EmptyString),
    (Js.opt_includes (testId el) EmptyString),
    (Js.opt_includes (ariaLabel el) EmptyString),
    (Js.opt_includes (text el) EmptyString),
    (Js.opt_includes (placeholder el) EmptyString); lia.
Qed.

Lemma blank_score_positive (d : string) (el : ElementInfo) :
  Spec.allSpace d = true -> 0 < Spec.matchScore d el.
Proof.
  intros H. unfold Spec.matchScore. rewrite (keywords_of_blank d H).
  pose proof (empty_keyword_points el) as P.
  destruct d; simpl; lia.
Qed.

Lemma filter_all {A} (p : A -> bool) (l : list A) :
  (forall a, p a = true) -> filter p l = l.
Proof.
  intros H. induction l as [|x l IH]; simpl; [ reflexivity | ].
  now rewrite H, IH.
Qed.

(** C10, as stated, fails at the description made of one space: it is split
    into two empty keywords, not one. *)
Lemma blank_description_two_keywords :
  Spec.allSpace " " = true
  /\ Spec.keywordsOf " " = [EmptyString; EmptyString]
  /\ Spec.keywordsOf " " <> [EmptyString].
Proof. repeat split. discriminate. Qed.

(** C10 (amended): for the empty description the split yields one empty
    keyword, and for a description of white space only it yields two empty
    keywords; the empty string is a substring of every searchable text, so
    every element has a positive score and both matchers return every
    extracted element: GetLocatorsTool as a rearrangement by score,
    LocatorEngine in extraction order. *)
Theorem blank_description_matches_all (d : string) (els : list ElementInfo) :
  Spec.allSpace d = true ->
  Spec.keywordsOf d
  = match d with
    | EmptyString => [EmptyString]
    | String _ _ => [EmptyString; EmptyString]
    end
  /\ (forall el, Js.includes (GetLocatorsTool.searchText el) EmptyString = true
                 /\ Js.includes (LocatorEngine.searchText el) EmptyString = true)
  /\ (forall el, 0 < Spec.matchScore d el)
  /\ Permutation (GetLocatorsTool.findMatchingElements els d) els
  /\ (forall el, In el (GetLocatorsTool.findMatchingElements els d) <-> In el els)
  /\ LocatorEngine.findMatchingElements els d = els.
Proof.
  intros H.
  assert (All : filter (fun el => 0 <? Spec.matchScore d el) els = els).
  { apply filter_all. intros el. apply Z.ltb_lt. now apply blank_score_positive. }
  assert (P : Permutation (GetLocatorsTool.findMatchingElements els d) els).
  { destruct (GetLocatorsTool_matcher els d) as [_ [P _]]. now rewrite All in P. }
  split; [ now apply keywords_of_blank | ].
  split; [ intros el; split; apply includes_empty | ].
  split; [ intros el; now apply blank_score_positive | ].
  split; [ exact P | ].
  split.
  - intros el. split; intros K.
    + eapply Permutation_in; [ exact P | exact K ].
    + eapply Permutation_in; [ apply Permutation_sym, P | exact K ].
  - rewrite LocatorEngine_matcher. apply filter_all. intros el.
    rewrite (keywords_of_blank d H).
    destruct d; simpl; now rewrite includes_empty.
Qed.

Lemma blank_description_matches_all_witness :
  Spec.allSpace " " = true
  /\ Permutation
       (GetLocatorsTool.findMatchingElements
          [Sample.plainLogin; Sample.testedLogin; Sample.checkoutDiv] " ")
       [Sample.plainLogin; Sample.testedLogin; Sample.checkoutDiv]
  /\ LocatorEngine.findMatchingElements
       [Sample.plainLogin; Sample.testedLogin; Sample.checkoutDiv] " "
     = [Sample.plainLogin; Sample.testedLogin; Sample.checkoutDiv].
Proof.
  split; [ reflexivity | ].
  destruct (blank_description_matches_all " "
              [Sample.plainLogin; Sample.testedLogin; Sample.checkoutDiv]
              eq_refl) as [_ [_ [_ [P [_ E]]]]].
  split; [ exact P | exact E ].
Defined.

(** With a blank description the order GetLocatorsTool returns is by score,
    not the extraction order. *)
Example blank_description_order :
  map xpath
    (GetLocatorsTool.findMatchingElements
       [Sample.plainLogin; Sample.testedLogin; Sample.checkoutDiv] EmptyString)
  = [ "/html[1]/body[1]/button[2]"; "/html[1]/body[1]/div[1]";
      "/html[1]/body[1]/button[1]" ].
Proof. reflexivity. Qed.

(** * More properties of the code *)

(** ** Ranking, again *)

Section SortMore.

Context {A : Type}.
Variable key : A -> Z.

Lemma sort_sorted_id (l : list A) :
  StronglySorted (fun a b => key b <= key a) l ->
  Js.sort (fun a b => key b - key a) l = l.
Proof.
  induction 1 as [|x l Hs IH Hall]; simpl; [ reflexivity | ].
  rewrite IH. destruct Hall as [|y l' Hy _]; simpl; [ reflexivity | ].
  destruct (key y - key x <=? 0) eqn:E; [ reflexivity | ].
  apply Z.leb_gt in E. lia.
Qed.

Lemma filter_head_split (p : A -> bool) (l : list A) (c : A) (t : list A) :
  filter p l = c :: t ->
  exists pre post,
    l = (pre ++ c :: post)%list /\ Forall (fun a => p a = false) pre /\ p c = true.
Proof.
  induction l as [|x l IH]; simpl; [ discriminate | ].
  destruct (p x) eqn:E.
  - intros H. injection H as -> _. exists [], l. repeat split; [ constructor | exact E ].
  - intros H. destruct (IH H) as [pre [post [-> [F Pc]]]].
    exists (x :: pre), post. repeat split; [ now constructor | exact Pc ].
Qed.

(** The head of the stable descending sort is the first element of the
    input whose key is maximal. *)
Lemma sort_head (l : list A) (c : A) (rest : list A) :
  Js.sort (fun a b => key b - key a) l = c :: rest ->
  exists pre post,
    l = (pre ++ c :: post)%list
    /\ Forall (fun a => key a < key c) pre
    /\ Forall (fun a => key a <= key c) post.
Proof.
  intros E.
  pose proof (sort_sorted key l) as S. rewrite E in S.
  pose proof (sort_perm key l) as P. rewrite E in P.
  pose proof (sort_stable key (key c) l) as T. rewrite E in T.
  simpl in T. rewrite Z.eqb_refl in T. symmetry in T.
  destruct (filter_head_split _ _ _ _ T) as [pre [post [-> [F _]]]].
  assert (Max : forall a, In a (pre ++ c :: post)%list -> key a <= key c).
  { intros a Ha. apply (Permutation_in _ (Permutation_sym P)) in Ha.
    destruct Ha as [<-|Ha]; [ lia | ].
    apply StronglySorted_inv in S. destruct S as [_ Hall].
    rewrite Forall_forall in Hall. now apply Hall. }
  exists pre, post. repeat split.
  - rewrite Forall_forall in *. intros a Ha.
    assert (key a <= key c) by (apply Max, in_or_app; now left).
    specialize (F a Ha). cbv beta in F. apply Z.eqb_neq in F. lia.
  - rewrite Forall_forall. intros a Ha. apply Max, in_or_app. right. now right.
Qed.

End SortMore.

(** X1: ranking does nothing to candidates that already come in
    non-increasing order of reliability, so ranking twice is ranking once;
    it never adds or drops a candidate. *)
Theorem rank_idempotent (l : list LocatorResult) :
  AnalyzePageTool.rankLocators (AnalyzePageTool.rankLocators l)
  = AnalyzePageTool.rankLocators l
  /\ LocatorEngine.rankLocators (LocatorEngine.rankLocators l)
     = LocatorEngine.rankLocators l
  /\ GetLocatorsTool.rankLocators (GetLocatorsTool.rankLocators l)
     = GetLocatorsTool.rankLocators l
  /\ (Spec.NonIncreasing l -> AnalyzePageTool.rankLocators l = l)
  /\ length (AnalyzePageTool.rankLocators l) = length l.
Proof.
  assert (Fix : forall l', Spec.NonIncreasing l' -> Js.sort by_reliability l' = l').
  { intros l' H. apply (sort_sorted_id reliability l' H). }
  assert (Idem : Js.sort by_reliability (Js.sort by_reliability l)
                 = Js.sort by_reliability l).
  { apply Fix. apply (sort_sorted reliability). }
  repeat split; try exact Idem; try exact (Fix l).
  apply Permutation_length. apply (sort_perm reliability).
Qed.

(** X2: the candidate ranked first is, among the candidates of highest
    reliability, the one that was synthesized first. *)
Theorem rank_head_first_best (l : list LocatorResult) :
  match AnalyzePageTool.rankLocators l with
  | [] => l = []
  | c :: _ =>
      exists pre post,
        l = (pre ++ c :: post)%list
        /\ Forall (fun a => reliability a < reliability c) pre
        /\ Forall (fun a => reliability a <= reliability c) post
  end.
Proof.
  destruct (AnalyzePageTool.rankLocators l) as [|c rest] eqn:E.
  - apply Permutation_nil. rewrite <- E. exact (sort_perm reliability l).
  - apply (sort_head reliability l c rest E).
Qed.

(** ** What the tools report for one element *)

Ltac candidate_cases H :=
  split_candidates H; one_candidate H.

Lemma AnalyzePageTool_locator_nonempty (el : ElementInfo) (c : LocatorResult) :
  In c (AnalyzePageTool.generateLocators el) -> Js.truthy_str (locator c) = true.
Proof.
  unfold AnalyzePageTool.generateLocators. intros H.
  candidate_cases H; reflexivity.
Qed.

Lemma GetLocatorsTool_locator_nonempty (el : ElementInfo) (c : LocatorResult) :
  In c (GetLocatorsTool.generateLocators el) -> Js.truthy_str (locator c) = true.
Proof.
  unfold GetLocatorsTool.generateLocators. intros H.
  candidate_cases H; reflexivity.
Qed.

Lemma LocatorEngine_locator_nonempty (el : ElementInfo) (c : LocatorResult) :
  In c (LocatorEngine.generateLocators el) -> Js.truthy_str (locator c) = true.
Proof.
  unfold LocatorEngine.generateLocators. intros H.
  candidate_cases H; reflexivity.
Qed.

Lemma AnalyzePageTool_kind_known (el : ElementInfo) (c : LocatorResult) :
  In c (AnalyzePageTool.generateLocators el) ->
  In (kind c)
     ["testId"; "role"; "label"; "placeholder"; "text"; "id"; "css"; "xpath"].
Proof.
  unfold AnalyzePageTool.generateLocators. intros H.
  candidate_cases H; simpl; auto 10.
Qed.

Lemma GetLocatorsTool_kind_known (el : ElementInfo) (c : LocatorResult) :
  In c (GetLocatorsTool.generateLocators el) ->
  In (kind c)
     ["testId"; "role"; "label"; "placeholder"; "text"; "id"; "name"; "css"; "xpath"].
Proof.
  unfold GetLocatorsTool.generateLocators. intros H.
  candidate_cases H; simpl; auto 12.
Qed.

Lemma candidates_bounded (l : list LocatorResult) (kinds : list string) :
  NoDup (map kind l) ->
  (forall c, In c l -> In (kind c) kinds) ->
  (length l <= length kinds)%nat.
Proof.
  intros N K. rewrite <- (length_map kind l).
  apply NoDup_incl_length; [ exact N | ].
  intros k Hk. apply in_map_iff in Hk. destruct Hk as [c [<- Hc]]. now apply K.
Qed.

Lemma AnalyzePageTool_at_most_8 (el : ElementInfo) :
  (length (AnalyzePageTool.generateLocators el) <= 8)%nat.
Proof.
  apply (candidates_bounded _
           ["testId"; "role"; "label"; "placeholder"; "text"; "id"; "css"; "xpath"]).
  - apply AnalyzePageTool_kinds_distinct.
  - apply AnalyzePageTool_kind_known.
Qed.

Lemma GetLocatorsTool_at_most_9 (el : ElementInfo) :
  (length (GetLocatorsTool.generateLocators el) <= 9)%nat.
Proof.
  apply (candidates_bounded _
           ["testId"; "role"; "label"; "placeholder"; "text"; "id"; "name"; "css";
            "xpath"]).
  - apply GetLocatorsTool_kinds_distinct.
  - apply GetLocatorsTool_kind_known.
Qed.

Lemma xpath_candidate_last_A (el : ElementInfo) :
  exists pre c,
    AnalyzePageTool.generateLocators el = (pre ++ [c])%list /\ kind c = "xpath".
Proof.
  unfold AnalyzePageTool.generateLocators. repeat rewrite app_assoc.
  eexists. eexists. split; reflexivity.
Qed.

Lemma xpath_candidate_last_G (el : ElementInfo) :
  exists pre c,
    GetLocatorsTool.generateLocators el = (pre ++ [c])%list /\ kind c = "xpath".
Proof.
  unfold GetLocatorsTool.generateLocators. repeat rewrite app_assoc.
  eexists. eexists. split; reflexivity.
Qed.

Lemma xpath_candidate_last_L (el : ElementInfo) :
  exists pre c,
    LocatorEngine.generateLocators el = (pre ++ [c])%list /\ kind c = "xpath".
Proof.
  unfold LocatorEngine.generateLocators. repeat rewrite app_assoc.
  eexists. eexists. split; reflexivity.
Qed.

Lemma sort_nonempty (l : list LocatorResult) :
  l <> [] -> exists c rest, Js.sort by_reliability l = c :: rest.
Proof.
  intros N. destruct (Js.sort by_reliability l) as [|c rest] eqn:E.
  - exfalso. apply N. apply Permutation_nil. rewrite <- E.
    exact (sort_perm reliability l).
  - now exists c, rest.
Qed.

Lemma app_one_nonempty {A} (pre : list A) (c : A) : (pre ++ [c])%list <> [].
Proof. destruct pre; discriminate. Qed.

(** Every synthesized expression is a call of [getBy...] or of [locator]. *)
Lemma AnalyzePageTool_locator_shape (el : ElementInfo) (c : LocatorResult) :
  In c (AnalyzePageTool.generateLocators el) ->
  Js.startsWith (locator c) "getBy" || Js.startsWith (locator c) "locator(" = true.
Proof.
  unfold AnalyzePageTool.generateLocators. intros H.
  candidate_cases H; reflexivity.
Qed.

Lemma GetLocatorsTool_locator_shape (el : ElementInfo) (c : LocatorResult) :
  In c (GetLocatorsTool.generateLocators el) ->
  Js.startsWith (locator c) "getBy" || Js.startsWith (locator c) "locator(" = true.
Proof.
  unfold GetLocatorsTool.generateLocators. intros H.
  candidate_cases H; reflexivity.
Qed.

Lemma LocatorEngine_locator_shape (el : ElementInfo) (c : LocatorResult) :
  In c (LocatorEngine.generateLocators el) ->
  Js.startsWith (locator c) "getBy" || Js.startsWith (locator c) "locator(" = true.
Proof.
  unfold LocatorEngine.generateLocators. intros H.
  candidate_cases H; reflexivity.
Qed.

Lemma firstn_subset {A} (n : nat) (l : list A) (x : A) :
  In x (firstn n l) -> In x l.
Proof.
  revert l. induction n as [|n IH]; intros [|y l] H; try destruct H.
  - now left.
  - right. now apply IH.
Qed.

Lemma firstn_sorted {A} (R : A -> A -> Prop) (n : nat) (l : list A) :
  StronglySorted R l -> StronglySorted R (firstn n l).
Proof.
  revert l. induction n as [|n IH]; intros l S; [ constructor | ].
  destruct S as [|y l S Hall]; [ constructor | ]. cbn [firstn].
  constructor; [ now apply IH | ].
  rewrite Forall_forall in *. intros z Hz. eapply Hall, firstn_subset, Hz.
Qed.

(** X3: for every element, the entry analyze_page reports has between one
    and five locators, in non-increasing order of reliability; its
    recommended expression is the expression of the first of them, which is
    the first synthesized candidate of highest reliability; so the fallback
    text N/A is never reported. *)
Theorem page_element_recommended (el : ElementInfo) :
  let pe := AnalyzePageTool.toPageElement el in
  (1 <= length (locators pe) <= 5)%nat
  /\ Spec.NonIncreasing (locators pe)
  /\ (forall c, In c (locators pe) -> In c (AnalyzePageTool.generateLocators el))
  /\ exists best rest pre post,
       locators pe = best :: rest
       /\ recommended pe = locator best
       /\ recommended pe <> "N/A"
       /\ AnalyzePageTool.generateLocators el = (pre ++ best :: post)%list
       /\ Forall (fun c => reliability c < reliability best) pre
       /\ Forall (fun c => reliability c <= reliability best) post.
Proof.
  cbn zeta.
  destruct (xpath_candidate_last_A el) as [pre0 [x [Ex _]]].
  destruct (sort_nonempty (AnalyzePageTool.generateLocators el)) as [best [rest E]].
  { rewrite Ex. apply app_one_nonempty. }
  pose proof (sort_perm reliability (AnalyzePageTool.generateLocators el)) as P.
  pose proof (sort_sorted reliability (AnalyzePageTool.generateLocators el)) as S.
  change (fun a b : LocatorResult => reliability b - reliability a)
    with by_reliability in P, S.
  destruct (sort_head reliability _ _ _ E) as [pre [post [Eg [Hpre Hpost]]]].
  assert (Hbest : In best (AnalyzePageTool.generateLocators el)).
  { rewrite Eg. apply in_or_app. right. now left. }
  pose proof (AnalyzePageTool_locator_nonempty el best Hbest) as T.
  rewrite E in P, S.
  assert (Hl : locators (AnalyzePageTool.toPageElement el) = firstn 5 (best :: rest)).
  { unfold AnalyzePageTool.toPageElement, AnalyzePageTool.rankLocators,
      AnalyzePageTool.MAX_LOCATORS_PER_ELEMENT, Js.slice0.
    cbv zeta. cbn [locators]. now rewrite E. }
  assert (Hr : recommended (AnalyzePageTool.toPageElement el) = locator best).
  { unfold AnalyzePageTool.toPageElement, AnalyzePageTool.rankLocators,
      AnalyzePageTool.MAX_LOCATORS_PER_ELEMENT, Js.slice0.
    cbv zeta. cbn [recommended]. rewrite E. cbn [firstn]. now rewrite T. }
  rewrite Hl, Hr.
  change (firstn 5 (best :: rest)) with (best :: firstn 4 rest).
  split; [ | split; [ | split ] ].
  - cbn [length]. pose proof (firstn_le_length 4 rest). lia.
  - apply (firstn_sorted _ 5 (best :: rest) S).
  - intros c Hc. apply (Permutation_in _ P).
    apply (firstn_subset 5 (best :: rest) c Hc).
  - exists best, (firstn 4 rest), pre, post.
    repeat split; try assumption.
    intros K. pose proof (AnalyzePageTool_locator_shape el best Hbest) as Sh.
    rewrite K in Sh. discriminate Sh.
Qed.

(** ** The page report *)







(** ** The element the matcher puts first *)

Lemma filter_split_at {A} (p : A -> bool) (l a : list A) (b : A) (c : list A) :
  filter p l = (a ++ b :: c)%list ->
  exists a' c',
    l = (a' ++ b :: c')%list /\ filter p a' = a /\ filter p c' = c /\ p b = true.
Proof.
  revert a. induction l as [|x l IH]; intros a H; simpl in H.
  - destruct a; discriminate H.
  - destruct (p x) eqn:Px.
    + destruct a as [|y a]; simpl in H.
      * injection H as -> <-. exists [], l. simpl. auto.
      * injection H as -> H. destruct (IH a H) as [a' [c' [-> [Ha [Hc Pb]]]]].
        exists (y :: a'), c'. simpl. rewrite Px, Ha. auto.
    + destruct (IH a H) as [a' [c' [-> [Ha [Hc Pb]]]]].
      exists (x :: a'), c'. simpl. rewrite Px. auto.
Qed.

Lemma matchScore_nonneg (d : string) (el : ElementInfo) : 0 <= Spec.matchScore d el.
Proof.
  unfold Spec.matchScore. induction (Spec.keywordsOf d) as [|kw kws IH]; simpl.
  - lia.
  - pose proof (keywordPoints_nonneg el kw). lia.
Qed.

(** The first element the matcher of GetLocatorsTool returns is the first
    extracted element of highest score, and that score is positive; the
    matcher returns nothing exactly when every element scores 0. *)
Lemma top_match (allElements : list ElementInfo) (d : string) :
  match GetLocatorsTool.findMatchingElements allElements d with
  | [] => forall el, In el allElements -> Spec.matchScore d el = 0
  | best :: _ =>
      0 < Spec.matchScore d best
      /\ exists pre post,
           allElements = (pre ++ best :: post)%list
           /\ Forall (fun el => Spec.matchScore d el < Spec.matchScore d best) pre
           /\ Forall (fun el => Spec.matchScore d el <= Spec.matchScore d best) post
  end.
Proof.
  rewrite findMatchingElements_sort_filter.
  set (positive := fun el => 0 <? Spec.matchScore d el).
  destruct (Js.sort _ (filter positive allElements)) as [|best rest] eqn:E.
  - assert (F : filter positive allElements = []).
    { apply Permutation_nil. rewrite <- E.
      exact (sort_perm (Spec.matchScore d) (filter positive allElements)). }
    intros el Hel. pose proof (matchScore_nonneg d el) as N.
    destruct (positive el) eqn:Pe.
    + assert (K : In el (filter positive allElements)) by (apply filter_In; auto).
      rewrite F in K. destruct K.
    + unfold positive in Pe. apply Z.ltb_ge in Pe. lia.
  - destruct (sort_head (Spec.matchScore d) _ _ _ E) as [pre [post [F [Hpre Hpost]]]].
    destruct (filter_split_at _ _ _ _ _ F) as [pre' [post' [-> [Fa [Fc Pb]]]]].
    unfold positive in Pb. apply Z.ltb_lt in Pb.
    split; [ exact Pb | ]. exists pre', post'. split; [ reflexivity | ].
    rewrite Forall_forall in Hpre, Hpost.
    split; apply Forall_forall; intros el Hel.
    + destruct (positive el) eqn:Pe.
      * apply Hpre. rewrite <- Fa. apply filter_In. auto.
      * unfold positive in Pe. apply Z.ltb_ge in Pe. lia.
    + destruct (positive el) eqn:Pe.
      * apply Hpost. rewrite <- Fc. apply filter_In. auto.
      * unfold positive in Pe. apply Z.ltb_ge in Pe. lia.
Qed.

(** X6: get_locators works on the first extracted element of highest
    (positive) score.  It reports all the ranked candidates of that element
    (the cap of 10 never cuts, since at most 9 are synthesized), recommends
    the expression of the first of them, never the fallback texts, and gives
    that element's selector and xpath as alternatives.  When every element
    scores 0 it reports no locator and the text saying that nothing
    matched. *)
Theorem get_locators_report (u : string) (allElements : list ElementInfo)
    (d : string) :
  let r := GetLocatorsExecute.execute u allElements d in
  match GetLocatorsTool.findMatchingElements allElements d with
  | [] =>
      (forall el, In el allElements -> Spec.matchScore d el = 0)
      /\ GetLocatorsExecute.matchedElements r = 0%nat
      /\ GetLocatorsExecute.locators r = []
      /\ GetLocatorsExecute.recommended r
         = "No matching elements found. Try a different description."
  | best :: others =>
      0 < Spec.matchScore d best
      /\ (exists pre post,
             allElements = (pre ++ best :: post)%list
             /\ Forall (fun el => Spec.matchScore d el < Spec.matchScore d best) pre
             /\ Forall (fun el => Spec.matchScore d el <= Spec.matchScore d best) post)
      /\ GetLocatorsExecute.matchedElements r
         = length (filter (fun el => 0 <? Spec.matchScore d el) allElements)
      /\ GetLocatorsExecute.locators r
         = GetLocatorsTool.rankLocators (GetLocatorsTool.generateLocators best)
      /\ (exists c rest,
             GetLocatorsExecute.locators r = c :: rest
             /\ GetLocatorsExecute.recommended r = locator c
             /\ GetLocatorsExecute.pw_recommended (GetLocatorsExecute.playwright r)
                = locator c)
      /\ GetLocatorsExecute.alternativeSelectors r
         = {| GetLocatorsExecute.alt_css := selector best;
              GetLocatorsExecute.alt_xpath := xpath best |}
  end.
Proof.
  cbn zeta. pose proof (top_match allElements d) as Top.
  pose proof (GetLocatorsTool_matcher allElements d) as M. cbn zeta in M.
  unfold GetLocatorsExecute.execute.
  destruct (GetLocatorsTool.findMatchingElements allElements d) as [|best others].
  - cbn. auto.
  - destruct Top as [Pos Split]. destruct M as [_ [P _]].
    cbv zeta.
    cbn [GetLocatorsExecute.matchedElements GetLocatorsExecute.locators
         GetLocatorsExecute.recommended GetLocatorsExecute.playwright
         GetLocatorsExecute.pw_recommended GetLocatorsExecute.alternativeSelectors].
    assert (Full : Js.slice0 GetLocatorsTool.MAX_LOCATORS
                     (GetLocatorsTool.rankLocators (GetLocatorsTool.generateLocators best))
                   = GetLocatorsTool.rankLocators (GetLocatorsTool.generateLocators best)).
    { unfold Js.slice0, GetLocatorsTool.MAX_LOCATORS, GetLocatorsTool.rankLocators.
      apply firstn_all2.
      rewrite (Permutation_length (sort_perm reliability _)).
      pose proof (GetLocatorsTool_at_most_9 best). lia. }
    rewrite Full.
    split; [ exact Pos | ]. split; [ exact Split | ].
    split; [ exact (Permutation_length P) | ]. split; [ reflexivity | ].
    split; [ | reflexivity ].
    destruct (xpath_candidate_last_G best) as [pre0 [x [Ex _]]].
    destruct (sort_nonempty (GetLocatorsTool.generateLocators best)) as [c [rest E]].
    { rewrite Ex. apply app_one_nonempty. }
    unfold GetLocatorsTool.rankLocators. rewrite E.
    assert (Hc : In c (GetLocatorsTool.generateLocators best)).
    { apply (Permutation_in _ (sort_perm reliability _)).
      change (fun a b : LocatorResult => reliability b - reliability a)
        with by_reliability. rewrite E. now left. }
    exists c, rest. unfold GetLocatorsExecute.firstLocatorOr.
    rewrite (GetLocatorsTool_locator_nonempty best c Hc). auto.
Qed.

(** ** Strings: concatenation *)

Lemma append_assoc (a b c : string) : (a ++ b) ++ c = a ++ (b ++ c).
Proof. induction a as [|x a IH]; simpl; [ reflexivity | now rewrite IH ]. Qed.

Lemma append_empty_r (a : string) : a ++ EmptyString = a.
Proof. induction a as [|x a IH]; simpl; [ reflexivity | now rewrite IH ]. Qed.

Lemma append_length (a b : string) :
  String.length (a ++ b) = (String.length a + String.length b)%nat.
Proof. induction a as [|x a IH]; simpl; [ reflexivity | now rewrite IH ]. Qed.

Lemma toLowerCase_append (a b : string) :
  Js.toLowerCase (a ++ b) = Js.toLowerCase a ++ Js.toLowerCase b.
Proof. induction a as [|x a IH]; simpl; [ reflexivity | now rewrite IH ]. Qed.

Lemma prefix_empty (s : string) : prefix EmptyString s = true.
Proof. destruct s; reflexivity. Qed.

Lemma prefix_append (kw s t : string) :
  prefix kw s = true -> prefix kw (s ++ t) = true.
Proof.
  revert kw. induction s as [|c s IH]; intros kw H.
  - destruct kw; [ apply prefix_empty | discriminate H ].
  - destruct kw as [|k kw]; [ reflexivity | ]. simpl in *.
    destruct (ascii_dec k c); [ now apply IH | discriminate H ].
Qed.

Lemma includes_append (s t kw : string) :
  Js.includes s kw = true -> Js.includes (s ++ t) kw = true.
Proof.
  induction s as [|c s IH].
  - destruct kw as [|k kw]; [ intros _; apply includes_empty | ].
    simpl. discriminate.
  - intros H. change (String c s ++ t) with (String c (s ++ t)).
    cbn [Js.includes] in *.
    destruct (prefix kw (String c s)) eqn:P.
    + change (String c (s ++ t)) with (String c s ++ t).
      now rewrite (prefix_append _ _ t P).
    + destruct (prefix kw (String c (s ++ t))); [ reflexivity | now apply IH ].
Qed.

Lemma join_app_prefix (sep : string) (a b : list string) :
  exists suffix, Js.join sep (a ++ b) = Js.join sep a ++ suffix.
Proof.
  induction a as [|p a IH].
  - exists (Js.join sep b). reflexivity.
  - destruct a as [|q a].
    + destruct b as [|r b].
      * exists EmptyString. simpl. now rewrite append_empty_r.
      * exists (sep ++ Js.join sep (r :: b)). reflexivity.
    + destruct IH as [suffix E]. exists suffix.
      change (Js.join sep ((p :: q :: a) ++ b))
        with (p ++ sep ++ Js.join sep ((q :: a) ++ b)).
      rewrite E. change (Js.join sep (p :: q :: a)) with (p ++ sep ++ Js.join sep (q :: a)).
      now rewrite !append_assoc.
Qed.

(** The text GetLocatorsTool searches starts with the text LocatorEngine
    searches. *)
Lemma searchText_extends (el : ElementInfo) :
  exists suffix,
    GetLocatorsTool.searchText el = LocatorEngine.searchText el ++ suffix.
Proof.
  unfold GetLocatorsTool.searchText, LocatorEngine.searchText.
  change [id el; name el; className el; text el; placeholder el; ariaLabel el;
          type el; title el; Some (tagName el); role el; testId el]
    with ([id el; name el; className el; text el; placeholder el; ariaLabel el;
           type el; title el; Some (tagName el)] ++ [role el; testId el])%list.
  unfold Js.filter_Boolean. rewrite flat_map_app.
  destruct (join_app_prefix " "
              (flat_map (fun o => if Js.truthy o then [Js.str o] else [])
                 [id el; name el; className el; text el; placeholder el;
                  ariaLabel el; type el; title el; Some (tagName el)])
              (flat_map (fun o => if Js.truthy o then [Js.str o] else [])
                 [role el; testId el])) as [suffix E].
  exists (Js.toLowerCase suffix). now rewrite E, toLowerCase_append.
Qed.

Lemma sumZ_member (l : list Z) (x : Z) :
  (forall y, In y l -> 0 <= y) -> In x l -> x <= Spec.sumZ l.
Proof.
  induction l as [|y l IH]; intros N H; [ destruct H | ].
  simpl. destruct H as [->|H].
  - assert (0 <= Spec.sumZ l).
    { clear -N. induction l as [|z l IH]; simpl; [ lia | ].
      assert (0 <= z) by (apply N; right; now left).
      assert (0 <= Spec.sumZ l) by (apply IH; intros w Hw; apply N;
                                    destruct Hw as [<-|Hw]; [ now left | right; now right ]).
      lia. }
    lia.
  - assert (0 <= y) by (apply N; now left).
    assert (x <= Spec.sumZ l) by (apply IH; [ intros w Hw; apply N; now right | exact H ]).
    lia.
Qed.

Lemma keyword_found_scores (d : string) (el : ElementInfo) (kw : string) :
  In kw (Spec.keywordsOf d) ->
  Js.includes (GetLocatorsTool.searchText el) kw = true ->
  0 < Spec.matchScore d el.
Proof.
  intros Hkw Hin. unfold Spec.matchScore.
  assert (1 <= Spec.keywordPoints el kw).
  { unfold Spec.keywordPoints. rewrite Hin.
    destruct (Js.opt_lower_equals (id el) kw), (Js.opt_includes (testId el) kw),
      (Js.opt_includes (ariaLabel el) kw), (Js.opt_includes (text el) kw),
      (Js.opt_includes (placeholder el) kw); lia. }
  assert (Spec.keywordPoints el kw
          <= Spec.sumZ (map (Spec.keywordPoints el) (Spec.keywordsOf d))).
  { apply sumZ_member.
    - intros y Hy. apply in_map_iff in Hy. destruct Hy as [k [<- _]].
      apply keywordPoints_nonneg.
    - now apply in_map. }
  lia.
Qed.

(** X7: every element the matcher of LocatorEngine returns is also returned
    by the matcher of GetLocatorsTool, for the same page and description;
    and an element is left out by GetLocatorsTool exactly when none of the
    keywords occurs in its searchable text. *)
Theorem matchers_nested (allElements : list ElementInfo) (d : string) :
  incl (LocatorEngine.findMatchingElements allElements d)
       (GetLocatorsTool.findMatchingElements allElements d)
  /\ (forall el,
        In el allElements ->
        (In el (GetLocatorsTool.findMatchingElements allElements d)
         <-> exists kw, In kw (Spec.keywordsOf d)
                        /\ Js.includes (GetLocatorsTool.searchText el) kw = true)).
Proof.
  pose proof (GetLocatorsTool_matcher allElements d) as M. cbn zeta in M.
  destruct M as [M _].
  split.
  - intros el H. rewrite LocatorEngine_matcher in H. apply filter_In in H.
    destruct H as [Hel Hex]. apply existsb_exists in Hex.
    destruct Hex as [kw [Hkw Hin]].
    apply M. split; [ exact Hel | ].
    apply (keyword_found_scores d el kw Hkw).
    destruct (searchText_extends el) as [suffix ->].
    now apply includes_append.
  - intros el Hel. rewrite M. split.
    + intros [_ Pos].
      destruct (existsb (fun kw => Js.includes (GetLocatorsTool.searchText el) kw)
                  (Spec.keywordsOf d)) eqn:Ex.
      * apply existsb_exists in Ex. exact Ex.
      * exfalso. unfold Spec.matchScore in Pos.
        assert (Z0 : forall kws,
                   existsb (fun kw => Js.includes (GetLocatorsTool.searchText el) kw) kws
                   = false ->
                   Spec.sumZ (map (Spec.keywordPoints el) kws) = 0).
        { induction kws as [|k kws IH]; simpl; [ reflexivity | ].
          intros K. apply orb_false_iff in K. destruct K as [K1 K2].
          unfold Spec.keywordPoints at 1. rewrite K1, (IH K2). reflexivity. }
        rewrite (Z0 _ Ex) in Pos. lia.
    + intros [kw [Hkw Hin]]. split; [ exact Hel | ].
      now apply (keyword_found_scores d el kw).
Qed.

(** ** Escaping, again *)

Lemma take_length_exact (n : nat) (s : string) :
  String.length (Spec.take n s) = Nat.min n (String.length s).
Proof.
  revert s. induction n as [|n IH]; intros [|c r]; simpl; try reflexivity.
  now rewrite IH.
Qed.

Lemma escapeChars_longer (s : string) :
  (String.length s <= String.length (Spec.escapeChars s))%nat.
Proof.
  induction s as [|c r IH]; simpl; [ lia | ].
  unfold Spec.escapeChar.
  destruct (Ascii.eqb c "\"); [ simpl; lia | ].
  destruct (Ascii.eqb c "'"); simpl; lia.
Qed.

Lemma escapeChars_plain (s : string) :
  JsText.all_chars SpecMore.plainChar s = true -> Spec.escapeChars s = s.
Proof.
  induction s as [|c r IH]; simpl; [ reflexivity | ].
  intros H. apply andb_true_iff in H. destruct H as [Hc Hr].
  unfold SpecMore.plainChar in Hc. apply andb_true_iff in Hc.
  destruct Hc as [H1 H2]. apply negb_true_iff in H1, H2.
  unfold Spec.escapeChar. rewrite H1, H2. simpl. now rewrite IH.
Qed.

Lemma escapeChars_append (a b : string) :
  Spec.escapeChars (a ++ b) = Spec.escapeChars a ++ Spec.escapeChars b.
Proof.
  induction a as [|c a IH]; simpl; [ reflexivity | ].
  now rewrite IH, append_assoc.
Qed.

Lemma take_append_exact (a b : string) :
  Spec.take (String.length a) (a ++ b) = a.
Proof. induction a as [|c a IH]; simpl; [ now destruct b | now rewrite IH ]. Qed.

Lemma escape_is_escapedText (s : string) :
  AnalyzePageTool.escape s = Spec.escapedText s
  /\ GetLocatorsTool.escape s = Spec.escapedText s.
Proof.
  assert (E : AnalyzePageTool.escape s = Spec.escapedText s).
  { unfold AnalyzePageTool.escape, Spec.escapedText, AnalyzePageTool.MAX_TEXT_LENGTH.
    now rewrite substring0_take, two_pass_escape. }
  split; exact E.
Qed.

(** X8: the text the tools interpolate is never longer than 100 characters
    and never shorter than the original text or 100, whichever is less; a
    text of at most 100 characters without backslash and single quote is
    interpolated unchanged. *)
Theorem escape_length_bounds (s : string) :
  (Nat.min (String.length s) 100 <= String.length (AnalyzePageTool.escape s) <= 100)%nat
  /\ (Nat.min (String.length s) 100 <= String.length (GetLocatorsTool.escape s) <= 100)%nat
  /\ (JsText.all_chars SpecMore.plainChar s = true ->
      (String.length s <= 100)%nat ->
      AnalyzePageTool.escape s = s /\ GetLocatorsTool.escape s = s).
Proof.
  destruct (escape_is_escapedText s) as [EA EG]. rewrite EA, EG.
  unfold Spec.escapedText. rewrite take_length_exact.
  pose proof (escapeChars_longer s) as L.
  repeat split; try lia.
  - rewrite (escapeChars_plain s H). now apply take_short.
  - rewrite (escapeChars_plain s H). now apply take_short.
Qed.

(** X9: the cut at 100 characters is made after escaping and can fall
    inside an escape: when 99 plain characters are followed by a single
    quote, the interpolated text is those 99 characters and a lone
    backslash. *)
Theorem escape_cut_inside_pair (s rest : string) :
  JsText.all_chars SpecMore.plainChar s = true ->
  String.length s = 99%nat ->
  AnalyzePageTool.escape (s ++ "'" ++ rest) = s ++ "\"
  /\ GetLocatorsTool.escape (s ++ "'" ++ rest) = s ++ "\".
Proof.
  intros P L.
  destruct (escape_is_escapedText (s ++ "'" ++ rest)) as [EA EG]. rewrite EA, EG.
  unfold Spec.escapedText.
  rewrite escapeChars_append, (escapeChars_plain s P).
  change (Spec.escapeChars ("'" ++ rest)) with ("\" ++ ("'" ++ Spec.escapeChars rest)).
  rewrite <- append_assoc.
  replace 100%nat with (String.length (s ++ "\")) by (rewrite append_length, L; reflexivity).
  split; apply take_append_exact.
Qed.

Lemma escape_cut_inside_pair_witness :
  JsText.all_chars SpecMore.plainChar SpecMore.ninetyNineChars = true
  /\ String.length SpecMore.ninetyNineChars = 99%nat
  /\ AnalyzePageTool.escape (SpecMore.ninetyNineChars ++ "'" ++ "s")
     = SpecMore.ninetyNineChars ++ "\".
Proof.
  split; [ reflexivity | ]. split; [ reflexivity | ].
  destruct (escape_cut_inside_pair SpecMore.ninetyNineChars "s" eq_refl eq_refl)
    as [E _].
  exact E.
Defined.

Lemma unescape_escape (s : string) :
  SpecMore.unescapeChars (Spec.escapeChars s) = s.
Proof.
  induction s as [|c r IH]; [ reflexivity | ].
  cbn [Spec.escapeChars]. unfold Spec.escapeChar.
  destruct (Ascii.eqb c "\") eqn:E1.
  - apply Ascii.eqb_eq in E1. subst c. simpl. now rewrite IH.
  - destruct (Ascii.eqb c "'") eqn:E2.
    + apply Ascii.eqb_eq in E2. subst c. simpl. now rewrite IH.
    + simpl. rewrite E1. now rewrite IH.
Qed.

(** X10: as long as the escaped texts fit into 100 characters, escaping
    loses nothing: two texts that are interpolated as the same text are the
    same text. *)
Theorem escape_injective (s1 s2 : string) :
  (String.length (Spec.escapeChars s1) <= 100)%nat ->
  (String.length (Spec.escapeChars s2) <= 100)%nat ->
  AnalyzePageTool.escape s1 = AnalyzePageTool.escape s2 ->
  s1 = s2.
Proof.
  intros L1 L2 E.
  destruct (escape_is_escapedText s1) as [E1 _].
  destruct (escape_is_escapedText s2) as [E2 _].
  rewrite E1, E2 in E. unfold Spec.escapedText in E.
  rewrite (take_short _ _ L1), (take_short _ _ L2) in E.
  rewrite <- (unescape_escape s1), <- (unescape_escape s2). now rewrite E.
Qed.

Lemma escape_injective_witness :
  (String.length (Spec.escapeChars "it's") <= 100)%nat
  /\ AnalyzePageTool.escape "it's" = "it\'s"
  /\ (AnalyzePageTool.escape "it's" = AnalyzePageTool.escape "it's" -> "it's" = "it's").
Proof.
  split; [ simpl; lia | ]. split; [ reflexivity | ].
  apply (escape_injective "it's" "it's"); simpl; lia.
Defined.

(** ** Parsing a locator expression *)

Lemma lit_append (p r : string) : Regex.lit p (p ++ r) = Some r.
Proof.
  induction p as [|a p IH]; simpl; [ reflexivity | ].
  now rewrite Ascii.eqb_refl.
Qed.

Lemma lit_sound (p s r : string) : Regex.lit p s = Some r -> s = p ++ r.
Proof.
  revert s. induction p as [|a p IH]; intros s H; simpl in *.
  - now injection H as ->.
  - destruct s as [|b s]; [ discriminate H | ].
    destruct (Ascii.eqb a b) eqn:E; [ | discriminate H ].
    apply Ascii.eqb_eq in E. subst b. now rewrite (IH s H).
Qed.

Lemma all_chars_append (cls : ascii -> bool) (a b : string) :
  JsText.all_chars cls (a ++ b) = JsText.all_chars cls a && JsText.all_chars cls b.
Proof.
  induction a as [|c a IH]; simpl; [ reflexivity | ].
  now rewrite IH, andb_assoc.
Qed.

Lemma span_run (cls : ascii -> bool) (a b : string) :
  JsText.all_chars cls a = true ->
  match b with EmptyString => True | String c _ => cls c = false end ->
  Regex.span cls (a ++ b) = (a, b).
Proof.
  intros Ha Hb. induction a as [|c a IH]; simpl in *.
  - destruct b as [|c b]; [ reflexivity | ]. simpl. now rewrite Hb.
  - apply andb_true_iff in Ha. destruct Ha as [Hc Ha].
    rewrite Hc, (IH Ha). reflexivity.
Qed.

Lemma some_of_run (cls : ascii -> bool) (a b : string) :
  a <> EmptyString ->
  JsText.all_chars cls a = true ->
  match b with EmptyString => True | String c _ => cls c = false end ->
  Regex.some_of cls (a ++ b) = Some (a, b).
Proof.
  intros Ne Ha Hb. unfold Regex.some_of. rewrite (span_run cls a b Ha Hb).
  destruct a; [ contradiction | reflexivity ].
Qed.

Lemma search_here {R} (m : string -> option R) (s : string) (r : R) :
  m s = Some r -> Regex.search m s = Some r.
Proof. intros H. destruct s; simpl; now rewrite H. Qed.

Lemma quoted_call_here (f arg : string) :
  arg <> EmptyString ->
  JsText.all_chars Regex.not_quote arg = true ->
  Regex.quoted_call_at f ((f ++ "('") ++ arg ++ "')") = Some arg.
Proof.
  intros Ne Ha. unfold Regex.quoted_call_at.
  rewrite lit_append, (some_of_run Regex.not_quote arg "')" Ne Ha) by reflexivity.
  reflexivity.
Qed.

(** Where no single quote occurs, none of the quoted call patterns
    matches. *)
Lemma quoted_call_needs_quote (f s : string) :
  JsText.all_chars Regex.not_quote s = true ->
  Regex.search (Regex.quoted_call_at f) s = None.
Proof.
  assert (At : forall t, JsText.all_chars Regex.not_quote t = true ->
                         Regex.quoted_call_at f t = None).
  { intros t Ht. unfold Regex.quoted_call_at.
    destruct (Regex.lit (f ++ "('") t) as [r|] eqn:L; [ | reflexivity ].
    apply lit_sound in L. subst t.
    rewrite !all_chars_append in Ht. simpl in Ht.
    rewrite !andb_false_r in Ht. discriminate Ht. }
  induction s as [|c s IH]; intros H.
  - simpl. now rewrite (At EmptyString H).
  - simpl. rewrite (At _ H). apply IH.
    simpl in H. apply andb_true_iff in H. tauto.
Qed.

(** X11: an expression of the form locator('...'), getByText('...'),
    getByTestId('...') or getByPlaceholder('...') whose argument is not empty
    and holds no single quote is parsed into the driver call of that name on
    that argument. *)
Theorem parse_quoted_calls (d : Driver) (page : Page d) (arg : string) :
  arg <> EmptyString ->
  JsText.all_chars Regex.not_quote arg = true ->
  LocatorEngine.parseLocatorString d page ("locator('" ++ arg ++ "')")
  = page_locator d page arg
  /\ LocatorEngine.parseLocatorString d page ("getByText('" ++ arg ++ "')")
     = getByText d page arg
  /\ LocatorEngine.parseLocatorString d page ("getByTestId('" ++ arg ++ "')")
     = getByTestId d page arg
  /\ LocatorEngine.parseLocatorString d page ("getByPlaceholder('" ++ arg ++ "')")
     = getByPlaceholder d page arg.
Proof.
  intros Ne Ha.
  pose proof (search_here _ _ _ (quoted_call_here "locator" arg Ne Ha)) as S1.
  pose proof (search_here _ _ _ (quoted_call_here "getByText" arg Ne Ha)) as S2.
  pose proof (search_here _ _ _ (quoted_call_here "getByTestId" arg Ne Ha)) as S3.
  pose proof (search_here _ _ _ (quoted_call_here "getByPlaceholder" arg Ne Ha)) as S4.
  unfold LocatorEngine.parseLocatorString.
  repeat split.
  - change ("locator('" ++ arg ++ "')") with (("locator" ++ "('") ++ arg ++ "')").
    rewrite S1. reflexivity.
  - change ("getByText('" ++ arg ++ "')") with (("getByText" ++ "('") ++ arg ++ "')").
    rewrite S2. reflexivity.
  - change ("getByTestId('" ++ arg ++ "')")
      with (("getByTestId" ++ "('") ++ arg ++ "')").
    rewrite S3. reflexivity.
  - change ("getByPlaceholder('" ++ arg ++ "')")
      with (("getByPlaceholder" ++ "('") ++ arg ++ "')").
    rewrite S4. reflexivity.
Qed.

Lemma parse_quoted_calls_witness :
  "#nonexistent" <> EmptyString
  /\ JsText.all_chars Regex.not_quote "#nonexistent" = true
  /\ LocatorEngine.parseLocatorString Sample.emptyPage tt "locator('#nonexistent')"
     = Returned "#nonexistent".
Proof.
  split; [ discriminate | ]. split; [ reflexivity | ].
  destruct (parse_quoted_calls Sample.emptyPage tt "#nonexistent") as [E _];
    [ discriminate | reflexivity | exact E ].
Defined.

Lemma name_option_prefix (tail : string) :
  Regex.name_option_at (", { name: '" ++ tail)
  = match Regex.some_of Regex.not_quote tail with
    | Some (nm, r) =>
        match Regex.lit "'" r with
        | Some r =>
            match Regex.lit "}" (Regex.spaces r) with
            | Some r => Some (nm, r)
            | None => None
            end
        | None => None
        end
    | None => None
    end.
Proof. reflexivity. Qed.

Lemma role_call_named (r nm : string) :
  r <> EmptyString -> JsText.all_chars Js.is_word r = true ->
  nm <> EmptyString -> JsText.all_chars Regex.not_quote nm = true ->
  Regex.role_call_at ("getByRole('" ++ r ++ "', { name: '" ++ nm ++ "' })")
  = Some (r, Some nm).
Proof.
  intros Nr Hr Nn Hn. unfold Regex.role_call_at.
  change ("getByRole('" ++ r ++ "', { name: '" ++ nm ++ "' })")
    with ("getByRole('" ++ (r ++ "'" ++ (", { name: '" ++ (nm ++ "' })")))).
  rewrite lit_append.
  rewrite (some_of_run Js.is_word r _ Nr Hr) by reflexivity.
  rewrite lit_append, name_option_prefix.
  rewrite (some_of_run Regex.not_quote nm "' })" Nn Hn) by reflexivity.
  reflexivity.
Qed.

Lemma role_call_bare (r : string) :
  r <> EmptyString -> JsText.all_chars Js.is_word r = true ->
  Regex.role_call_at ("getByRole('" ++ r ++ "')") = Some (r, None).
Proof.
  intros Nr Hr. unfold Regex.role_call_at.
  change ("getByRole('" ++ r ++ "')") with ("getByRole('" ++ (r ++ "')")).
  rewrite lit_append.
  rewrite (some_of_run Js.is_word r _ Nr Hr) by reflexivity.
  reflexivity.
Qed.

(** X12: a role expression as the synthesizers write it, with a role made
    of word characters and a non-empty name without single quote, is parsed
    into getByRole with that role and that name; without the name option it
    is parsed into getByRole with the role alone. *)
Theorem parse_role_calls (d : Driver) (page : Page d) (r nm : string) :
  r <> EmptyString -> JsText.all_chars Js.is_word r = true ->
  nm <> EmptyString -> JsText.all_chars Regex.not_quote nm = true ->
  LocatorEngine.parseLocatorString d page
    ("getByRole('" ++ r ++ "', { name: '" ++ nm ++ "' })")
  = getByRole d page r (Some nm)
  /\ LocatorEngine.parseLocatorString d page ("getByRole('" ++ r ++ "')")
     = getByRole d page r None.
Proof.
  intros Nr Hr Nn Hn.
  pose proof (search_here _ _ _ (role_call_named r nm Nr Hr Nn Hn)) as S1.
  pose proof (search_here _ _ _ (role_call_bare r Nr Hr)) as S2.
  unfold LocatorEngine.parseLocatorString. split.
  - rewrite S1. cbn. destruct nm; [ contradiction | reflexivity ].
  - rewrite S2. reflexivity.
Qed.

Lemma parse_role_calls_witness :
  "button" <> EmptyString /\ JsText.all_chars Js.is_word "button" = true
  /\ "Login" <> EmptyString /\ JsText.all_chars Regex.not_quote "Login" = true
  /\ LocatorEngine.parseLocatorString Sample.emptyPage tt
       "getByRole('button', { name: 'Login' })"
     = getByRole Sample.emptyPage tt "button" (Some "Login").
Proof.
  split; [ discriminate | ]. split; [ reflexivity | ].
  split; [ discriminate | ]. split; [ reflexivity | ].
  destruct (parse_role_calls Sample.emptyPage tt "button" "Login") as [E _];
    [ discriminate | reflexivity | discriminate | reflexivity | exact E ].
Defined.

Lemma parse_label_raw (d : Driver) (page : Page d) (a : string) :
  LocatorEngine.parseLocatorString d page ("getByLabel('" ++ a ++ "')")
  = page_locator d page ("getByLabel('" ++ a ++ "')").
Proof. reflexivity. Qed.

Lemma parse_double_quoted_raw (d : Driver) (page : Page d) (x : string) :
  JsText.all_chars Regex.not_quote x = true ->
  LocatorEngine.parseLocatorString d page ("locator(" ++ dquote ++ x ++ dquote ++ ")")
  = page_locator d page ("locator(" ++ dquote ++ x ++ dquote ++ ")").
Proof.
  intros H. unfold LocatorEngine.parseLocatorString.
  rewrite (quoted_call_needs_quote "locator").
  - reflexivity.
  - change ("locator(" ++ dquote ++ x ++ dquote ++ ")")
      with (("locator(" ++ dquote) ++ x ++ (dquote ++ ")")).
    rewrite !all_chars_append, H. reflexivity.
Qed.

(** X13: the validator does not know two forms the tools synthesize.  The
    label candidate of AnalyzePageTool, getByLabel('...'), is handed to
    page.locator unparsed, as if it were a selector; and so is the xpath
    candidate, which the tools write with double quotes, whenever the xpath
    holds no single quote. *)
Theorem synthesized_forms_not_parsed (d : Driver) (page : Page d)
    (el : ElementInfo) (c : LocatorResult) :
  In c (AnalyzePageTool.generateLocators el) ->
  kind c = "label"
  \/ (kind c = "xpath" /\ JsText.all_chars Regex.not_quote (xpath el) = true) ->
  LocatorEngine.parseLocatorString d page (locator c)
  = page_locator d page (locator c).
Proof.
  unfold AnalyzePageTool.generateLocators. intros H K.
  candidate_cases H; cbn [kind locator] in *;
    destruct K as [K|[K Q]]; try discriminate K.
  - apply parse_label_raw.
  - now apply parse_double_quoted_raw.
Qed.

Lemma synthesized_forms_not_parsed_witness :
  In {| kind := "label"; locator := "getByLabel('Login')"; reliability := 90;
        description := "Accessible label-based locator" |}
     (AnalyzePageTool.generateLocators Sample.loginButton)
  /\ LocatorEngine.parseLocatorString Sample.emptyPage tt "getByLabel('Login')"
     = Returned "getByLabel('Login')".
Proof.
  assert (H : In {| kind := "label"; locator := "getByLabel('Login')";
                    reliability := 90;
                    description := "Accessible label-based locator" |}
                 (AnalyzePageTool.generateLocators Sample.loginButton)).
  { right. right. left. reflexivity. }
  split; [ exact H | ].
  apply (synthesized_forms_not_parsed Sample.emptyPage tt Sample.loginButton _ H).
  left. reflexivity.
Defined.

(** ** LocatorEngine: the element getLocators works on *)

(** X14: getLocators of LocatorEngine works on the first extracted element
    that mentions a keyword, whatever the later elements are: it reports
    that element's candidates ranked, and recommends the expression of the
    first, one of highest reliability, never the fallback text.  When no
    element mentions a keyword it reports no locator and the text saying
    that nothing matched. *)
Theorem engine_get_locators_report (allElements : list ElementInfo) (d : string) :
  let r := LocatorEngineMore.getLocators allElements d in
  match LocatorEngine.findMatchingElements allElements d with
  | [] =>
      (forall el, In el allElements -> SpecMore.mentions d el = false)
      /\ LocatorEngineMore.locators r = []
      /\ LocatorEngineMore.recommended r = "No matching elements found"
  | first :: _ =>
      (exists pre post,
          allElements = (pre ++ first :: post)%list
          /\ Forall (fun el => SpecMore.mentions d el = false) pre
          /\ SpecMore.mentions d first = true)
      /\ LocatorEngineMore.locators r
         = LocatorEngine.rankLocators (LocatorEngine.generateLocators first)
      /\ exists c rest,
           LocatorEngineMore.locators r = c :: rest
           /\ LocatorEngineMore.recommended r = locator c
           /\ In c (LocatorEngine.generateLocators first)
           /\ forall c', In c' (LocatorEngine.generateLocators first) ->
                         reliability c' <= reliability c
  end.
Proof.
  cbn zeta. unfold LocatorEngineMore.getLocators.
  assert (M : LocatorEngine.findMatchingElements allElements d
              = filter (SpecMore.mentions d) allElements) by reflexivity.
  destruct (LocatorEngine.findMatchingElements allElements d) as [|first others] eqn:E.
  - cbn. repeat split. intros el Hel.
    destruct (SpecMore.mentions d el) eqn:K; [ | reflexivity ].
    assert (In el (filter (SpecMore.mentions d) allElements)) by (apply filter_In; auto).
    rewrite <- M in H. destruct H.
  - symmetry in M. destruct (filter_head_split _ _ _ _ M) as [pre [post [S [F Pf]]]].
    split; [ exists pre, post; auto | ].
    cbv zeta. cbn [LocatorEngineMore.locators LocatorEngineMore.recommended].
    split; [ reflexivity | ].
    destruct (xpath_candidate_last_L first) as [pre0 [x [Ex _]]].
    destruct (sort_nonempty (LocatorEngine.generateLocators first)) as [c [rest Es]].
    { rewrite Ex. apply app_one_nonempty. }
    pose proof (sort_perm reliability (LocatorEngine.generateLocators first)) as P.
    pose proof (sort_sorted reliability (LocatorEngine.generateLocators first)) as St.
    change (fun a b : LocatorResult => reliability b - reliability a)
      with by_reliability in P, St.
    unfold LocatorEngine.rankLocators. rewrite Es in *.
    assert (Hc : In c (LocatorEngine.generateLocators first)).
    { apply (Permutation_in _ P). now left. }
    exists c, rest. rewrite (LocatorEngine_locator_nonempty first c Hc).
    repeat split; try assumption.
    intros c' Hc'. apply (Permutation_in _ (Permutation_sym P)) in Hc'.
    destruct Hc' as [<-|Hc']; [ lia | ].
    apply StronglySorted_inv in St. destruct St as [_ Hall].
    rewrite Forall_forall in Hall. now apply Hall.
Qed.

(** ** Property names *)

Ltac by_char c := destruct c as [[] [] [] [] [] [] [] []]; try reflexivity; try discriminate.

Lemma all_chars_weaken (p q : ascii -> bool) (s : string) :
  (forall c, p c = true -> q c = true) ->
  JsText.all_chars p s = true -> JsText.all_chars q s = true.
Proof.
  intros W. induction s as [|c r IH]; simpl; [ reflexivity | ].
  intros H. apply andb_true_iff in H. destruct H as [Hc Hr].
  now rewrite (W c Hc), IH.
Qed.

Lemma blank_outside_chars (cls : ascii -> bool) (s : string) :
  JsText.all_chars (fun c => cls c || Ascii.eqb c " ") (JsText.blank_outside cls s)
  = true.
Proof.
  induction s as [|c r IH]; simpl; [ reflexivity | ].
  rewrite IH. destruct (cls c) eqn:E; [ now rewrite E | ].
  replace (Ascii.eqb " " " ") with true by reflexivity.
  now rewrite orb_true_r.
Qed.

Lemma trimStart_chars (p : ascii -> bool) (s : string) :
  JsText.all_chars p s = true -> JsText.all_chars p (JsText.trimStart s) = true.
Proof.
  induction s as [|c r IH]; simpl; [ reflexivity | ].
  intros H. destruct (Js.is_space c); [ | exact H ].
  apply andb_true_iff in H. now apply IH.
Qed.

Lemma trimEnd_chars (p : ascii -> bool) (s : string) :
  JsText.all_chars p s = true -> JsText.all_chars p (JsText.trimEnd s) = true.
Proof.
  induction s as [|c r IH]; simpl; [ reflexivity | ].
  intros H. apply andb_true_iff in H. destruct H as [Hc Hr].
  specialize (IH Hr). destruct (JsText.trimEnd r) as [|c' r'].
  - destruct (Js.is_space c); simpl; [ reflexivity | now rewrite Hc ].
  - simpl in *. now rewrite Hc.
Qed.

Lemma trim_chars (p : ascii -> bool) (s : string) :
  JsText.all_chars p s = true -> JsText.all_chars p (JsText.trim s) = true.
Proof. intros H. unfold JsText.trim. now apply trimEnd_chars, trimStart_chars. Qed.

(** The pieces of [split(/\s+/)] hold no white space. *)
Lemma split_ws_from_chars (p : ascii -> bool) (in_ws : bool) (cur s : string) :
  JsText.all_chars (fun c => p c && negb (Js.is_space c)) cur = true ->
  JsText.all_chars p s = true ->
  Forall (fun w => JsText.all_chars (fun c => p c && negb (Js.is_space c)) w = true)
         (Js.split_ws_from in_ws cur s).
Proof.
  revert in_ws cur. induction s as [|c r IH]; intros in_ws cur Hcur Hs; simpl.
  - now repeat constructor.
  - simpl in Hs. apply andb_true_iff in Hs. destruct Hs as [Hc Hr].
    destruct (Js.is_space c) eqn:Sp.
    + destruct in_ws.
      * now apply IH.
      * constructor; [ exact Hcur | now apply IH ].
    + apply IH; [ | exact Hr ].
      rewrite all_chars_append, Hcur. simpl. now rewrite Hc, Sp.
Qed.

Lemma lower_alnum (c : ascii) :
  JsText.is_alnum c = true -> JsText.is_alnum (Js.lower_char c) = true.
Proof. by_char c. Qed.

Lemma upper_alnum (c : ascii) :
  JsText.is_alnum c = true -> JsText.is_alnum (JsText.upper_char c) = true.
Proof. by_char c. Qed.

Lemma toLowerCase_alnum (s : string) :
  JsText.all_chars JsText.is_alnum s = true ->
  JsText.all_chars JsText.is_alnum (Js.toLowerCase s) = true.
Proof.
  induction s as [|c r IH]; simpl; [ reflexivity | ].
  intros H. apply andb_true_iff in H. destruct H as [Hc Hr].
  now rewrite (lower_alnum c Hc), IH.
Qed.

Lemma capitalized_alnum (w : string) :
  JsText.all_chars JsText.is_alnum w = true ->
  JsText.all_chars JsText.is_alnum
    (JsText.toUpperCase (JsText.charAt0 w) ++ Js.toLowerCase (JsText.slice1 w)) = true.
Proof.
  destruct w as [|c r]; [ reflexivity | ]. simpl.
  intros H. apply andb_true_iff in H. destruct H as [Hc Hr].
  now rewrite (upper_alnum c Hc), toLowerCase_alnum.
Qed.

Lemma join_empty_chars (p : ascii -> bool) (ws : list string) :
  Forall (fun w => JsText.all_chars p w = true) ws ->
  JsText.all_chars p (Js.join EmptyString ws) = true.
Proof.
  induction 1 as [|w ws Hw Hws IH]; [ reflexivity | ].
  destruct ws as [|w' ws]; [ exact Hw | ].
  change (Js.join EmptyString (w :: w' :: ws))
    with (w ++ EmptyString ++ Js.join EmptyString (w' :: ws)).
  now rewrite !all_chars_append, Hw, IH.
Qed.

Lemma camel_words_alnum (i : nat) (ws : list string) :
  Forall (fun w => JsText.all_chars JsText.is_alnum w = true) ws ->
  Forall (fun w => JsText.all_chars JsText.is_alnum w = true)
    (JsText.map_index_from i
       (fun w i =>
          if (i =? 0)%nat then Js.toLowerCase w
          else JsText.toUpperCase (JsText.charAt0 w)
               ++ Js.toLowerCase (JsText.slice1 w))
       ws).
Proof.
  intros H. revert i. induction H as [|w ws Hw Hws IH]; intros i; simpl.
  - constructor.
  - constructor; [ | apply IH ].
    destruct (i =? 0)%nat; [ now apply toLowerCase_alnum | now apply capitalized_alnum ].
Qed.

Lemma firstn_Forall {A} (P : A -> Prop) (n : nat) (l : list A) :
  Forall P l -> Forall P (firstn n l).
Proof.
  intros H. rewrite Forall_forall in *. intros x Hx. eapply H, firstn_subset, Hx.
Qed.

Lemma cleaned_name_chars (s : string) :
  Forall (fun w => JsText.all_chars JsText.is_alnum w = true)
    (Js.split_ws (JsText.trim (JsText.blank_outside JsText.is_alnum s))).
Proof.
  pose proof (trim_chars _ _ (blank_outside_chars JsText.is_alnum s)) as T.
  pose proof (split_ws_from_chars _ false EmptyString _ eq_refl T) as F.
  unfold Js.split_ws. eapply Forall_impl; [ | exact F ].
  intros w Hw. cbv beta in Hw. eapply all_chars_weaken; [ | exact Hw ].
  intros c. by_char c.
Qed.

Lemma trimEnd_blank (s : string) :
  JsText.all_chars Js.is_space s = true -> JsText.trimEnd s = EmptyString.
Proof.
  induction s as [|c r IH]; simpl; [ reflexivity | ].
  intros H. apply andb_true_iff in H. destruct H as [Hc Hr].
  now rewrite (IH Hr), Hc.
Qed.

Lemma trimStart_blank (s : string) :
  JsText.all_chars Js.is_space s = true -> JsText.trimStart s = EmptyString.
Proof.
  induction s as [|c r IH]; simpl; [ reflexivity | ].
  intros H. apply andb_true_iff in H. destruct H as [Hc Hr].
  now rewrite Hc, IH.
Qed.

Lemma blank_outside_none (cls : ascii -> bool) (s : string) :
  JsText.all_chars (fun c => negb (cls c)) s = true ->
  JsText.all_chars Js.is_space (JsText.blank_outside cls s) = true.
Proof.
  induction s as [|c r IH]; simpl; [ reflexivity | ].
  intros H. apply andb_true_iff in H. destruct H as [Hc Hr].
  apply negb_true_iff in Hc. now rewrite Hc, IH.
Qed.

(** X15: the property name LocatorEngine derives for an element consists of
    letters and digits only; and it is the empty string when the attribute
    it is built from holds no letter and no digit. *)
Theorem engine_property_name_chars (el : ElementInfo) :
  JsText.all_chars JsText.is_alnum (LocatorEngineMore.generatePropertyName el) = true
  /\ (JsText.all_chars (fun c => negb (JsText.is_alnum c)) (SpecMore.nameSource el)
      = true ->
      LocatorEngineMore.generatePropertyName el = EmptyString).
Proof.
  unfold LocatorEngineMore.generatePropertyName. fold (SpecMore.nameSource el).
  split.
  - apply join_empty_chars. unfold JsText.map_index.
    apply camel_words_alnum. unfold Js.slice0. apply firstn_Forall.
    apply cleaned_name_chars.
  - intros H. pose proof (blank_outside_none JsText.is_alnum _ H) as B.
    unfold JsText.trim. rewrite (trimStart_blank _ B). reflexivity.
Qed.

Lemma underscore_capitals_chars (s : string) :
  JsText.all_chars JsText.is_alnum s = true ->
  JsText.all_chars (fun c => JsText.is_alnum c || Ascii.eqb c "_")
    (JsText.underscore_capitals s) = true.
Proof.
  induction s as [|c r IH]; simpl; [ reflexivity | ].
  intros H. apply andb_true_iff in H. destruct H as [Hc Hr].
  destruct (JsText.is_upper c); simpl; now rewrite Hc, IH.
Qed.

Lemma lower_snake (c : ascii) :
  JsText.is_alnum c || Ascii.eqb c "_" = true ->
  SpecMore.snakeChar (Js.lower_char c) = true.
Proof. by_char c. Qed.

Lemma toLowerCase_snake (s : string) :
  JsText.all_chars (fun c => JsText.is_alnum c || Ascii.eqb c "_") s = true ->
  JsText.all_chars SpecMore.snakeChar (Js.toLowerCase s) = true.
Proof.
  induction s as [|c r IH]; simpl; [ reflexivity | ].
  intros H. apply andb_true_iff in H. destruct H as [Hc Hr].
  now rewrite (lower_snake c Hc), IH.
Qed.

Lemma drop_leading_underscore_chars (p : ascii -> bool) (s : string) :
  JsText.all_chars p s = true ->
  JsText.all_chars p (JsText.drop_leading_underscore s) = true.
Proof.
  destruct s as [|c r]; [ reflexivity | ]. simpl.
  intros H. apply andb_true_iff in H. destruct H as [Hc Hr].
  destruct c as [[] [] [] [] [] [] [] []]; simpl; rewrite ?Hc, ?Hr; reflexivity.
Qed.

Lemma lower_alnum_not_underscore (c : ascii) :
  JsText.is_alnum c = true ->
  JsText.drop_leading_underscore (String (Js.lower_char c) EmptyString)
  = String (Js.lower_char c) EmptyString.
Proof. by_char c. Qed.

(** A name of letters and digits becomes a snake-case name of small
    letters, digits and underscores that does not begin with an
    underscore. *)
Lemma toSnakeCase_alnum (s : string) :
  JsText.all_chars JsText.is_alnum s = true ->
  JsText.all_chars SpecMore.snakeChar (LocatorEngineMore.toSnakeCase s) = true
  /\ match LocatorEngineMore.toSnakeCase s with
     | EmptyString => s = EmptyString
     | String c _ => Ascii.eqb c "_" = false
     end.
Proof.
  intros H. unfold LocatorEngineMore.toSnakeCase. split.
  - now apply drop_leading_underscore_chars, toLowerCase_snake,
      underscore_capitals_chars.
  - destruct s as [|c r]; [ reflexivity | ].
    simpl in H. apply andb_true_iff in H. destruct H as [Hc _].
    cbn [JsText.underscore_capitals].
    destruct (JsText.is_upper c) eqn:U.
    + cbn [Js.toLowerCase]. replace (Js.lower_char "_") with "_"%char by reflexivity.
      cbn [JsText.drop_leading_underscore].
      revert Hc U. clear. by_char c.
    + cbn [Js.toLowerCase].
      revert Hc U. generalize (Js.toLowerCase (JsText.underscore_capitals r)).
      clear. intros t. by_char c.
Qed.

(** X16: the Python attribute name the page-object generator of
    LocatorEngine writes for an element, the snake case of its property
    name, consists of small letters, digits and underscores and does not
    begin with an underscore. *)
Theorem engine_python_name_chars (el : ElementInfo) :
  let py := LocatorEngineMore.toSnakeCase (LocatorEngineMore.generatePropertyName el) in
  JsText.all_chars SpecMore.snakeChar py = true
  /\ match py with
     | EmptyString => LocatorEngineMore.generatePropertyName el = EmptyString
     | String c _ => Ascii.eqb c "_" = false
     end.
Proof.
  cbn zeta. apply toSnakeCase_alnum.
  unfold LocatorEngineMore.generatePropertyName.
  apply join_empty_chars. unfold JsText.map_index.
  apply camel_words_alnum. unfold Js.slice0. apply firstn_Forall.
  apply cleaned_name_chars.
Qed.

Example engine_names :
  LocatorEngineMore.generatePropertyName Sample.loginButton = "login"
  /\ LocatorEngineMore.generatePropertyName Sample.checkoutDiv = "div"
  /\ LocatorEngineMore.toSnakeCase "loginButtonMain" = "login_button_main"
  /\ LocatorEngineMore.toSnakeCase "URL" = "u_r_l".
Proof. repeat split; reflexivity. Qed.

(** ** GeneratePOMTool: property names *)

Lemma seen_counts (seen : GeneratePOMTool.SeenMap) (earlier : list string)
    (n key : string) :
  (forall k, GeneratePOMTool.seen_get seen k
             = match SpecMore.occurrences k earlier with
               | O => None
               | S c => Some (S c)
               end) ->
  GeneratePOMTool.seen_get
    (GeneratePOMTool.seen_set seen n (SpecMore.occurrences n earlier + 1)) key
  = match SpecMore.occurrences key (n :: earlier) with
    | O => None
    | S c => Some (S c)
    end.
Proof.
  intros Inv. cbn [GeneratePOMTool.seen_set GeneratePOMTool.seen_get SpecMore.occurrences].
  destruct (String.eqb n key) eqn:E.
  - apply String.eqb_eq in E. subst key. now rewrite Nat.add_comm.
  - apply Inv.
Qed.

Lemma dedupe_names (seen : GeneratePOMTool.SeenMap) (earlier : list string)
    (props : list GeneratePOMTool.PageElementProperty) :
  (forall k, GeneratePOMTool.seen_get seen k
             = match SpecMore.occurrences k earlier with
               | O => None
               | S c => Some (S c)
               end) ->
  map GeneratePOMTool.propertyName (GeneratePOMTool.deduplicateFrom seen props)
  = SpecMore.numberedNames earlier (map GeneratePOMTool.propertyName props).
Proof.
  revert seen earlier. induction props as [|p props IH]; intros seen earlier Inv.
  - reflexivity.
  - cbn [GeneratePOMTool.deduplicateFrom map SpecMore.numberedNames].
    assert (C : match GeneratePOMTool.seen_get seen (GeneratePOMTool.propertyName p) with
                | Some (S n) => S n
                | _ => 0%nat
                end = SpecMore.occurrences (GeneratePOMTool.propertyName p) earlier).
    { rewrite Inv. now destruct (SpecMore.occurrences _ earlier). }
    rewrite C. f_equal.
    + unfold SpecMore.numbered.
      destruct (SpecMore.occurrences (GeneratePOMTool.propertyName p) earlier) as [|c];
        [ reflexivity | ].
      cbn [Nat.ltb Nat.leb GeneratePOMTool.rename GeneratePOMTool.propertyName].
      now rewrite Nat.add_1_r.
    + apply IH. intros k. now apply seen_counts.
Qed.

Lemma dedupe_keeps (seen : GeneratePOMTool.SeenMap)
    (props : list GeneratePOMTool.PageElementProperty) :
  map (fun p => (GeneratePOMTool.pLocator p, GeneratePOMTool.pElementType p,
                 GeneratePOMTool.pDescription p, GeneratePOMTool.seleniumLocator p))
      (GeneratePOMTool.deduplicateFrom seen props)
  = map (fun p => (GeneratePOMTool.pLocator p, GeneratePOMTool.pElementType p,
                   GeneratePOMTool.pDescription p, GeneratePOMTool.seleniumLocator p))
        props.
Proof.
  revert seen. induction props as [|p props IH]; intros seen; [ reflexivity | ].
  cbn [GeneratePOMTool.deduplicateFrom map]. rewrite IH. f_equal.
  destruct (0 <? _)%nat; reflexivity.
Qed.

(** X17: deduplicateProperties returns as many properties as it is given,
    in the same order and with the same locators, types and descriptions;
    the first property of a name keeps the name, and the k-th property of
    that name (k at least 2) gets the name followed by the number k.
    generate_page_object builds them for at most 30 elements. *)
Theorem pom_deduplicate (props : list GeneratePOMTool.PageElementProperty)
    (extracted : list ElementInfo) :
  length (GeneratePOMTool.deduplicateProperties props) = length props
  /\ map (fun p => (GeneratePOMTool.pLocator p, GeneratePOMTool.pElementType p,
                    GeneratePOMTool.pDescription p, GeneratePOMTool.seleniumLocator p))
         (GeneratePOMTool.deduplicateProperties props)
     = map (fun p => (GeneratePOMTool.pLocator p, GeneratePOMTool.pElementType p,
                      GeneratePOMTool.pDescription p, GeneratePOMTool.seleniumLocator p))
           props
  /\ map GeneratePOMTool.propertyName (GeneratePOMTool.deduplicateProperties props)
     = SpecMore.numberedNames [] (map GeneratePOMTool.propertyName props)
  /\ length (GeneratePOMTool.uniqueProperties extracted)
     = Nat.min 30 (length extracted).
Proof.
  assert (N : forall ps,
             map GeneratePOMTool.propertyName (GeneratePOMTool.deduplicateProperties ps)
             = SpecMore.numberedNames [] (map GeneratePOMTool.propertyName ps)).
  { intros ps. apply dedupe_names. reflexivity. }
  assert (L : forall ps, length (GeneratePOMTool.deduplicateProperties ps) = length ps).
  { intros ps. rewrite <- (length_map GeneratePOMTool.propertyName), N.
    rewrite <- (length_map GeneratePOMTool.propertyName ps).
    generalize (map GeneratePOMTool.propertyName ps). generalize (@nil string).
    intros e l. revert e. induction l as [|n l IH]; intros e; simpl; [ reflexivity | ].
    now rewrite IH. }
  split; [ apply L | ]. split; [ apply dedupe_keeps | ]. split; [ apply N | ].
  unfold GeneratePOMTool.uniqueProperties, GeneratePOMTool.limitElements,
    GeneratePOMTool.MAX_ELEMENTS, Js.slice0.
  now rewrite L, length_map, length_firstn.
Qed.

Lemma eqb_longer (n suffix : string) :
  suffix <> EmptyString -> String.eqb n (n ++ suffix) = false.
Proof.
  intros Ne. apply String.eqb_neq. intros E.
  assert (L : String.length n = String.length (n ++ suffix)) by now rewrite <- E.
  rewrite append_length in L. destruct suffix; [ contradiction | simpl in L; lia ].
Qed.

(** X18: the names deduplicateProperties returns need not be distinct: of
    three properties named n, n and n2, the second is renamed n2 and the
    third keeps its name n2. *)
Theorem pom_deduplicate_collision (n : string) :
  map GeneratePOMTool.propertyName
    (GeneratePOMTool.deduplicateProperties
       [SpecMore.named n; SpecMore.named n; SpecMore.named (n ++ "2")])
  = [n; n ++ "2"; n ++ "2"].
Proof.
  unfold GeneratePOMTool.deduplicateProperties.
  rewrite (dedupe_names [] []) by reflexivity.
  cbn [map SpecMore.named GeneratePOMTool.propertyName SpecMore.numberedNames].
  unfold SpecMore.numbered. cbn [SpecMore.occurrences].
  rewrite String.eqb_refl, (eqb_longer n "2") by discriminate.
  reflexivity.
Qed.

Lemma collapse_ws_chars (in_ws : bool) (s : string) :
  JsText.all_chars JsText.is_alnum_or_space s = true ->
  JsText.all_chars (fun c => JsText.is_alnum c || Ascii.eqb c " ")
    (JsText.collapse_ws_from in_ws s) = true.
Proof.
  revert in_ws. induction s as [|c r IH]; intros in_ws; simpl; [ reflexivity | ].
  intros H. apply andb_true_iff in H. destruct H as [Hc Hr].
  destruct (Js.is_space c) eqn:Sp.
  - destruct in_ws; [ now apply IH | ].
    cbn [JsText.all_chars]. rewrite (IH true Hr). reflexivity.
  - cbn [JsText.all_chars]. unfold JsText.is_alnum_or_space in Hc.
    rewrite Sp, orb_false_r in Hc. rewrite Hc, (IH false Hr). reflexivity.
Qed.

Lemma split_on_from_chars (p : ascii -> bool) (sep : ascii) (cur s : string) :
  JsText.all_chars (fun c => p c && negb (Ascii.eqb c sep)) cur = true ->
  JsText.all_chars p s = true ->
  Forall (fun w => JsText.all_chars (fun c => p c && negb (Ascii.eqb c sep)) w = true)
         (JsText.split_on_from sep cur s).
Proof.
  revert cur. induction s as [|c r IH]; intros cur Hcur Hs; simpl.
  - now repeat constructor.
  - simpl in Hs. apply andb_true_iff in Hs. destruct Hs as [Hc Hr].
    destruct (Ascii.eqb c sep) eqn:E.
    + constructor; [ exact Hcur | now apply IH ].
    + apply IH; [ | exact Hr ].
      rewrite all_chars_append, Hcur. simpl. now rewrite Hc, E.
Qed.

Lemma pom_words_alnum (s : string) :
  Forall (fun w => JsText.all_chars JsText.is_alnum w = true)
    (JsText.split_on " "
       (JsText.collapse_ws
          (JsText.trim (JsText.blank_outside JsText.is_alnum_or_space s)))).
Proof.
  assert (B : JsText.all_chars JsText.is_alnum_or_space
                (JsText.blank_outside JsText.is_alnum_or_space s) = true).
  { eapply all_chars_weaken; [ | apply blank_outside_chars ].
    intros c. by_char c. }
  pose proof (collapse_ws_chars false _ (trim_chars _ _ B)) as C.
  pose proof (split_on_from_chars _ " " EmptyString _ eq_refl C) as F.
  unfold JsText.split_on, JsText.collapse_ws. eapply Forall_impl; [ | exact F ].
  intros w Hw. cbv beta in Hw. eapply all_chars_weaken; [ | exact Hw ].
  intros c. by_char c.
Qed.

Lemma pom_capitalized_alnum (w : string) :
  JsText.all_chars JsText.is_alnum w = true ->
  JsText.all_chars JsText.is_alnum
    (JsText.toUpperCase (JsText.charAt0 (Js.toLowerCase w))
     ++ JsText.slice1 (Js.toLowerCase w)) = true.
Proof.
  intros H. apply toLowerCase_alnum in H.
  destruct (Js.toLowerCase w) as [|c r]; [ reflexivity | ]. simpl in *.
  apply andb_true_iff in H. destruct H as [Hc Hr].
  now rewrite (upper_alnum c Hc), Hr.
Qed.

Lemma pom_camel_alnum (i : nat) (ws : list string) :
  Forall (fun w => JsText.all_chars JsText.is_alnum w = true) ws ->
  Forall (fun w => JsText.all_chars JsText.is_alnum w = true)
    (JsText.map_index_from i
       (fun word index =>
          let lower := Js.toLowerCase word in
          if (index =? 0)%nat then lower
          else JsText.toUpperCase (JsText.charAt0 lower) ++ JsText.slice1 lower)
       ws).
Proof.
  intros H. revert i. induction H as [|w ws Hw Hws IH]; intros i; simpl.
  - constructor.
  - constructor; [ | apply IH ].
    destruct (i =? 0)%nat; [ now apply toLowerCase_alnum | now apply pom_capitalized_alnum ].
Qed.

Lemma pom_suffix_alnum (el : ElementInfo) :
  JsText.all_chars JsText.is_alnum (GeneratePOMTool.getElementSuffix el) = true.
Proof.
  unfold GeneratePOMTool.getElementSuffix.
  repeat match goal with
         | |- context [if ?b then _ else _] => destruct b
         end; reflexivity.
Qed.

(** X19: the property name GeneratePOMTool derives for an element is never
    empty and consists of letters and digits only. *)
Theorem pom_property_name_chars (el : ElementInfo) :
  GeneratePOMTool.generatePropertyName el <> EmptyString
  /\ JsText.all_chars JsText.is_alnum (GeneratePOMTool.generatePropertyName el) = true.
Proof.
  unfold GeneratePOMTool.generatePropertyName. cbv zeta.
  fold (SpecMore.pomNameSource el).
  set (camel := Js.join EmptyString _).
  assert (A : JsText.all_chars JsText.is_alnum
                (camel ++ GeneratePOMTool.getElementSuffix el) = true).
  { rewrite all_chars_append, pom_suffix_alnum, andb_true_r.
    unfold camel. apply join_empty_chars. unfold JsText.map_index.
    apply pom_camel_alnum. unfold Js.slice0. apply firstn_Forall.
    apply pom_words_alnum. }
  destruct (camel ++ GeneratePOMTool.getElementSuffix el) as [|c r] eqn:E.
  - split; [ discriminate | reflexivity ].
  - cbn [Js.truthy_str]. split; [ discriminate | exact A ].
Qed.

Example pom_names :
  GeneratePOMTool.generatePropertyName Sample.loginButton = "loginBtnButton"
  /\ GeneratePOMTool.generatePropertyName Sample.searchInput = "inputInput"
  /\ GeneratePOMTool.generatePropertyName (Sample.bare "--") = "element"
  /\ GeneratePOMTool.getBestLocator Sample.loginButton = "getByTestId('login-btn')".
Proof. repeat split; reflexivity. Qed.

(** ** The test runner *)

Section RunTestFacts.

Import RunTestTool RunTestSpec.

Variable d : TestDriver.

Lemma bindM_inv {A B} (m : M d A) (k : A -> M d B) (env env' : Env d)
    (out : Outcome B) :
  bindM d m k env = (env', out) ->
  (exists env1 a, m env = (env1, Returned a) /\ k a env1 = (env', out))
  \/ (exists e, m env = (env', Threw e) /\ out = Threw e).
Proof.
  unfold bindM. destruct (m env) as [env1 [a|e]]; intros H.
  - left. now exists env1, a.
  - right. injection H as <- <-. now exists e.
Qed.

Lemma catch_inv {A} (body : M d A) (handler : Thrown -> M d A) (env env' : Env d)
    (out : Outcome A) :
  catch d body handler env = (env', out) ->
  (exists a, body env = (env', Returned a) /\ out = Returned a)
  \/ (exists env1 e, body env = (env1, Threw e) /\ handler e env1 = (env', out)).
Proof.
  unfold catch. destruct (body env) as [env1 [a|e]]; intros H.
  - left. injection H as <- <-. now exists a.
  - right. now exists env1, e.
Qed.

Lemma same_refl (env : Env d) : SameTool d env env.
Proof. now repeat split. Qed.

Lemma same_trans (e1 e2 e3 : Env d) :
  SameTool d e1 e2 -> SameTool d e2 e3 -> SameTool d e1 e3.
Proof.
  intros [B1 [P1 R1]] [B2 [P2 R2]]. repeat split; congruence.
Qed.

Lemma pres_ret {A} (a : A) : Preserves d (ret d a).
Proof. intros env env' out H. injection H as <- _. apply same_refl. Qed.

Lemma pres_throw {A} (e : Thrown) : Preserves d (@throw d A e).
Proof. intros env env' out H. injection H as <- _. apply same_refl. Qed.

Lemma pres_error {A} (msg : string) : Preserves d (@error_ d A msg).
Proof. apply pres_throw. Qed.

Lemma pres_lift {A} (o : Outcome A) : Preserves d (lift d o).
Proof. intros env env' out H. injection H as <- _. apply same_refl. Qed.

Lemma pres_dateNow : Preserves d (dateNow d).
Proof. intros env env' out H. injection H as <- _. apply same_refl. Qed.

Lemma pres_getPage : Preserves d (getPage d).
Proof. intros env env' out H. injection H as <- _. apply same_refl. Qed.

Lemma pres_await {A} (call : World d -> World d * Outcome A) :
  Preserves d (await d call).
Proof.
  intros env env' out H. unfold await in H.
  destruct (call (world d env)) as [w o]. injection H as <- _. now repeat split.
Qed.

Lemma pres_bind {A B} (m : M d A) (k : A -> M d B) :
  Preserves d m -> (forall a, Preserves d (k a)) -> Preserves d (bindM d m k).
Proof.
  intros Hm Hk env env' out H. apply bindM_inv in H.
  destruct H as [[env1 [a [H1 H2]]]|[e [H1 _]]].
  - eapply same_trans; [ eapply Hm, H1 | eapply Hk, H2 ].
  - eapply Hm, H1.
Qed.

Lemma pres_fun {A} (f : Env d -> A) :
  Preserves d (fun env => (env, Returned (f env))).
Proof. intros env env' out H. injection H as <- _. apply same_refl. Qed.

Ltac preserve :=
  repeat first
    [ apply pres_ret | apply pres_error | apply pres_throw | apply pres_lift
    | apply pres_dateNow | apply pres_getPage | apply pres_await | apply pres_fun
    | apply pres_bind; [ | intros ? ]
    | match goal with
      | |- Preserves _ (if ?b then _ else _) => destruct b
      | |- Preserves _ (match ?x with Some _ => _ | None => _ end) => destruct x
      end ].

Lemma pres_getLocator (l : option string) : Preserves d (getLocator d l).
Proof. unfold getLocator. preserve. Qed.

Lemma pres_takeScreenshot (name : string) : Preserves d (takeScreenshot d name).
Proof. unfold takeScreenshot. preserve. Qed.

Lemma pres_executeStep (s : TestStep) : Preserves d (executeStep d s).
Proof.
  unfold executeStep. apply pres_bind; [ apply pres_getPage | intros p ].
  destruct p as [pg|]; [ | apply pres_error ].
  cbv zeta.
  repeat match goal with
         | |- Preserves _ (if ?b then _ else _) => destruct b
         end;
    repeat first
      [ apply pres_getLocator | apply pres_takeScreenshot
      | apply pres_ret | apply pres_error | apply pres_await | apply pres_fun
      | apply pres_bind; [ | intros ? ]
      | match goal with
        | |- Preserves _ (if ?b then _ else _) => destruct b
        end ].
Qed.

End RunTestFacts.

Section RunTestValidation.

Import RunTestTool RunTestSpec.

Variable d : TestDriver.

Lemma unknown_action_eqb (a : string) :
  ~ In a knownActions ->
  forall k, In k knownActions -> String.eqb a k = false.
Proof.
  intros N k K. apply String.eqb_neq. intros ->. now apply N.
Qed.

(** X20. [executeStep] checks a step before it touches the browser.  With a
    page open, a step whose action needs a value (navigate, fill, select,
    press, assert_text, assert_value, assert_url, assert_title) and whose
    value is missing or the empty string throws the message of that action,
    and a step whose action is none of the eighteen known ones throws
    [Unknown action: ] followed by the action; in both cases nothing else
    happens: the world, the browser, the page and the step results are the
    ones before the call, no locator is built and no driver call is made. *)
Theorem step_rejected_untouched (s : TestStep) (message : string) :
  (In (action s, message) requiredValue /\ Js.truthy (value s) = false)
  \/ (~ In (action s) knownActions /\ message = "Unknown action: " ++ action s) ->
  FailsAtOnce d (executeStep d s) message.
Proof.
  intros H env Hp. unfold executeStep, bindM, getPage.
  destruct (page d env) as [pg|] eqn:P; [ | contradiction ].
  destruct H as [[Hin Hv]|[Hn ->]].
  - cbv zeta. rewrite Hv.
    unfold requiredValue in Hin. simpl in Hin.
    repeat (destruct Hin as [Hin|Hin];
            [ injection Hin as Ha <-; rewrite <- Ha; reflexivity | ]).
    contradiction.
  - cbv zeta.
    pose proof (unknown_action_eqb _ Hn) as E.
    rewrite !E by (unfold knownActions; simpl; auto 30).
    reflexivity.
Qed.

End RunTestValidation.

Lemma step_rejected_untouched_witness :
  RunTestTool.executeStep RunTestSpec.quietBrowser (RunTestSpec.stepOf "fill" (Some "#user") (Some EmptyString) "Type the name")
    RunTestSpec.openEnv
  = (RunTestSpec.openEnv, Threw (ErrorObject "Value is required for fill action")).
Proof.
  apply (step_rejected_untouched RunTestSpec.quietBrowser
           (RunTestSpec.stepOf "fill" (Some "#user") (Some EmptyString) "Type the name")
           "Value is required for fill action").
  - left. split; [ simpl; auto 10 | reflexivity ].
  - discriminate.
Defined.

Section RunTestRun.

Import RunTestTool RunTestSpec.

Variable d : TestDriver.

Lemma bind_dateNow {B} (k : Z -> M d B) (env : Env d) :
  bindM d (dateNow d) k env = k (now d (world d env)) env.
Proof. reflexivity. Qed.

Lemma pushSkipped_spec (rest : list TestStep) (env : Env d) :
  exists R,
    pushSkipped d rest env
    = ({| world := world d env; browser := browser d env; page := page d env;
          stepResults := (stepResults d env ++ R)%list |}, Returned tt)
    /\ map summary R = map (marked "skipped") rest.
Proof.
  revert env. induction rest as [|s rest IH]; intros env.
  - exists []. split; [ | reflexivity ]. simpl. unfold ret.
    rewrite app_nil_r. now destruct env.
  - simpl. unfold bindM at 1. unfold push at 1.
    match goal with |- context [pushSkipped d rest ?e] => destruct (IH e) as [R [E S]] end.
    eexists (_ :: R). split.
    + rewrite E. cbn [world browser page stepResults].
      rewrite <- app_assoc. reflexivity.
    + simpl. now rewrite S.
Qed.

(** The records [buildResult] makes. *)
Lemma buildResult_spec (name st : string) (start : Z) (results : list StepResult)
    (shot err : option string) (env : Env d) :
  exists r,
    buildResult d name st start results shot err env = (env, Returned r)
    /\ testName r = name /\ status r = st /\ steps r = results
    /\ totalSteps r = length results
    /\ passedSteps r = countStatus "passed" results
    /\ failedSteps r = countStatus "failed" results
    /\ screenshotPath r = shot /\ error r = err.
Proof.
  eexists. split; [ reflexivity | ]. now repeat split.
Qed.

End RunTestRun.

Section RunTestLoop.

Import RunTestTool RunTestSpec.

Variable d : TestDriver.

Lemma runSteps_shape (name : string) (start : Z) (remaining : list TestStep) :
  forall env env' out,
    runSteps d name start remaining env = (env', out) ->
    browser d env' = browser d env /\ page d env' = page d env
    /\ exists R,
         stepResults d env' = (stepResults d env ++ R)%list
         /\ match out with
            | Returned None => map summary R = map (marked "passed") remaining
            | Returned (Some r) =>
                (exists pre s post,
                    remaining = (pre ++ s :: post)%list
                    /\ map summary R
                       = (map (marked "passed") pre
                          ++ marked "failed" s :: map (marked "skipped") post)%list)
                /\ (exists f, In f R /\ stepStatus f = "failed"
                              /\ stepError f = error r)
                /\ steps r = stepResults d env' /\ Built r /\ testName r = name
                /\ status r = "failed" /\ error r <> None
                /\ screenshotPath r <> None
            | Threw _ =>
                exists pre s post,
                  remaining = (pre ++ s :: post)%list
                  /\ map summary R
                     = (map (marked "passed") pre ++ [marked "failed" s])%list
            end.
Proof.
  induction remaining as [|s rest IH]; intros env env' out H.
  - injection H as <- <-. repeat split. exists []. now rewrite app_nil_r.
  - simpl in H. rewrite bind_dateNow in H.
    apply bindM_inv in H. destruct H as [(env1 & early & C & H)|(e & C & ->)].
    + apply catch_inv in C. destruct C as [(a & B & Ea)|(e1 & e & B & Hh)].
      * (* the step passed *)
        injection Ea as <-.
        apply bindM_inv in B. destruct B as [(e2 & [] & X & B)|(e & _ & N)];
          [ | discriminate ].
        apply pres_executeStep in X. destruct X as (Xb & Xp & Xr).
        injection B as <- <-.
        apply IH in H. cbn [browser page stepResults] in H.
        destruct H as (Hb & Hp & R & HR & Hout).
        split; [ congruence | ]. split; [ congruence | ].
        eexists (_ :: R). split.
        { rewrite HR, Xr, <- app_assoc. reflexivity. }
        destruct out as [[r|]|e].
        -- destruct Hout as ((pre & s' & post & -> & S) & (f & Fin & Ff) & rest').
           split; [ exists (s :: pre), s', post; split;
                    [ reflexivity | simpl; now rewrite S ] | ].
           split; [ exists f; split; [ now right | exact Ff ] | exact rest' ].
        -- simpl. now rewrite Hout.
        -- destruct Hout as (pre & s' & post & -> & S).
           exists (s :: pre), s', post. split; [ reflexivity | simpl; now rewrite S ].
      * (* the step failed and the handler returned *)
        assert (Xs : SameTool d env e1).
        { apply bindM_inv in B. destruct B as [(e2 & [] & X & B)|(e' & X & _)].
          - discriminate.
          - now apply pres_executeStep in X. }
        destruct Xs as (Xb & Xp & Xr).
        rewrite bind_dateNow in Hh.
        apply bindM_inv in Hh. destruct Hh as [(e2 & [] & P & Hh)|(e' & _ & N)];
          [ | discriminate ].
        injection P as <-.
        apply bindM_inv in Hh. destruct Hh as [(e3 & shot & T & Hh)|(e' & _ & N)];
          [ | discriminate ].
        apply pres_takeScreenshot in T. destruct T as (Tb & Tp & Tr).
        cbn [browser page stepResults] in Tb, Tp, Tr.
        destruct (pushSkipped_spec d rest e3) as (R & PS & SR).
        unfold bindM at 1 in Hh. rewrite PS in Hh.
        unfold bindM at 1, getResults at 1 in Hh. cbn [stepResults] in Hh.
        match type of Hh with
        | bindM _ (buildResult _ ?n ?st ?s0 ?rs ?sh ?er) _ ?e = _ =>
            destruct (buildResult_spec d n st s0 rs sh er e)
              as (r & BR & Rn & Rst & Rsteps & Rt & Rp & Rf & Rshot & Rerr)
        end.
        unfold bindM in Hh. rewrite BR in Hh. injection Hh as <- <-.
        injection H as <- <-.
        cbn [browser page stepResults].
        split; [ congruence | ]. split; [ congruence | ].
        eexists (_ :: R). split.
        { rewrite Tr, Xr, <- app_assoc. reflexivity. }
        split; [ exists [], s, rest; split; [ reflexivity | simpl; now rewrite SR ] | ].
        split; [ eexists; split; [ now left | split; [ reflexivity | ] ];
                 now rewrite Rerr | ].
        split; [ now rewrite Rsteps, Tr, Xr, <- app_assoc | ].
        split; [ unfold Built; now rewrite Rt, Rp, Rf, Rsteps | ].
        split; [ exact Rn | ]. split; [ exact Rst | ].
        split; [ now rewrite Rerr | now rewrite Rshot ].
    + (* the step failed and the screenshot of the failure threw *)
      apply catch_inv in C. destruct C as [(a & _ & N)|(e1 & e0 & B & Hh)];
        [ discriminate | ].
      assert (Xs : SameTool d env e1).
      { apply bindM_inv in B. destruct B as [(e2 & [] & X & B)|(e' & X & _)].
        - discriminate.
        - now apply pres_executeStep in X. }
      destruct Xs as (Xb & Xp & Xr).
      rewrite bind_dateNow in Hh.
      apply bindM_inv in Hh. destruct Hh as [(e2 & [] & P & Hh)|(e' & N & _)];
        [ | discriminate ].
      injection P as <-.
      apply bindM_inv in Hh. destruct Hh as [(e3 & shot & T & Hh)|(e' & T & _)].
      * exfalso.
        destruct (pushSkipped_spec d rest e3) as (R & PS & SR).
        unfold bindM at 1 in Hh. rewrite PS in Hh. discriminate.
      * apply pres_takeScreenshot in T. destruct T as (Tb & Tp & Tr).
        cbn [browser page stepResults] in Tb, Tp, Tr.
        split; [ congruence | ]. split; [ congruence | ].
        eexists [_]. split; [ now rewrite Tr, Xr | ].
        exists [], s, rest. split; reflexivity.
Qed.

End RunTestLoop.

Section RunTestExecute.

Import RunTestTool RunTestSpec.

Variable d : TestDriver.

Lemma await_inv {A} (call : World d -> World d * Outcome A) (env env' : Env d)
    (out : Outcome A) :
  await d call env = (env', out) ->
  browser d env' = browser d env /\ page d env' = page d env
  /\ stepResults d env' = stepResults d env.
Proof. intros H. now apply pres_await in H. Qed.

(** What [execute] does, as one run of the try block with its handler
    followed by [cleanup]. *)
Lemma execute_cases (name : string) (steps : list TestStep) (opts : TestOptions)
    (env0 : Env d) :
  exists env1 r,
    execute d name steps opts env0
    = (let '(env2, out) := cleanup d env1 in
       (env2, match out with Returned _ => Returned r | Threw e => Threw e end))
    /\ (browser d env1 <> None
        \/ (browser d env1 = browser d env0 /\ page d env1 = page d env0))
    /\ Built r /\ testName r = name
    /\ ((status r = "passed" /\ error r = None /\ screenshotPath r <> None
         /\ map summary (RunTestTool.steps r) = map (marked "passed") steps)
        \/ (status r = "failed" /\ error r <> None /\ screenshotPath r <> None
            /\ (exists pre s post,
                   steps = (pre ++ s :: post)%list
                   /\ map summary (RunTestTool.steps r)
                      = (map (marked "passed") pre
                         ++ marked "failed" s :: map (marked "skipped") post)%list)
            /\ (exists f, In f (RunTestTool.steps r) /\ stepStatus f = "failed"
                          /\ stepError f = error r))
        \/ (status r = "failed" /\ error r <> None /\ screenshotPath r = None
            /\ (map summary (RunTestTool.steps r) = map (marked "passed") steps
                \/ (exists pre s post,
                       steps = (pre ++ s :: post)%list
                       /\ map summary (RunTestTool.steps r)
                          = (map (marked "passed") pre ++ [marked "failed" s])%list)
                \/ RunTestTool.steps r = []))).
Proof.
  unfold execute, finally.
  match goal with
  | |- context [catch d ?m ?h ?e] => set (main := m); set (handler := h); set (env := e)
  end.
  assert (Main : forall envm outm,
             main env = (envm, outm) ->
             (browser d envm <> None
              \/ (browser d envm = browser d env0 /\ page d envm = page d env0))
             /\ match outm with
                | Returned r =>
                    Built r /\ testName r = name
                    /\ ((status r = "passed" /\ error r = None
                         /\ screenshotPath r <> None
                         /\ map summary (RunTestTool.steps r)
                            = map (marked "passed") steps)
                        \/ (status r = "failed" /\ error r <> None
                            /\ screenshotPath r <> None
                            /\ (exists pre s post,
                                   steps = (pre ++ s :: post)%list
                                   /\ map summary (RunTestTool.steps r)
                                      = (map (marked "passed") pre
                                         ++ marked "failed" s
                                            :: map (marked "skipped") post)%list)
                            /\ (exists f, In f (RunTestTool.steps r)
                                          /\ stepStatus f = "failed"
                                          /\ stepError f = error r)))
                | Threw _ =>
                    map summary (stepResults d envm) = map (marked "passed") steps
                    \/ (exists pre s post,
                           steps = (pre ++ s :: post)%list
                           /\ map summary (stepResults d envm)
                              = (map (marked "passed") pre
                                 ++ [marked "failed" s])%list)
                    \/ stepResults d envm = []
                end).
  { assert (R0 : stepResults d env = []) by reflexivity.
    assert (B0 : browser d env = browser d env0) by reflexivity.
    assert (P0 : page d env = page d env0) by reflexivity.
    intros envm outm H. subst main.
    (* launch *)
    apply bindM_inv in H. destruct H as [(e1 & b & L & H)|(e & L & ->)].
    2:{ apply await_inv in L. destruct L as (Lb & Lp & Lr).
        split; [ right; split; congruence | right; right; congruence ]. }
    apply await_inv in L. destruct L as (Lb & Lp & Lr).
    apply bindM_inv in H. destruct H as [(e2 & [] & S & H)|(e & S & _)];
      [ | discriminate ].
    injection S as <-.
    (* newContext *)
    apply bindM_inv in H. destruct H as [(e3 & ctx & N & H)|(e & N & ->)].
    2:{ apply await_inv in N. cbn [browser page stepResults] in N.
        destruct N as (Nb & Np & Nr).
        split; [ left; rewrite Nb; discriminate | right; right; congruence ]. }
    apply await_inv in N. cbn [browser page stepResults] in N.
    destruct N as (Nb & Np & Nr).
    (* newPage *)
    apply bindM_inv in H. destruct H as [(e4 & pg & P & H)|(e & P & ->)].
    2:{ apply await_inv in P. destruct P as (Pb & Pp & Pr).
        split; [ left; rewrite Pb, Nb; discriminate | right; right; congruence ]. }
    apply await_inv in P. destruct P as (Pb & Pp & Pr).
    apply bindM_inv in H. destruct H as [(e5 & [] & S & H)|(e & S & _)];
      [ | discriminate ].
    injection S as <-.
    (* setDefaultTimeout *)
    apply bindM_inv in H. destruct H as [(e6 & u & T & H)|(e & T & ->)].
    2:{ apply await_inv in T. cbn [browser page stepResults] in T.
        destruct T as (Tb & Tp & Tr).
        split; [ left; rewrite Tb, Pb, Nb; discriminate
               | right; right; congruence ]. }
    apply await_inv in T. cbn [browser page stepResults] in T.
    destruct T as (Tb & Tp & Tr).
    assert (B6 : browser d e6 <> None) by (rewrite Tb, Pb, Nb; discriminate).
    assert (R6 : stepResults d e6 = []) by congruence.
    (* the loop *)
    apply bindM_inv in H. destruct H as [(e7 & early & Loop & H)|(e & Loop & ->)].
    2:{ apply runSteps_shape in Loop.
        destruct Loop as (Lb' & _ & R & HR & Shape).
        rewrite R6 in HR. simpl in HR.
        split; [ left; now rewrite Lb' | right; left; now rewrite HR ]. }
    apply runSteps_shape in Loop.
    destruct Loop as (Lb' & _ & R & HR & Shape).
    rewrite R6 in HR. simpl in HR.
    destruct early as [r|].
    - injection H as <- <-.
      split; [ left; now rewrite Lb' | ].
      destruct Shape as (Sh & Ff & St & Bu & Nm & Sf & Er & Sc).
      rewrite HR in St. rewrite St.
      split; [ exact Bu | ]. split; [ exact Nm | ].
      right. now repeat split.
    - (* the screenshot of the success *)
      apply bindM_inv in H. destruct H as [(e8 & shot & T' & H)|(e & T' & ->)].
      2:{ apply pres_takeScreenshot in T'. destruct T' as (Tb' & _ & Tr').
          split; [ left; now rewrite Tb', Lb' | left; now rewrite Tr', HR ]. }
      apply pres_takeScreenshot in T'. destruct T' as (Tb' & _ & Tr').
      unfold bindM at 1, getResults at 1 in H.
      match type of H with
      | buildResult _ ?n ?st ?s0 ?rs ?sh ?er ?e = _ =>
          destruct (buildResult_spec d n st s0 rs sh er e)
            as (r & BR & Rn & Rst & Rsteps & Rt & Rp & Rf & Rshot & Rerr)
      end.
      rewrite BR in H. injection H as <- <-.
      split; [ left; now rewrite Tb', Lb' | ].
      split; [ unfold Built; now rewrite Rt, Rp, Rf, Rsteps | ].
      split; [ exact Rn | ].
      left. split; [ exact Rst | ]. split; [ exact Rerr | ].
      split; [ now rewrite Rshot | now rewrite Rsteps, Tr', HR ]. }
  destruct (catch d main handler env) as [env1 out1] eqn:C.
  apply catch_inv in C. destruct C as [(r & B & ->)|(e1 & e & B & Hh)].
  - apply Main in B. destruct B as (Br & Bu & Nm & Cases).
    exists env1, r. split.
    { destruct (cleanup d env1) as [env2 [u|e]]; reflexivity. }
    split; [ exact Br | ]. split; [ exact Bu | ]. split; [ exact Nm | ].
    destruct Cases as [C1|C2]; [ now left | right; now left ].
  - apply Main in B. destruct B as (Br & Shape).
    subst handler. cbv beta zeta in Hh.
    unfold bindM at 1, getResults at 1 in Hh.
    match type of Hh with
    | buildResult _ ?n ?st ?s0 ?rs ?sh ?er ?e = _ =>
        destruct (buildResult_spec d n st s0 rs sh er e)
          as (r & BR & Rn & Rst & Rsteps & Rt & Rp & Rf & Rshot & Rerr)
    end.
    rewrite BR in Hh. injection Hh as <- <-.
    exists e1, r. split.
    { destruct (cleanup d e1) as [env2 [u|e']]; reflexivity. }
    split; [ exact Br | ].
    split; [ unfold Built; now rewrite Rt, Rp, Rf, Rsteps | ].
    split; [ exact Rn | ].
    right; right. split; [ exact Rst | ]. split; [ now rewrite Rerr | ].
    split; [ exact Rshot | ]. now rewrite Rsteps.
Qed.

End RunTestExecute.

Section RunTestResult.

Import RunTestTool RunTestSpec.

Variable d : TestDriver.

Lemma countStatus_summary (st : string) (rs : list StepResult) :
  countStatus st rs
  = length (filter (fun t => String.eqb (snd t) st) (map summary rs)).
Proof.
  unfold countStatus. induction rs as [|r rs IH]; [ reflexivity | ].
  simpl. destruct (String.eqb (stepStatus r) st); simpl; now rewrite IH.
Qed.

Lemma count_marked (mark st : string) (l : list TestStep) :
  length (filter (fun t => String.eqb (snd t) st) (map (marked mark) l))
  = if String.eqb mark st then length l else 0%nat.
Proof.
  induction l as [|s l IH]; simpl.
  - now destruct (String.eqb mark st).
  - destruct (String.eqb mark st); simpl; now rewrite IH.
Qed.

Lemma count_shape (st : string) (rs : list StepResult) (pre : list TestStep)
    (s : TestStep) (post : list TestStep) :
  map summary rs
  = (map (marked "passed") pre ++ marked "failed" s :: map (marked "skipped") post)%list ->
  countStatus st rs
  = ((if String.eqb "passed" st then length pre else 0)
     + (if String.eqb "failed" st then 1 else 0)
     + (if String.eqb "skipped" st then length post else 0))%nat.
Proof.
  intros E. rewrite countStatus_summary, E, filter_app, length_app, count_marked.
  cbn [filter snd marked].
  destruct (String.eqb "failed" st); cbn [length]; rewrite count_marked; lia.
Qed.

Lemma count_unfinished (st : string) (rs : list StepResult) (pre : list TestStep)
    (s : TestStep) :
  map summary rs = (map (marked "passed") pre ++ [marked "failed" s])%list ->
  countStatus st rs
  = ((if String.eqb "passed" st then length pre else 0)
     + (if String.eqb "failed" st then 1 else 0))%nat.
Proof.
  intros E. rewrite countStatus_summary, E, filter_app, length_app, count_marked.
  cbn [filter snd marked].
  destruct (String.eqb "failed" st); cbn [length]; lia.
Qed.

Lemma count_passed (st : string) (rs : list StepResult) (l : list TestStep) :
  map summary rs = map (marked "passed") l ->
  countStatus st rs = if String.eqb "passed" st then length l else 0%nat.
Proof.
  intros E. now rewrite countStatus_summary, E, count_marked.
Qed.

Lemma summary_length (rs : list StepResult) (l : list (string * string * string)) :
  map summary rs = l -> length rs = length l.
Proof. intros <-. now rewrite length_map. Qed.

(** The result [execute] returns is one of three: the run passed; a step
    failed and the rest was skipped; or something outside the steps threw. *)
Lemma execute_returned (name : string) (steps : list TestStep) (opts : TestOptions)
    (env env' : Env d) (r : TestResult) :
  execute d name steps opts env = (env', Returned r) ->
  Built r /\ testName r = name
  /\ ((status r = "passed" /\ error r = None /\ screenshotPath r <> None
       /\ map summary (RunTestTool.steps r) = map (marked "passed") steps)
      \/ (status r = "failed" /\ error r <> None /\ screenshotPath r <> None
          /\ (exists pre s post,
                 steps = (pre ++ s :: post)%list
                 /\ map summary (RunTestTool.steps r)
                    = (map (marked "passed") pre
                       ++ marked "failed" s :: map (marked "skipped") post)%list)
          /\ (exists f, In f (RunTestTool.steps r) /\ stepStatus f = "failed"
                        /\ stepError f = error r))
      \/ (status r = "failed" /\ error r <> None /\ screenshotPath r = None
          /\ (map summary (RunTestTool.steps r) = map (marked "passed") steps
              \/ (exists pre s post,
                     steps = (pre ++ s :: post)%list
                     /\ map summary (RunTestTool.steps r)
                        = (map (marked "passed") pre ++ [marked "failed" s])%list)
              \/ RunTestTool.steps r = []))).
Proof.
  intros H.
  destruct (execute_cases d name steps opts env) as (env1 & r0 & E & _ & Facts).
  rewrite E in H. destruct (cleanup d env1) as [env2 [u|e]]; [ | discriminate ].
  injection H as _ <-. exact Facts.
Qed.

(** X21. When closing a browser does not throw, [execute] never throws: every
    failure of the launch, of a step or of a screenshot is turned into a
    returned result.  After the call the tool holds no browser, and no page
    when it held none before the call. *)
Theorem execute_returns_and_closes :
  ClosesQuietly d ->
  forall name steps opts env,
    exists env' r,
      execute d name steps opts env = (env', Returned r)
      /\ browser d env' = None
      /\ (page d env = None -> page d env' = None).
Proof.
  intros Q name steps opts env.
  destruct (execute_cases d name steps opts env) as (env1 & r & E & Br & _).
  rewrite E. unfold cleanup.
  destruct (browser d env1) as [b|] eqn:B.
  - destruct (Q b (world d env1)) as [w' C].
    unfold bindM, await. rewrite C. simpl.
    eexists _, r. split; [ reflexivity | ]. split; [ reflexivity | ].
    intros _. reflexivity.
  - exists env1, r. split; [ reflexivity | ]. split; [ exact B | ].
    intros Hp. destruct Br as [N|[_ P]]; [ contradiction | congruence ].
Qed.

(** X22. The step results of a returned run follow the steps: the steps up
    to some point are recorded as passed, in order and with their
    descriptions and actions; then either nothing more is recorded, or the
    next step is recorded as failed and all the steps after it as skipped, or
    the next step is recorded as failed and nothing after it.  The counters
    agree with that list: totalSteps is its length and is at most the number
    of steps given, passedSteps, failedSteps and the number of skipped
    results add up to totalSteps, and at most one step is failed. *)
Theorem run_result_accounts (name : string) (steps : list TestStep)
    (opts : TestOptions) (env env' : Env d) (r : TestResult) :
  execute d name steps opts env = (env', Returned r) ->
  RunShape steps (map summary (RunTestTool.steps r))
  /\ testName r = name
  /\ totalSteps r = length (RunTestTool.steps r)
  /\ (totalSteps r <= length steps)%nat
  /\ (passedSteps r + failedSteps r
      + countStatus "skipped" (RunTestTool.steps r) = totalSteps r)%nat
  /\ (failedSteps r <= 1)%nat.
Proof.
  intros H. apply execute_returned in H.
  destruct H as ((Bt & Bp & Bf) & Nm & Cases).
  rewrite Bt, Bp, Bf.
  destruct Cases as [(_ & _ & _ & S)
                    |[(_ & _ & _ & (pre & s & post & -> & S) & _)
                     |(_ & _ & _ & [S|[(pre & s & post & -> & S)|S]])]].
  - rewrite !(count_passed _ _ _ S), (summary_length _ _ S), S, length_map.
    simpl. repeat split; [ constructor | exact Nm | lia .. ].
  - rewrite !(count_shape _ _ _ _ _ S), (summary_length _ _ S), S.
    rewrite !length_app. simpl. rewrite !length_map.
    repeat split; [ now constructor | exact Nm | lia .. ].
  - rewrite !(count_passed _ _ _ S), (summary_length _ _ S), S, length_map.
    simpl. repeat split; [ constructor | exact Nm | lia .. ].
  - rewrite !(count_unfinished _ _ _ _ S), (summary_length _ _ S), S.
    rewrite !length_app. simpl. rewrite !length_map.
    repeat split; [ now apply FailedUnfinished with (post := post) | exact Nm | lia .. ].
  - rewrite S. unfold countStatus. simpl.
    repeat split; [ constructor | exact Nm | lia .. ].
Qed.

(** X23. In a returned result the status is passed exactly when there is no
    error message.  A passed run recorded every step as passed and has a
    screenshot.  A failed run with a screenshot recorded every step: one
    failed step, whose error message is the error of the run, the steps
    before it passed and the steps after it skipped.  A result without a
    screenshot is a failed run in which no step is recorded as skipped. *)
Theorem run_status_and_screenshot (name : string) (steps : list TestStep)
    (opts : TestOptions) (env env' : Env d) (r : TestResult) :
  execute d name steps opts env = (env', Returned r) ->
  (status r = "passed" \/ status r = "failed")
  /\ (status r = "passed" <-> error r = None)
  /\ (status r = "passed" ->
      screenshotPath r <> None
      /\ map summary (RunTestTool.steps r) = map (marked "passed") steps
      /\ passedSteps r = length steps /\ failedSteps r = 0%nat)
  /\ (status r = "failed" -> screenshotPath r <> None ->
      totalSteps r = length steps /\ failedSteps r = 1%nat
      /\ (exists pre s post,
             steps = (pre ++ s :: post)%list
             /\ map summary (RunTestTool.steps r)
                = (map (marked "passed") pre
                   ++ marked "failed" s :: map (marked "skipped") post)%list)
      /\ exists f, In f (RunTestTool.steps r) /\ stepStatus f = "failed"
                   /\ stepError f = error r)
  /\ (screenshotPath r = None ->
      status r = "failed" /\ countStatus "skipped" (RunTestTool.steps r) = 0%nat).
Proof.
  intros H. apply execute_returned in H.
  destruct H as ((Bt & Bp & Bf) & Nm & Cases).
  rewrite Bt, Bp, Bf.
  destruct Cases as [(St & Er & Sc & S)
                    |[(St & Er & Sc & Sh & Ff)
                     |(St & Er & Sc & Sh)]].
  - split; [ now left | ].
    split; [ now split | ].
    split; [ intros _; split; [ exact Sc | ]; split; [ exact S | ];
             now rewrite !(count_passed _ _ _ S) | ].
    split; [ rewrite St; discriminate | ].
    intros N. contradiction.
  - split; [ now right | ].
    split; [ split; [ rewrite St; discriminate | intros N; contradiction ] | ].
    split; [ rewrite St; discriminate | ].
    split; [ | intros N; contradiction ].
    intros _ _. destruct Sh as (pre & s & post & E & S).
    rewrite (count_shape _ _ _ _ _ S), (summary_length _ _ S).
    split; [ rewrite E, !length_app; simpl; now rewrite !length_map | ].
    split; [ simpl; lia | ].
    split; [ now exists pre, s, post | exact Ff ].
  - split; [ now right | ].
    split; [ split; [ rewrite St; discriminate | intros N; contradiction ] | ].
    split; [ rewrite St; discriminate | ].
    split; [ intros _ N; contradiction | ].
    intros _. split; [ exact St | ].
    destruct Sh as [S|[(pre & s & post & _ & S)|S]].
    + now rewrite (count_passed _ _ _ S).
    + now rewrite (count_unfinished _ _ _ _ S).
    + now rewrite S.
Qed.

End RunTestResult.


Lemma execute_returns_and_closes_witness :
  exists env' r,
    RunTestTool.execute RunTestSpec.quietBrowser "login" RunTestSpec.sampleSteps
      RunTestSpec.noOptions RunTestSpec.openEnv = (env', Returned r)
    /\ RunTestTool.browser RunTestSpec.quietBrowser env' = None.
Proof.
  destruct (execute_returns_and_closes RunTestSpec.quietBrowser
              (fun b w => ex_intro _ (w + 1) eq_refl)
              "login" RunTestSpec.sampleSteps RunTestSpec.noOptions
              RunTestSpec.openEnv) as (env' & r & E & B & _).
  exists env', r. split; [ exact E | exact B ].
Defined.

Lemma run_result_accounts_witness :
  exists env' r,
    RunTestTool.execute RunTestSpec.quietBrowser "login" RunTestSpec.sampleSteps
      RunTestSpec.noOptions RunTestSpec.freshEnv = (env', Returned r)
    /\ RunTestSpec.RunShape RunTestSpec.sampleSteps
         (map RunTestSpec.summary (RunTestTool.steps r)).
Proof.
  destruct (RunTestTool.execute RunTestSpec.quietBrowser "login"
              RunTestSpec.sampleSteps RunTestSpec.noOptions RunTestSpec.freshEnv)
    as [env' [r|e]] eqn:E.
  - exists env', r. split; [ reflexivity | ].
    exact (proj1 (run_result_accounts RunTestSpec.quietBrowser _ _ _ _ _ _ E)).
  - vm_compute in E. discriminate.
Defined.

Lemma run_status_and_screenshot_witness :
  exists env' r,
    RunTestTool.execute RunTestSpec.quietBrowser "login" RunTestSpec.sampleSteps
      RunTestSpec.noOptions RunTestSpec.freshEnv = (env', Returned r)
    /\ (RunTestTool.status r = "passed" <-> RunTestTool.error r = None).
Proof.
  destruct (RunTestTool.execute RunTestSpec.quietBrowser "login"
              RunTestSpec.sampleSteps RunTestSpec.noOptions RunTestSpec.freshEnv)
    as [env' [r|e]] eqn:E.
  - exists env', r. split; [ reflexivity | ].
    exact (proj1 (proj2 (run_status_and_screenshot RunTestSpec.quietBrowser
                           _ _ _ _ _ _ E))).
  - vm_compute in E. discriminate.
Defined.

(** ** A browser that does not start *)

(** X24. When the tool holds no browser and the launch throws, [execute]
    returns a failed result whose error is the message of what was thrown; no
    step is recorded, not even as skipped, so the three counters are 0 while
    the status is failed; there is no screenshot, the duration is the time
    the launch took, and the tool still holds no browser. *)
Theorem launch_failure_reported (d : TestDriver) (name : string)
    (steps : list RunTestTool.TestStep) (opts : RunTestTool.TestOptions)
    (env : RunTestTool.Env d) (w : World d) (e : Thrown) :
  RunTestTool.browser d env = None ->
  launch d
    (match RunTestTool.headless opts with Some b => b | None => true end)
    (match RunTestTool.slowMo opts with Some z => z | None => 0 end)
    ["--no-sandbox"; "--disable-setuid-sandbox"]
    (RunTestTool.world d env)
  = (w, Threw e) ->
  exists env' r,
    RunTestTool.execute d name steps opts env = (env', Returned r)
    /\ RunTestTool.world d env' = w
    /\ RunTestTool.browser d env' = None
    /\ RunTestTool.page d env' = RunTestTool.page d env
    /\ RunTestTool.status r = "failed"
    /\ RunTestTool.error r = Some (thrown_message e)
    /\ RunTestTool.steps r = []
    /\ RunTestTool.totalSteps r = 0%nat
    /\ RunTestTool.passedSteps r = 0%nat
    /\ RunTestTool.failedSteps r = 0%nat
    /\ RunTestTool.screenshotPath r = None
    /\ RunTestTool.duration r = now d w - now d (RunTestTool.world d env)
    /\ RunTestTool.finalUrl r
       = option_map (fun pg => pageUrl d pg w) (RunTestTool.page d env).
Proof.
  intros B L.
  unfold RunTestTool.execute, RunTestTool.finally, RunTestTool.catch.
  unfold RunTestTool.bindM at 1. unfold RunTestTool.await at 1.
  cbn [RunTestTool.world RunTestTool.browser RunTestTool.page RunTestTool.stepResults].
  rewrite L.
  unfold RunTestTool.bindM, RunTestTool.getResults, RunTestTool.buildResult,
    RunTestTool.dateNow, RunTestTool.getPage, RunTestTool.cleanup.
  cbn [RunTestTool.world RunTestTool.browser RunTestTool.page RunTestTool.stepResults].
  rewrite B.
  eexists _, _. split; [ reflexivity | ].
  cbn. repeat split; reflexivity.
Qed.

Lemma launch_failure_reported_witness :
  exists env' r,
    RunTestTool.execute RunTestSpec.noChromium "login" RunTestSpec.sampleSteps
      RunTestSpec.noOptions RunTestSpec.noChromiumEnv
    = (env', Returned r)
    /\ RunTestTool.status r = "failed"
    /\ RunTestTool.totalSteps r = 0%nat.
Proof.
  destruct (launch_failure_reported RunTestSpec.noChromium "login"
              RunTestSpec.sampleSteps RunTestSpec.noOptions
              RunTestSpec.noChromiumEnv
              1 (ErrorObject "browserType.launch: Executable not found")
              eq_refl eq_refl)
    as (env' & r & E & _ & _ & _ & S & _ & _ & T & _).
  exists env', r. split; [ exact E | ]. split; [ exact S | exact T ].
Defined.

(** ** The locators the test runner accepts *)

Section RunnerLocators.

Import RunTestTool.

Variable d : TestDriver.

Lemma one_quote (q : ascii) (r : string) :
  QuoteRegex.is_quote q = true -> QuoteRegex.one QuoteRegex.is_quote (String q r) = Some r.
Proof. intros H. simpl. now rewrite H. Qed.

Lemma quote_call_here (f : string) (q1 q2 : ascii) (arg : string) :
  QuoteRegex.is_quote q1 = true -> QuoteRegex.is_quote q2 = true ->
  arg <> EmptyString ->
  JsText.all_chars QuoteRegex.not_quote arg = true ->
  QuoteRegex.quoted_call_at f ((f ++ "(") ++ String q1 (arg ++ String q2 ")"))
  = Some arg.
Proof.
  intros H1 H2 Ne Ha. unfold QuoteRegex.quoted_call_at.
  rewrite lit_append, (one_quote q1 _ H1).
  rewrite (some_of_run QuoteRegex.not_quote arg (String q2 ")") Ne Ha)
    by (unfold QuoteRegex.not_quote; now rewrite H2).
  rewrite (one_quote q2 _ H2). reflexivity.
Qed.

(** X25. [getLocator] of the test runner turns a call expression getByText,
    getByTestId, getByPlaceholder, getByLabel, getByAltText or locator whose
    one argument stands between quote characters of either kind, is not empty
    and holds no quote character into the driver call of that name on that
    argument; it reads the page of the tool and changes nothing. *)
Theorem runner_parses_quoted_calls (env : Env d) (pg : TPage d) (q1 q2 : ascii)
    (arg : string) :
  page d env = Some pg ->
  QuoteRegex.is_quote q1 = true -> QuoteRegex.is_quote q2 = true ->
  arg <> EmptyString ->
  JsText.all_chars QuoteRegex.not_quote arg = true ->
  let call (f : string) := Some (f ++ "(" ++ String q1 (arg ++ String q2 ")")) in
  getLocator d (call "getByText") env = (env, tGetByText d pg arg)
  /\ getLocator d (call "getByTestId") env = (env, tGetByTestId d pg arg)
  /\ getLocator d (call "getByPlaceholder") env = (env, tGetByPlaceholder d pg arg)
  /\ getLocator d (call "getByLabel") env = (env, tGetByLabel d pg arg)
  /\ getLocator d (call "getByAltText") env = (env, tGetByAltText d pg arg)
  /\ getLocator d (call "locator") env = (env, tLocator d pg arg).
Proof.
  intros P H1 H2 Ne Ha call. subst call.
  pose proof (fun f => search_here _ _ _ (quote_call_here f q1 q2 arg H1 H2 Ne Ha)) as S.
  unfold getLocator, bindM, getPage, lift. rewrite P. cbv beta zeta.
  repeat split;
    match goal with
    | |- context [Regex.search (QuoteRegex.quoted_call_at ?f) (?f ++ "(" ++ ?rest)] =>
        change (f ++ "(" ++ rest) with ((f ++ "(") ++ rest); rewrite (S f); reflexivity
    end.
Qed.

Lemma is_quote_cases (q : ascii) :
  QuoteRegex.is_quote q = true -> q = "'"%char \/ q = ascii_of_nat 34.
Proof.
  unfold QuoteRegex.is_quote. intros H. apply orb_true_iff in H.
  destruct H as [H|H]; apply Ascii.eqb_eq in H; auto.
Qed.

Lemma quote_name_option_prefix (q : ascii) (tail : string) :
  QuoteRegex.is_quote q = true ->
  QuoteRegex.name_option_at (", { name: " ++ String q tail)
  = match Regex.some_of QuoteRegex.not_quote tail with
    | Some (nm, r) =>
        match QuoteRegex.one QuoteRegex.is_quote r with
        | Some r =>
            match Regex.lit "}" (Regex.spaces r) with
            | Some r => Some (nm, r)
            | None => None
            end
        | None => None
        end
    | None => None
    end.
Proof. intros H. destruct (is_quote_cases q H) as [->| ->]; reflexivity. Qed.

Lemma is_word_not_quote (q : ascii) :
  QuoteRegex.is_quote q = true -> Js.is_word q = false.
Proof. intros H. destruct (is_quote_cases q H) as [->| ->]; reflexivity. Qed.

Lemma quote_role_named (q : ascii) (r nm : string) :
  QuoteRegex.is_quote q = true ->
  r <> EmptyString -> JsText.all_chars Js.is_word r = true ->
  nm <> EmptyString -> JsText.all_chars QuoteRegex.not_quote nm = true ->
  QuoteRegex.role_call_at
    ("getByRole(" ++ String q (r ++ String q (", { name: " ++ String q (nm ++ String q " })"))))
  = Some (r, Some nm).
Proof.
  intros Hq Nr Hr Nn Hn. unfold QuoteRegex.role_call_at.
  rewrite lit_append, (one_quote q _ Hq).
  rewrite (some_of_run Js.is_word r _ Nr Hr) by now apply is_word_not_quote.
  rewrite (one_quote q _ Hq), (quote_name_option_prefix q _ Hq).
  rewrite (some_of_run QuoteRegex.not_quote nm (String q " })") Nn Hn)
    by (unfold QuoteRegex.not_quote; now rewrite Hq).
  rewrite (one_quote q _ Hq). reflexivity.
Qed.

Lemma quote_role_bare (q : ascii) (r : string) :
  QuoteRegex.is_quote q = true ->
  r <> EmptyString -> JsText.all_chars Js.is_word r = true ->
  QuoteRegex.role_call_at ("getByRole(" ++ String q (r ++ String q ")"))
  = Some (r, None).
Proof.
  intros Hq Nr Hr. unfold QuoteRegex.role_call_at.
  rewrite lit_append, (one_quote q _ Hq).
  rewrite (some_of_run Js.is_word r _ Nr Hr) by now apply is_word_not_quote.
  rewrite (one_quote q _ Hq). reflexivity.
Qed.

(** X26. [getLocator] of the test runner turns a role expression, with a
    quoted role made of word characters and the name option with a quoted,
    non-empty name without quote character, into getByRole with that role and
    that name; without the name option it calls getByRole with the role and
    no options. *)
Theorem runner_parses_role_calls (env : Env d) (pg : TPage d) (q : ascii)
    (r nm : string) :
  page d env = Some pg ->
  QuoteRegex.is_quote q = true ->
  r <> EmptyString -> JsText.all_chars Js.is_word r = true ->
  nm <> EmptyString -> JsText.all_chars QuoteRegex.not_quote nm = true ->
  getLocator d
    (Some ("getByRole(" ++ String q (r ++ String q
             (", { name: " ++ String q (nm ++ String q " })")))))
    env
  = (env, tGetByRole d pg r (Some nm))
  /\ getLocator d (Some ("getByRole(" ++ String q (r ++ String q ")"))) env
     = (env, tGetByRole d pg r None).
Proof.
  intros P Hq Nr Hr Nn Hn.
  pose proof (search_here _ _ _ (quote_role_named q r nm Hq Nr Hr Nn Hn)) as S1.
  pose proof (search_here _ _ _ (quote_role_bare q r Hq Nr Hr)) as S2.
  unfold getLocator, bindM, getPage, lift. rewrite P. cbv beta zeta. split.
  - rewrite S1. cbn. destruct nm; [ contradiction | reflexivity ].
  - rewrite S2. reflexivity.
Qed.

End RunnerLocators.

Lemma runner_parses_quoted_calls_witness :
  RunTestTool.getLocator RunTestSpec.quietBrowser (Some "getByLabel('Login')")
    RunTestSpec.openEnv
  = (RunTestSpec.openEnv, Returned "Login").
Proof.
  destruct (runner_parses_quoted_calls RunTestSpec.quietBrowser RunTestSpec.openEnv tt
              "'" "'" "Login" eq_refl eq_refl eq_refl
              (fun H : "Login" = EmptyString => eq_ind "Login"
                 (fun s => match s with EmptyString => False | String _ _ => True end)
                 I EmptyString H)
              eq_refl)
    as (_ & _ & _ & E & _).
  exact E.
Defined.

Lemma runner_parses_role_calls_witness :
  RunTestTool.getLocator RunTestSpec.quietBrowser
    (Some "getByRole('button', { name: 'Login' })") RunTestSpec.openEnv
  = (RunTestSpec.openEnv, Returned "button").
Proof.
  assert (N : forall c s, String c s <> EmptyString) by (intros c s; discriminate).
  destruct (runner_parses_role_calls RunTestSpec.quietBrowser RunTestSpec.openEnv tt
              "'" "button" "Login" eq_refl eq_refl (N _ _) eq_refl (N _ _) eq_refl)
    as (E & _).
  exact E.
Defined.

Section RunnerXPath.

Import RunTestTool SpecMore.

Variable d : TestDriver.

Lemma search_step {R} (m : string -> option R) (c : ascii) (r : string) :
  m (String c r) = None -> Regex.search m (String c r) = Regex.search m r.
Proof. intros H. simpl. now rewrite H. Qed.

(** Where no opening parenthesis occurs, no call pattern matches. *)
Lemma quote_call_needs_paren (f s : string) :
  JsText.all_chars no_paren s = true ->
  Regex.search (QuoteRegex.quoted_call_at f) s = None.
Proof.
  assert (At : forall t, JsText.all_chars no_paren t = true ->
                         QuoteRegex.quoted_call_at f t = None).
  { intros t Ht. unfold QuoteRegex.quoted_call_at.
    destruct (Regex.lit (f ++ "(") t) as [r|] eqn:L; [ | reflexivity ].
    apply lit_sound in L. subst t.
    rewrite !all_chars_append in Ht. simpl in Ht.
    rewrite !andb_false_r in Ht. discriminate Ht. }
  induction s as [|c s IH]; intros H.
  - simpl. now rewrite (At EmptyString H).
  - simpl. rewrite (At _ H). apply IH.
    simpl in H. apply andb_true_iff in H. tauto.
Qed.

Lemma plain_no_paren (i : string) :
  JsText.all_chars plainIdChar i = true -> JsText.all_chars no_paren i = true.
Proof.
  apply all_chars_weaken. intros c H. unfold plainIdChar in H.
  apply andb_true_iff in H. destruct H as [H _].
  apply andb_true_iff in H. now destruct H as [_ H].
Qed.

Lemma id_path_call_fails (i : string) :
  JsText.all_chars plainIdChar i = true ->
  Regex.search (QuoteRegex.quoted_call_at "locator")
    ("locator(" ++ dquote ++ idPath i ++ dquote ++ ")")
  = None.
Proof.
  intros H.
  assert (Form : "locator(" ++ dquote ++ idPath i ++ dquote ++ ")"
                 = "locator("
                   ++ dquote ++ "//*[@id=" ++ dquote ++ i ++ dquote ++ "]" ++ dquote ++ ")").
  { unfold idPath. now rewrite !append_assoc. }
  rewrite Form. clear Form.
  assert (Here : QuoteRegex.quoted_call_at "locator"
                   ("locator("
                    ++ dquote ++ "//*[@id=" ++ dquote ++ i ++ dquote ++ "]" ++ dquote ++ ")")
                 = None).
  { unfold QuoteRegex.quoted_call_at.
    change ("locator("
            ++ dquote ++ "//*[@id=" ++ dquote ++ i ++ dquote ++ "]" ++ dquote ++ ")")
      with (("locator" ++ "(")
            ++ String (ascii_of_nat 34)
                 ("//*[@id="
                  ++ String (ascii_of_nat 34) (i ++ dquote ++ "]" ++ dquote ++ ")"))).
    rewrite lit_append, one_quote by reflexivity.
    rewrite (some_of_run QuoteRegex.not_quote "//*[@id=") by (discriminate || reflexivity).
    rewrite one_quote by reflexivity.
    destruct i as [|c i]; [ reflexivity | ].
    simpl in H. apply andb_true_iff in H. destruct H as [Hc _].
    unfold plainIdChar in Hc. apply andb_true_iff in Hc. destruct Hc as [_ Hc].
    apply negb_true_iff in Hc. cbn [Regex.lit append].
    rewrite Ascii.eqb_sym, Hc. reflexivity. }
  revert Here.
  change ("locator("
          ++ dquote ++ "//*[@id=" ++ dquote ++ i ++ dquote ++ "]" ++ dquote ++ ")")
    with (String "l" (String "o" (String "c" (String "a" (String "t" (String "o"
           (String "r" (String "("
              (dquote ++ "//*[@id=" ++ dquote ++ i ++ dquote ++ "]" ++ dquote ++ ")"))))))))).
  intros Here.
  rewrite search_step by exact Here.
  do 7 (rewrite search_step by reflexivity).
  apply quote_call_needs_paren.
  change (dquote ++ "//*[@id=" ++ dquote ++ i ++ dquote ++ "]" ++ dquote ++ ")")
    with ((dquote ++ "//*[@id=" ++ dquote) ++ i ++ (dquote ++ "]" ++ dquote ++ ")")).
  rewrite !all_chars_append, (plain_no_paren i H). reflexivity.
Qed.

End RunnerXPath.

(** X27. What the test runner makes of the xpath candidate the tools
    synthesize, which is written between double quotes.  When the element has
    an id, so that its path is the id test with the id between double quotes,
    and the id holds no quote and no parenthesis, the call pattern does not
    match anywhere and the whole candidate text, not the path, is handed to
    page.locator as a selector.  When the path is not empty and holds no
    quote character, as a positional path does, the path itself is handed to
    page.locator. *)
Theorem runner_xpath_candidate (d : TestDriver) (env : RunTestTool.Env d)
    (pg : TPage d) (el : ElementInfo) (c : LocatorResult) :
  RunTestTool.page d env = Some pg ->
  In c (AnalyzePageTool.generateLocators el)
  \/ In c (GetLocatorsTool.generateLocators el) ->
  kind c = "xpath" ->
  (forall i, xpath el = SpecMore.idPath i ->
             JsText.all_chars SpecMore.plainIdChar i = true ->
             RunTestTool.getLocator d (Some (locator c)) env
             = (env, tLocator d pg (locator c)))
  /\ (xpath el <> EmptyString ->
      JsText.all_chars QuoteRegex.not_quote (xpath el) = true ->
      RunTestTool.getLocator d (Some (locator c)) env
      = (env, tLocator d pg (xpath el))).
Proof.
  intros P H K.
  assert (E : locator c = "locator(" ++ dquote ++ xpath el ++ dquote ++ ")").
  { destruct H as [H|H];
      [ unfold AnalyzePageTool.generateLocators in H
      | unfold GetLocatorsTool.generateLocators in H ];
      candidate_cases H; cbn [kind locator] in *; try discriminate K; reflexivity. }
  rewrite E. split.
  - intros i Ei Hi. rewrite Ei.
    unfold RunTestTool.getLocator, RunTestTool.bindM, RunTestTool.getPage,
      RunTestTool.lift.
    rewrite P. cbv beta zeta.
    rewrite (id_path_call_fails i Hi). reflexivity.
  - intros Ne Hq.
    unfold RunTestTool.getLocator, RunTestTool.bindM, RunTestTool.getPage,
      RunTestTool.lift.
    rewrite P. cbv beta zeta.
    change ("locator(" ++ dquote ++ xpath el ++ dquote ++ ")")
      with (("locator" ++ "(")
            ++ String (ascii_of_nat 34) (xpath el ++ String (ascii_of_nat 34) ")")).
    rewrite (search_here _ _ _
               (quote_call_here "locator" (ascii_of_nat 34) (ascii_of_nat 34)
                  (xpath el) eq_refl eq_refl Ne Hq)).
    reflexivity.
Qed.

Lemma runner_xpath_candidate_witness :
  RunTestTool.getLocator RunTestSpec.quietBrowser
    (Some ("locator(" ++ dquote ++ SpecMore.idPath "username" ++ dquote ++ ")"))
    RunTestSpec.openEnv
  = (RunTestSpec.openEnv,
     Returned ("locator(" ++ dquote ++ SpecMore.idPath "username" ++ dquote ++ ")")).
Proof.
  assert (H : In {| kind := "xpath";
                    locator := "locator(" ++ dquote ++ SpecMore.idPath "username"
                               ++ dquote ++ ")";
                    reliability := 40;
                    description := "XPath - avoid unless necessary" |}
                 (AnalyzePageTool.generateLocators SpecMore.userField)).
  { vm_compute. auto 10. }
  destruct (runner_xpath_candidate RunTestSpec.quietBrowser RunTestSpec.openEnv tt
              SpecMore.userField _ eq_refl (or_introl H) eq_refl) as [A _].
  exact (A "username" eq_refl eq_refl).
Defined.
